(** * mood_assist: classification, response selection and check-in ledger

    A shallow embedding of [classifier.py], [config.py], [content_loader.py]
    and [storage.py], of the handlers of [bot.py] and [admin.py] and of the
    naming of stored images in [add_meme.py], followed by the properties of
    the specification that concern them and by further properties of the
    code.

    Conventions.
    - A Python [str] is the list of its Unicode code points ([list N]).
    - The tables of the interpreter that the code consults but does not
      define ([str.lower], the regex classes [\w] and [\s], the iteration
      order of a [set]) are the fields of the class [PyRuntime]; every
      theorem holds for all of them.  [ascii_runtime] fixes them on the
      ASCII range and is used to run the functions on concrete inputs.
      The class [PyRe] and [ascii_re] do the same for the [re] tables that
      [add_meme.py] consults.
    - A JSON object that the code only iterates ([keywords.json]) is the list
      of its items; one that it indexes is a [gmap].
    - SQLite tables are a [gmap] on the primary key ([users]) and a list of
      rows in insertion order ([checkins]); timestamps are integers. *)

From Stdlib Require Import ZArith NArith String Ascii List Lia Permutation.
From stdpp Require Import gmap list fin_maps sorting.

Local Open Scope N_scope.

(** ** Python strings *)

Abbreviation str := (list N).

(** An ASCII literal as a Python string. *)
Definition py (s : string) : str := N_of_ascii <$> list_ascii_of_string s.

(** The exceptions the modelled code can raise. *)
Inductive exn := IndexError.

Inductive result (A : Type) : Type :=
| Ok (a : A)
| Raise (e : exn).
Arguments Ok {A} a.
Arguments Raise {A} e.

(** What the code takes from the interpreter. *)
Class PyRuntime := {
  (** [str.lower()] *)
  str_lower : str → str;
  (** the class [\w] of a [str] pattern *)
  re_word : N → bool;
  (** the class [\s], which is also the separator set of [str.split()] *)
  isspace : N → bool;
  (** [list(s)] for the set [s] obtained by adding the given distinct
      elements in the given order: some arrangement of the same elements *)
  set_iter : list str → list str;
  isspace_SPACE : isspace 32 = true;
  set_iter_perm : ∀ l, set_iter l ≡ₚ l;
}.

Module Str.

(** [p] is a prefix of [s]. *)
Fixpoint startswith (s p : str) {struct p} : bool :=
  match p, s with
  | [], _ => true
  | _ :: _, [] => false
  | a :: p', b :: s' => (a =? b) && startswith s' p'
  end.

(** [needle in hay] for strings: [needle] occurs as a contiguous slice. *)
Fixpoint contains (hay needle : str) : bool :=
  startswith hay needle ||
  match hay with
  | [] => false
  | _ :: hay' => contains hay' needle
  end.

(** The scan behind [split]: [cur] is the word being read. *)
Fixpoint split_go (sep : N → bool) (cur s : str) : list str :=
  match s with
  | [] => match cur with [] => [] | _ => [cur] end
  | c :: s' =>
      if sep c then
        match cur with
        | [] => split_go sep [] s'
        | _ => cur :: split_go sep [] s'
        end
      else split_go sep (cur ++ [c]) s'
  end.

(** Maximal runs of characters that are not separators. *)
Definition split_on (sep : N → bool) (s : str) : list str := split_go sep [] s.

(** [sep.join(ws)] *)
Fixpoint join (sep : str) (ws : list str) : str :=
  match ws with
  | [] => []
  | [w] => w
  | w :: ws' => w ++ sep ++ join sep ws'
  end.

(** Truth value of a string: non-empty. *)
Definition truthy (s : str) : bool :=
  match s with [] => false | _ => true end.

Section WithRuntime.
Context `{PyRuntime}.

(** [s.split()] *)
Definition split (s : str) : list str := split_on isspace s.

(** [re.sub(r'[^\w\s]', ' ', s)] *)
Definition re_sub_punct (s : str) : str :=
  (λ c, if re_word c || isspace c then c else 32) <$> s.

End WithRuntime.
End Str.

(** ** config.py *)

Module Config.

Definition CHECKIN_COOLDOWN_SECONDS : Z := (7 * 24 * 60 * 60)%Z.

Definition MOOD_CATEGORIES : list str :=
  [ py "POSITIVE"; py "NEUTRAL_TIRED"; py "SAD_LOW";
    py "ANGRY_FRUSTRATED"; py "ANXIOUS_STRESSED"; py "HEAVY_DEEP" ].

(** The button labels start with an emoji, given by its code points. *)
Definition MOOD_BUTTONS : gmap str str :=
  list_to_map
    [ (128516 :: py " Happy", py "POSITIVE");
      (128578 :: py " Okay", py "NEUTRAL_TIRED");
      (128564 :: py " Tired", py "NEUTRAL_TIRED");
      (128532 :: py " Sad", py "SAD_LOW");
      (128545 :: py " Angry", py "ANGRY_FRUSTRATED");
      (128560 :: py " Anxious", py "ANXIOUS_STRESSED");
      (128371 :: 65039 :: py " Empty", py "HEAVY_DEEP") ].

Definition MEDIA_DIR : str := py "media".

End Config.

(** ** classifier.py *)

Module MoodClassifier.
Import Str.

(** [keywords.json]: the items of the object, category name first. *)
Abbreviation keyword_table := (list (str * list str)).

Record t := mk {
  keywords : keyword_table;
  priority : list str;
}.

(** [_load_keywords]: the parsed file, or the empty table when the file is
    absent ([None]). *)
Definition _load_keywords (file : option keyword_table) : keyword_table :=
  match file with
  | Some table => table
  | None => []
  end.

(** [__init__] *)
Definition new (file : option keyword_table) : t :=
  {| keywords := _load_keywords file;
     (* Priority order (higher index = higher priority) *)
     priority :=
       [ py "POSITIVE"; py "NEUTRAL_TIRED"; py "ANXIOUS_STRESSED";
         py "ANGRY_FRUSTRATED"; py "SAD_LOW"; py "HEAVY_DEEP" ] |}.

(** [matched_categories.add(category)], the set kept as the list of its
    elements in order of first insertion. *)
Definition set_add (category : str) (s : list str) : list str :=
  if bool_decide (category ∈ s) then s else s ++ [category].

Definition classify_button_mood (button_label : str) : option str :=
  Config.MOOD_BUTTONS !! button_label.

Section WithRuntime.
Context `{PyRuntime}.

Definition _normalize_text (text : str) : str :=
  let text := str_lower text in
  let text := re_sub_punct text in
  join [32] (split text).

(** The test of the inner loop, for one keyword. *)
Definition keyword_matches (normalized : str) (words : list str) (keyword : str) : bool :=
  let keyword_normalized := _normalize_text keyword in
  contains normalized keyword_normalized
  || existsb (λ kw, bool_decide (kw ∈ words)) (split keyword_normalized).

(** The two nested loops: a category is added when one of its keywords
    matches (the inner loop stops at the first one). *)
Definition matched_categories (table : keyword_table) (normalized : str) (words : list str)
  : list str :=
  fold_left
    (λ matched '(category, kws),
       if existsb (keyword_matches normalized words) kws
       then set_add category matched
       else matched)
    table [].

Definition classify_text_mood (self : t) (user_text : str) : result str :=
  let normalized := _normalize_text user_text in
  let words := split normalized in
  let matched := matched_categories (keywords self) normalized words in
  match matched with
  | [] => Ok (py "NEUTRAL_TIRED")
  | _ =>
      match find (λ category, bool_decide (category ∈ matched)) (rev (priority self)) with
      | Some category => Ok category
      | None =>
          match set_iter matched !! 0%nat with
          | Some category => Ok category
          | None => Raise IndexError
          end
      end
  end.

Definition classify (self : t) (mood_input : str) (is_button : bool) : result str :=
  if is_button then
    match classify_button_mood mood_input with
    | Some category => if truthy category then Ok category else Ok (py "NEUTRAL_TIRED")
    | None => Ok (py "NEUTRAL_TIRED")
    end
  else classify_text_mood self mood_input.

End WithRuntime.
End MoodClassifier.

(** ** The interpreter's tables on the ASCII range *)

Module Ascii_rt.

Definition lower_cp (c : N) : N :=
  if (65 <=? c) && (c <=? 90) then c + 32 else c.

Definition word (c : N) : bool :=
  ((48 <=? c) && (c <=? 57)) || ((65 <=? c) && (c <=? 90))
  || ((97 <=? c) && (c <=? 122)) || (c =? 95).

Definition space (c : N) : bool :=
  ((9 <=? c) && (c <=? 13)) || ((28 <=? c) && (c <=? 32)).

End Ascii_rt.

(** CPython's tables for code points below 128 (above, a character is
    left as it is and counts as punctuation), sets iterated in insertion
    order. *)
Definition ascii_runtime : PyRuntime :=
  {| str_lower := fmap Ascii_rt.lower_cp;
     re_word := Ascii_rt.word;
     isspace := Ascii_rt.space;
     set_iter := id;
     isspace_SPACE := eq_refl;
     set_iter_perm := λ l, Permutation_refl l |}.

(** ** content_loader.py *)

(** ** pathlib, on a POSIX host

    A path is its root and its components; what [Path(a) / b] and [str]
    do with them. *)

Module PosixPath.
Import Str.

Record t := mk { root : str; parts : list str }.

Definition is_sep (c : N) : bool := c =? 47.

(** The root of a path string: one slash, two slashes for exactly two
    leading slashes, or none. *)
Definition root_of (s : str) : str :=
  if startswith s (py "///") then py "/"
  else if startswith s (py "//") then py "//"
  else if startswith s (py "/") then py "/"
  else [].

(** The components of a path string: the pieces between the slashes,
    without the empty ones and the ones that are a single dot. *)
Definition parts_of (s : str) : list str :=
  filter (λ part, part ≠ py ".") (split_on is_sep s).

(** [Path(s)] *)
Definition Path (s : str) : t := {| root := root_of s; parts := parts_of s |}.

(** [self / key]: an absolute [key] takes the place of [self]. *)
Definition truediv (self : t) (key : str) : t :=
  if startswith key (py "/") then Path key
  else {| root := root self; parts := parts self ++ parts_of key |}.

(** [str(self)] *)
Definition to_str (self : t) : str :=
  match root self, parts self with
  | [], [] => py "."
  | r, ps => r ++ join (py "/") ps
  end.

End PosixPath.

Module ContentLoader.
Import Str.

(** One entry of [responses.json]; an absent key is [None]. *)
Record category_data := {
  texts : option (list str);
  memes : option (list str);
  videos : option (list str);
}.

Abbreviation catalog := (gmap str category_data).

Record t := mk { responses : catalog }.

(** [_load_responses]: the parsed file, or [{}] when it is absent. *)
Definition _load_responses (file : option catalog) : catalog :=
  match file with
  | Some c => c
  | None => ∅
  end.

Definition new (file : option catalog) : t :=
  {| responses := _load_responses file |}.

(** The dict the two methods build and return. *)
Record content := {
  text : option str;
  meme : option str;
  video : option str;
  text_id : option str;
}.

Definition set_text (v : option str) (r : content) : content :=
  {| text := v; meme := meme r; video := video r; text_id := text_id r |}.
Definition set_meme (v : option str) (r : content) : content :=
  {| text := text r; meme := v; video := video r; text_id := text_id r |}.
Definition set_video (v : option str) (r : content) : content :=
  {| text := text r; meme := meme r; video := v; text_id := text_id r |}.
Definition set_text_id (v : option str) (r : content) : content :=
  {| text := text r; meme := meme r; video := video r; text_id := v |}.

(** *** Random draws

    The generator is the stream of the indices it will produce; a
    computation reads from it and may raise. *)
Definition rng := nat → nat.

Definition M (A : Type) : Type := rng → result (A * rng).

#[global] Instance M_ret : MRet M := λ A a g, Ok (a, g).

#[global] Instance M_bind : MBind M := λ A B k m g,
  match m g with
  | Ok (a, g') => k a g'
  | Raise e => Raise e
  end.

(** [random.choice(seq)]: [IndexError] on an empty sequence. *)
Definition random_choice {A} (seq : list A) : M A :=
  λ g, match seq !! (g 0 mod length seq)%nat with
       | Some x => Ok (x, λ n, g (S n))
       | None => Raise IndexError
       end.

(** [str(Path(MEDIA_DIR) / "memes" / meme_filename)] *)
Definition meme_path (meme_filename : str) : str :=
  PosixPath.to_str
    (PosixPath.truediv (PosixPath.truediv (PosixPath.Path Config.MEDIA_DIR) (py "memes"))
       meme_filename).

(** [key in d and d[key]]: the list under the key, when the key is there
    and the list is not empty. *)
Definition nonempty_list (l : option (list str)) : option (list str) :=
  match l with
  | Some (_ :: _) => l
  | _ => None
  end.

(** [path_exists] answers [Path.exists()]. *)
Definition get_content_for_category
    (self : t) (path_exists : str → bool) (category : str) : M content :=
  match responses self !! category with
  | None =>
      mret {| text := Some (py "Thanks for checking in. Take care of yourself.");
             meme := None;
             video := None;
             text_id := Some (py "default") |}
  | Some category_data =>
      let result := {| text := None; meme := None; video := None; text_id := None |} in
      (* Get random text *)
      result ←
        match nonempty_list (texts category_data) with
        | Some ts =>
            chosen ← random_choice ts;
            mret (set_text_id (Some (category ++ py "_text")) (set_text (Some chosen) result))
        | None => mret result
        end;
      (* Get random meme (for POSITIVE and NEUTRAL_TIRED only) *)
      result ←
        (if bool_decide (category ∈ [py "POSITIVE"; py "NEUTRAL_TIRED"]) then
           match nonempty_list (memes category_data) with
           | Some ms =>
               meme_filename ← random_choice ms;
               if path_exists (meme_path meme_filename)
               then mret (set_meme (Some (meme_path meme_filename)) result)
               else mret (set_meme None result)
           | None => mret result
           end
         else mret result);
      (* Get random video (for SAD_LOW, ANXIOUS_STRESSED) *)
      result ←
        (if bool_decide (category ∈ [py "SAD_LOW"; py "ANXIOUS_STRESSED"]) then
           match nonempty_list (videos category_data) with
           | Some vs =>
               chosen ← random_choice vs;
               mret (set_video (Some chosen) result)
           | None => mret result
           end
         else mret result);
      mret result
  end.

Definition defaults : gmap str str :=
  list_to_map
    [ (py "POSITIVE", py "That's wonderful! Keep riding this wave and enjoy the moment.");
      (py "NEUTRAL_TIRED", py "It's okay to feel neutral. Rest when you need it.");
      (py "SAD_LOW", py "I hear you. You're not alone in this. One step at a time.");
      (py "ANGRY_FRUSTRATED", py "Your feelings are valid. Take a breath and give yourself space.");
      (py "ANXIOUS_STRESSED", py "Breathe. You're safe right now. One moment at a time.");
      (py "HEAVY_DEEP",
       py "I'm glad you're here. Please reach out to someone you trust. Your life matters.") ].

Definition _get_default_text (category : str) : str :=
  default (py "Thanks for checking in with me.") (defaults !! category).

(** [not content["text"]]: [None] or the empty string. *)
Definition falsy (v : option str) : bool :=
  match v with
  | Some s => negb (truthy s)
  | None => true
  end.

Definition get_response_for_mood
    (self : t) (path_exists : str → bool) (category : str) : M content :=
  content ← get_content_for_category self path_exists category;
  (* Ensure there's always a text response *)
  if falsy (text content)
  then mret (set_text (Some (_get_default_text category)) content)
  else mret content.

(** What [open] and [json.load] find at the path of [responses.json]:
    no file, a file that [json.load] rejects with the given message, or a
    catalog. *)
Inductive disk_file :=
| Missing
| Malformed (message : str)
| Parsed (c : catalog).

(** [reload]: the loader with the catalog read again, or the message of
    the exception of [json.load], raised before [self.responses] is
    assigned. *)
Definition reload (self : t) (file : disk_file) : str + t :=
  match file with
  | Missing => inr {| responses := _load_responses None |}
  | Parsed c => inr {| responses := _load_responses (Some c) |}
  | Malformed message => inl message
  end.

Definition check_media_exists (path_exists : str → bool) (media_path : option str) : bool :=
  match media_path with
  | None => false
  | Some p => if truthy p then path_exists p else false
  end.

End ContentLoader.

(** ** storage.py *)

Module Database.

Local Open Scope Z_scope.

(** A reading of the host clock: the UTC time in microseconds since the
    epoch, and what the host's time zone adds to it for local time. *)
Record clock := {
  utc_us : Z;
  tz_offset_us : Z;
}.

(** SQLite's [CURRENT_TIMESTAMP]: UTC, to the second
    ([YYYY-MM-DD HH:MM:SS]); kept as the number of seconds. *)
Definition CURRENT_TIMESTAMP (c : clock) : Z := utc_us c / 1000000.

(** [datetime.now()]: a naive datetime in local time, in microseconds. *)
Definition datetime_now (c : clock) : Z := utc_us c + tz_offset_us c.

(** [datetime.fromisoformat] on a stored timestamp: the naive datetime
    with the same fields. *)
Definition fromisoformat (ts : Z) : Z := ts * 1000000.

(** [timedelta(seconds=n)], in microseconds. *)
Definition timedelta_seconds (n : Z) : Z := n * 1000000.

(** A row of [users]; the key [user_id] is the key of the map. *)
Record user_row := {
  username : option str;
  first_seen_at : Z;
  last_checkin_at : option Z;
  timezone : str;
}.

(** A row of [checkins]; [id] is its position in the table. *)
Record checkin_row := {
  user_id : Z;
  created_at : Z;
  input_type : str;
  mood_raw : option str;
  category : str;
  response_text_id : option str;
  meme_file : option str;
  video_url : option str;
}.

Record t := mk {
  users : gmap Z user_row;
  checkins : list checkin_row;
}.

(** [init_db] on a new file. *)
Definition init_db : t := {| users := ∅; checkins := [] |}.

(** [INSERT OR IGNORE INTO users (user_id, username)] *)
Definition register_user (now : clock) (self : t) (user_id : Z) (username : option str)
  : t :=
  match users self !! user_id with
  | Some _ => self
  | None =>
      {| users :=
           <[user_id := {| username := username;
                           first_seen_at := CURRENT_TIMESTAMP now;
                           last_checkin_at := None;
                           timezone := py "Asia/Qyzylorda" |}]> (users self);
         checkins := checkins self |}
  end.

(** [SELECT * FROM users WHERE user_id = ?]: the row with its key, or
    [None]. *)
Definition get_user (self : t) (user_id : Z) : option (Z * user_row) :=
  match users self !! user_id with
  | Some row => Some (user_id, row)
  | None => None
  end.

Definition get_last_checkin (self : t) (user_id : Z) : option Z :=
  match users self !! user_id with
  | Some row =>
      match last_checkin_at row with
      | Some ts => Some (fromisoformat ts)
      | None => None
      end
  | None => None
  end.

(** The result pair; the remaining time is a [timedelta] in microseconds.
    [cooldown_seconds] is a whole number of seconds, as in [config.py], and
    [total_seconds() >= cooldown_seconds] is compared exactly (the float
    that [total_seconds] returns decides it exactly for cooldowns below
    2^33 seconds). *)
Definition can_checkin (now : clock) (self : t) (user_id : Z) (cooldown_seconds : Z)
  : bool * option Z :=
  match get_last_checkin self user_id with
  | None => (true, None)
  | Some last_checkin =>
      let time_elapsed := datetime_now now - last_checkin in
      if bool_decide (timedelta_seconds cooldown_seconds ≤ time_elapsed) then (true, None)
      else
        let time_remaining := timedelta_seconds cooldown_seconds - time_elapsed in
        (false, Some time_remaining)
  end.

Definition set_last_checkin_at (ts : Z) (row : user_row) : user_row :=
  {| username := username row;
     first_seen_at := first_seen_at row;
     last_checkin_at := Some ts;
     timezone := timezone row |}.

(** [now_insert] and [now_update] are the clock readings of the two
    statements; [LOG_RAW_TEXT] is the configuration flag. *)
Definition log_checkin (LOG_RAW_TEXT : bool) (now_insert now_update : clock) (self : t)
    (user_id : Z) (category input_type : str)
    (mood_raw response_text_id meme_file video_url : option str) : t :=
  (* Store raw text only if configured *)
  let stored_raw := if LOG_RAW_TEXT then mood_raw else None in
  let row :=
    {| user_id := user_id;
       created_at := CURRENT_TIMESTAMP now_insert;
       input_type := input_type;
       mood_raw := stored_raw;
       category := category;
       response_text_id := response_text_id;
       meme_file := meme_file;
       video_url := video_url |} in
  (* Update user's last_checkin_at *)
  {| users :=
       alter (set_last_checkin_at (CURRENT_TIMESTAMP now_update)) user_id (users self);
     checkins := checkins self ++ [row] |}.

Definition get_all_active_users (self : t) : list Z :=
  (map_to_list (users self)).*1.

Record stats := {
  total_users : nat;
  week_checkins : nat;
  category_counts : gmap str nat;
}.

(** [created_at >= datetime('now', '-7 days')] at the reading [now]. *)
Definition this_week (now : clock) (row : checkin_row) : bool :=
  bool_decide (CURRENT_TIMESTAMP now - 7 * 86400 ≤ created_at row).

(** [dict] of the rows of [SELECT category, COUNT( * ) ... GROUP BY category]. *)
Definition count_by_category (rows : list checkin_row) : gmap str nat :=
  foldr (λ row m, <[category row := S (default 0%nat (m !! category row))]> m) ∅ rows.

(** [now_week] and [now_breakdown] are the clock readings of the two
    statements that look at the last seven days. *)
Definition get_stats (now_week now_breakdown : clock) (self : t) : stats :=
  {| total_users := size (users self);
     week_checkins := length (filter (λ row, this_week now_week row = true) (checkins self));
     category_counts :=
       count_by_category
         (filter (λ row, this_week now_breakdown row = true) (checkins self)) |}.

End Database.

(** ** Numbers in strings *)

Module PyFormat.

(** [str(n)] for a count: its decimal digits. *)
Fixpoint str_of_nat_go (fuel n : nat) (acc : str) : str :=
  match fuel with
  | O => acc
  | S fuel' =>
      let acc' := (48 + N.of_nat (n mod 10)) :: acc in
      if (n / 10 =? 0)%nat then acc' else str_of_nat_go fuel' (n / 10) acc'
  end.

Definition str_of_nat (n : nat) : str := str_of_nat_go (S n) n [].

End PyFormat.

(** ** bot.py: the replies and the check-in handlers

    A handler is followed along the path on which its calls to the
    transport and the write to the ledger return; what it leaves behind
    when one of them raises is not described. *)

Module Bot.
Import Str.

Definition AWAITING_MOOD_TEXT : Z := 1.

(** [ConversationHandler.END] *)
Definition END : Z := (-1)%Z.

(** The calls that a handler makes on the transport, in the order in which
    it makes them when each of them returns. *)
Inductive call :=
| answer
| reply_text (text : option str)
| edit_message_text (text : option str)
| edit_message_media (media : option str)
| reply_photo (path : str)
| send_message (chat_id : Z) (text : str) (keyboard : list (str * str)).

(** A value in an f-string. *)
Definition fstr (v : option str) : str :=
  match v with
  | Some s => s
  | None => py "None"
  end.

Definition truthy_opt (v : option str) : bool :=
  match v with
  | Some s => truthy s
  | None => false
  end.

(** [edit_message_text] on a callback query, [reply_text] on a message. *)
Definition send_text (is_query : bool) (text : option str) : call :=
  if is_query then edit_message_text text else reply_text text.

(** [meme and os.path.exists(meme)], with the path when it holds. *)
Definition existing_meme (path_exists : str → bool) (meme : option str) : option str :=
  match meme with
  | Some p => if truthy p && path_exists p then Some p else None
  | None => None
  end.

Definition CRISIS_LINE : str :=
  [10; 10; 129309]
  ++ py " Please reach out to someone you trust. Crisis support is available 24/7.".

(** [is_query] tells whether the first argument is a callback query. *)
Definition send_mood_response (path_exists : str → bool) (is_query : bool)
    (category : str) (response : ContentLoader.content) : list call :=
  let text := ContentLoader.text response in
  let meme := ContentLoader.meme response in
  let video := ContentLoader.video response in
  if bool_decide (category = py "POSITIVE") then
    (* Meme + text *)
    match existing_meme path_exists meme with
    | Some photo =>
        [send_text is_query text]
        ++ (if is_query then [edit_message_media None] else [])
        ++ [reply_photo photo]
    | None => [send_text is_query (Some (128516 :: py " " ++ fstr text))]
    end
  else if bool_decide (category = py "NEUTRAL_TIRED") then
    (* Text + optional image *)
    [send_text is_query (Some (128564 :: py " " ++ fstr text))]
    ++ match existing_meme path_exists meme with
       | Some photo => [reply_photo photo]
       | None => []
       end
  else if bool_decide (category = py "SAD_LOW") then
    (* Text + optional video *)
    let response_text := 128153 :: py " " ++ fstr text in
    let response_text :=
      if truthy_opt video
      then response_text ++ [10; 10; 128173] ++ py " Watch this: " ++ fstr video
      else response_text in
    [send_text is_query (Some response_text)]
  else if bool_decide (category = py "ANGRY_FRUSTRATED") then
    (* Text only (no meme) *)
    [send_text is_query (Some (128293 :: py " " ++ fstr text))]
  else if bool_decide (category = py "ANXIOUS_STRESSED") then
    (* Grounding text + optional video *)
    let response_text := 127788 :: 65039 :: py " " ++ fstr text in
    let response_text :=
      if truthy_opt video
      then response_text ++ [10; 10; 127925] ++ py " Calm music: " ++ fstr video
      else response_text in
    [send_text is_query (Some response_text)]
  else if bool_decide (category = py "HEAVY_DEEP") then
    (* Gentle support + encouragement *)
    [send_text is_query (Some (128153 :: py " " ++ fstr text ++ CRISIS_LINE))]
  else [].

(** [callback_data.replace("mood_", "")]: every occurrence is removed,
    from left to right. *)
Fixpoint remove_mood_ (s : str) : str :=
  match s with
  | 109 :: 111 :: 111 :: 100 :: 95 :: rest => remove_mood_ rest
  | c :: s' => c :: remove_mood_ s'
  | [] => []
  end.

(** The keys of MOOD_BUTTONS in the order of [config.py]. *)
Definition mood_labels : list str :=
  [ 128516 :: py " Happy"; 128578 :: py " Okay"; 128564 :: py " Tired";
    128532 :: py " Sad"; 128545 :: py " Angry"; 128560 :: py " Anxious";
    128371 :: 65039 :: py " Empty" ].

(** The inline keyboard of [checkin_start] and [weekly_broadcast]: the
    label and the callback data of each button. *)
Definition mood_keyboard : list (str * str) :=
  ((λ mood_label, (mood_label, py "mood_" ++ mood_label)) <$> mood_labels)
  ++ [(9997 :: 65039 :: py " Type my mood", py "mood_text")].

(** The module's [db], [classifier] and [content_loader], the file system
    and the LOG_RAW_TEXT flag. *)
Record world := {
  db : Database.t;
  classifier : MoodClassifier.t;
  content_loader : ContentLoader.t;
  path_exists : str → bool;
  LOG_RAW_TEXT : bool;
}.

Definition with_db (w : world) (db' : Database.t) : world :=
  {| db := db';
     classifier := classifier w;
     content_loader := content_loader w;
     path_exists := path_exists w;
     LOG_RAW_TEXT := LOG_RAW_TEXT w |}.

(** A result in the monad of the random draws. *)
Definition lift {A} (r : result A) : ContentLoader.M A :=
  λ g, match r with
       | Ok a => Ok (a, g)
       | Raise e => Raise e
       end.

Section WithRuntime.
Context `{PyRuntime}.

(** [now_insert] and [now_update] are the clock readings of
    [log_checkin]. The result is the world after the handler, its calls
    and the state it returns. *)
Definition mood_button_selected (now_insert now_update : Database.clock) (w : world)
    (user_id : Z) (callback_data : str) : ContentLoader.M (world * list call * Z) :=
  (* Check if user chose text input *)
  if bool_decide (callback_data = py "mood_text") then
    mret (w,
          [answer;
           edit_message_text
             (Some (128221
                    :: py " Describe how you're feeling in your own words. (Send one message)"))],
          AWAITING_MOOD_TEXT)
  else
    (* Extract mood button label *)
    let mood_label := remove_mood_ callback_data in
    category ← lift (MoodClassifier.classify (classifier w) mood_label true);
    response ←
      ContentLoader.get_response_for_mood (content_loader w) (path_exists w) category;
    let db' :=
      Database.log_checkin (LOG_RAW_TEXT w) now_insert now_update (db w) user_id category
        (py "button") None (ContentLoader.text_id response) (ContentLoader.meme response)
        (ContentLoader.video response) in
    mret (with_db w db',
          answer :: send_mood_response (path_exists w) true category response,
          END).

(** [not mood_text or mood_text.strip() == ""] *)
Definition blank (mood_text : option str) : bool :=
  match mood_text with
  | Some s => forallb isspace s
  | None => true
  end.

Definition mood_text_received (now_insert now_update : Database.clock) (w : world)
    (user_id : Z) (mood_text : option str) : ContentLoader.M (world * list call * Z) :=
  match mood_text with
  | Some text =>
      if blank mood_text then
        mret (w,
              [reply_text
                 (Some (py "Please describe your mood (e.g., 'I feel anxious today')"))],
              AWAITING_MOOD_TEXT)
      else
        (* Classify mood from text *)
        category ← lift (MoodClassifier.classify_text_mood (classifier w) text);
        (* Get personalized response *)
        response ←
          ContentLoader.get_response_for_mood (content_loader w) (path_exists w) category;
        (* Log check-in *)
        let db' :=
          Database.log_checkin (LOG_RAW_TEXT w) now_insert now_update (db w) user_id
            category (py "text") mood_text (ContentLoader.text_id response)
            (ContentLoader.meme response) (ContentLoader.video response) in
        mret (with_db w db',
              send_mood_response (path_exists w) false category response,
              END)
  | None =>
      mret (w,
            [reply_text
               (Some (py "Please describe your mood (e.g., 'I feel anxious today')"))],
            AWAITING_MOOD_TEXT)
  end.

End WithRuntime.
End Bot.

(** ** bot.py and admin.py: the broadcasts and the admin commands *)

Module Admin.
Import Str Bot PyFormat.

(** [is_admin]; ADMIN_IDS is read from the environment by [config.py]. *)
Definition is_admin (ADMIN_IDS : list Z) (user_id : Z) : bool :=
  bool_decide (user_id ∈ ADMIN_IDS).

Definition ADMIN_REQUIRED : call := reply_text (Some (10060 :: py " Admin access required.")).

(** The loop of the two broadcasts: one [send_message] for each user,
    counted as sent when it returns and as failed when it raises;
    [delivered] tells which. *)
Definition broadcast_loop (delivered : Z → bool) (text : str) (keyboard : list (str * str))
    (users : list Z) : list call * nat * nat :=
  fold_left
    (λ '(calls, success_count, fail_count) user_id,
       if delivered user_id
       then (calls ++ [send_message user_id text keyboard], S success_count, fail_count)
       else (calls ++ [send_message user_id text keyboard], success_count, S fail_count))
    users ([], O, O).

(** [weekly_broadcast]: the calls and the two counts it logs. *)
Definition weekly_broadcast (delivered : Z → bool) (db : Database.t) : list call * nat * nat :=
  let users := Database.get_all_active_users db in
  broadcast_loop delivered
    (py "**" ++ [127919] ++ py " Weekly Mood Check-In**" ++ [10; 10]
     ++ py "How are you feeling this week?" ++ [10; 10]
     ++ py "(You can also use /checkin anytime)")
    mood_keyboard users.

(** [handle_broadcast]; [args] is [context.args]. *)
Definition handle_broadcast (ADMIN_IDS : list Z) (delivered : Z → bool) (db : Database.t)
    (user_id : Z) (args : list str) : list call :=
  if negb (is_admin ADMIN_IDS user_id) then [ADMIN_REQUIRED]
  else
    (* Get message to broadcast *)
    match args with
    | [] =>
        [reply_text
           (Some (py "Usage: /broadcast <message>" ++ [10; 10]
                  ++ py "Example: /broadcast How are you doing?"))]
    | _ =>
        let broadcast_message := join [32] args in
        let users := Database.get_all_active_users db in
        match users with
        | [] => [reply_text (Some (py "No active users to broadcast to."))]
        | _ =>
            let '(calls, success_count, fail_count) :=
              broadcast_loop delivered
                (128226 :: py " Message from bot:" ++ [10; 10] ++ broadcast_message)
                [] users in
            calls
            ++ [reply_text
                  (Some (9989 :: py " Broadcast sent!" ++ [10; 10]
                         ++ py "Success: " ++ str_of_nat success_count ++ [10]
                         ++ py "Failed: " ++ str_of_nat fail_count))]
        end
    end.

(** [handle_reload]: the loader after the command, and the calls. *)
Definition handle_reload (ADMIN_IDS : list Z) (content_loader : ContentLoader.t)
    (user_id : Z) (file : ContentLoader.disk_file) : ContentLoader.t * list call :=
  if negb (is_admin ADMIN_IDS user_id) then (content_loader, [ADMIN_REQUIRED])
  else
    match ContentLoader.reload content_loader file with
    | inr reloaded =>
        (reloaded, [reply_text (Some (9989 :: py " Content reloaded successfully!"))])
    | inl e =>
        (content_loader,
         [reply_text (Some (10060 :: py " Error reloading content: " ++ e))])
    end.

(** The order of [sorted] on the items of [category_counts]: by name,
    code point by code point, then by count. *)
Fixpoint str_compare (a b : str) : comparison :=
  match a, b with
  | [], [] => Eq
  | [], _ :: _ => Lt
  | _ :: _, [] => Gt
  | x :: a', y :: b' =>
      match N.compare x y with
      | Eq => str_compare a' b'
      | c => c
      end
  end.

Definition item_le (x y : str * nat) : Prop :=
  match str_compare x.1 y.1 with
  | Lt => True
  | Eq => (x.2 ≤ y.2)%nat
  | Gt => False
  end.

#[global] Instance item_le_dec (x y : str * nat) : Decision (item_le x y).
Proof. unfold item_le. destruct (str_compare x.1 y.1); apply _. Defined.

(** [handle_stats]; the two clock readings are those of [get_stats]. *)
Definition handle_stats (ADMIN_IDS : list Z) (now_week now_breakdown : Database.clock)
    (db : Database.t) (user_id : Z) : list call :=
  if negb (is_admin ADMIN_IDS user_id) then [ADMIN_REQUIRED]
  else
    let stats := Database.get_stats now_week now_breakdown db in
    let stats_text :=
      [10; 128202] ++ py " **Mood Bot Statistics**" ++ [10; 10]
      ++ py "Total users: " ++ str_of_nat (Database.total_users stats) ++ [10]
      ++ py "Check-ins this week: " ++ str_of_nat (Database.week_checkins stats) ++ [10; 10]
      ++ py "**Category Breakdown (this week):**" ++ [10] in
    let stats_text :=
      fold_left
        (λ stats_text '(category, count),
           stats_text ++ [10] ++ py "  " ++ category ++ py ": " ++ str_of_nat count)
        (merge_sort item_le (map_to_list (Database.category_counts stats)))
        stats_text in
    [reply_text (Some stats_text)].

End Admin.

(** ** add_meme.py: the name under which an image is stored *)

(** What the code takes from the [re] module: the characters of [\d] with
    the value that [int] gives them, and which characters a literal
    matches under IGNORECASE. *)
Class PyRe := {
  re_digit : N → option nat;
  re_ieq : N → N → bool;
  re_digit_ascii : ∀ d : nat, (d < 10)%nat → re_digit (48 + N.of_nat d) = Some d;
  re_ieq_backslash : ∀ c, re_ieq 92 c = true → c = 92;
}.

Module AddMeme.
Import Str.

(** The subdirectory and the prefix of each category. *)
Definition CATEGORY_MAP : gmap str (str * str) :=
  list_to_map
    [ (py "memes", (py "memes", py "positive"));
      (py "calm", (py "calm", py "calm")) ].

(** [f"{idx:03d}"] *)
Definition fmt03 (idx : nat) : str :=
  let digits := PyFormat.str_of_nat idx in
  replicate (3 - length digits) 48 ++ digits.

(** [f"{prefix}_{idx:03d}{ext}"] *)
Definition numbered (prefix : str) (idx : nat) (ext : str) : str :=
  prefix ++ [95] ++ fmt03 idx ++ ext.

Section WithRe.
Context `{PyRe}.

(** A literal part of a pattern at the start of a text, under
    IGNORECASE: the rest of the text. *)
Fixpoint match_literal (pat text : str) : option str :=
  match pat, text with
  | [], _ => Some text
  | _ :: _, [] => None
  | p :: pat', c :: text' => if re_ieq p c then match_literal pat' text' else None
  end.

(** [(\d{3})] at the start of a text: [int] of the group, and the rest. *)
Definition digits3 (text : str) : option (nat * str) :=
  match text with
  | d1 :: d2 :: d3 :: rest =>
      match re_digit d1, re_digit d2, re_digit d3 with
      | Some a, Some b, Some c => Some (100 * a + 10 * b + c, rest)%nat
      | _, _, _ => None
      end
  | _ => None
  end.

(** [pattern.match(name)] in [next_filename], for the extension
    ["." ++ ext_tail], with [int(m.group(1))]. The pattern is
    [^prefix_(\d{3})\\.ext_tail$]: after the digits it asks for a
    backslash and then any one character but a newline. *)
Definition pattern_match (prefix ext_tail name : str) : option nat :=
  rest ← match_literal (prefix ++ [95]) name;
  '(idx, rest) ← digits3 rest;
  match rest with
  | backslash :: any :: rest =>
      if re_ieq 92 backslash && negb (any =? 10) then
        rest ← match_literal ext_tail rest;
        match rest with
        | [] => Some idx
        | [newline] => if newline =? 10 then Some idx else None
        | _ => None
        end
      else None
  | _ => None
  end.

(** [entries] are the entries of [dest_dir], each with [is_file]. The
    result is [None] for an extension without a leading dot, for which
    the pattern is another one; the caller passes none. *)
Definition next_filename (entries : list (str * bool)) (prefix ext : str) : option str :=
  match ext with
  | dot :: ext_tail =>
      if negb (dot =? 46) then None else
      let max_idx :=
        fold_left
          (λ (max_idx : nat) '((name, is_file) : str * bool),
             if is_file then
               match pattern_match prefix ext_tail name with
               | Some idx => if (max_idx <? idx)%nat then idx else max_idx
               | None => max_idx
               end
             else max_idx)
          entries O in
      let next_idx := (max_idx + 1)%nat in
      Some (numbered prefix next_idx ext)
  | [] => None
  end.

(** [re.search(r"_(\d{3})\.", name)] with [int(m.group(1))]. *)
Definition digits3_dot (text : str) : option nat :=
  match digits3 text with
  | Some (idx, dot :: _) => if dot =? 46 then Some idx else None
  | _ => None
  end.

Fixpoint search_idx (name : str) : option nat :=
  match name with
  | [] => None
  | c :: name' =>
      match (if c =? 95 then digits3_dot name' else None) with
      | Some idx => Some idx
      | None => search_idx name'
      end
  end.

(** The loop [while dest_path.exists()]; [None] when it has not ended
    after [fuel] rounds. *)
Fixpoint unique_name (fuel : nat) (path_exists : str → bool) (prefix ext new_name : str)
  : option str :=
  if path_exists new_name then
    match fuel with
    | O => None
    | S fuel' =>
        let idx :=
          match search_idx new_name with
          | Some i => (i + 1)%nat
          | None => 1%nat
          end in
        unique_name fuel' path_exists prefix ext (numbered prefix idx ext)
    end
  else Some new_name.

Context `{PyRuntime}.

(** The extension that [copy_and_register] keeps, from [src_path.suffix]. *)
Definition sanitize_ext (suffix : str) : str :=
  let ext := str_lower suffix in
  let ext := if truthy ext then ext else py ".jpg" in
  (* sanitize extension to common image types, default to .jpg *)
  if bool_decide (ext ∈ [py ".jpg"; py ".jpeg"; py ".png"; py ".gif"; py ".webp"])
  then ext else py ".jpg".

Inductive outcome :=
| ValueError
| FileNotFoundError
| Stored (new_name : str).

(** [copy_and_register] up to the copy: the exception it raises, or the
    name under which it stores the image. [src_is_file] tells whether the
    source exists and is a file, [entries] and [path_exists] describe
    [dest_dir]. *)
Definition copy_and_register (fuel : nat) (src_is_file : bool) (src_suffix category : str)
    (entries : list (str * bool)) (path_exists : str → bool) : option outcome :=
  match CATEGORY_MAP !! category with
  | None => Some ValueError
  | Some (subdir, prefix) =>
      if negb src_is_file then Some FileNotFoundError
      else
        let ext := sanitize_ext src_suffix in
        new_name ← next_filename entries prefix ext;
        (* Ensure unique (in very rare race) *)
        Stored <$> unique_name fuel path_exists prefix ext new_name
  end.

End WithRe.
End AddMeme.

(** The tables of [re] on the ASCII range. *)
Definition ascii_re : PyRe.
Proof.
  refine {| re_digit := λ c, if (48 <=? c) && (c <=? 57) then Some (N.to_nat (c - 48)) else None;
            re_ieq := λ a b, Ascii_rt.lower_cp a =? Ascii_rt.lower_cp b |}.
  - intros d Hd.
    replace ((48 <=? 48 + N.of_nat d) && (48 + N.of_nat d <=? 57)) with true.
    + f_equal. lia.
    + symmetry. apply andb_true_iff. split; apply N.leb_le; lia.
  - intros c Hc. apply N.eqb_eq in Hc. unfold Ascii_rt.lower_cp in Hc. simpl in Hc.
    destruct ((65 <=? c) && (c <=? 90)) eqn:E; [|done].
    apply andb_true_iff in E as [E _]. apply N.leb_le in E. lia.
Defined.

(** * Vocabulary of the specification *)

(** The closed set of categories. *)
Inductive Category :=
| POSITIVE
| NEUTRAL_TIRED
| SAD_LOW
| ANGRY_FRUSTRATED
| ANXIOUS_STRESSED
| HEAVY_DEEP.

Definition category_name (c : Category) : str :=
  match c with
  | POSITIVE => py "POSITIVE"
  | NEUTRAL_TIRED => py "NEUTRAL_TIRED"
  | SAD_LOW => py "SAD_LOW"
  | ANGRY_FRUSTRATED => py "ANGRY_FRUSTRATED"
  | ANXIOUS_STRESSED => py "ANXIOUS_STRESSED"
  | HEAVY_DEEP => py "HEAVY_DEEP"
  end.

(** The fixed total priority order
    HEAVY_DEEP > SAD_LOW > ANGRY_FRUSTRATED > ANXIOUS_STRESSED >
    NEUTRAL_TIRED > POSITIVE, as a rank. *)
Definition priority_rank (c : Category) : nat :=
  match c with
  | HEAVY_DEEP => 5
  | SAD_LOW => 4
  | ANGRY_FRUSTRATED => 3
  | ANXIOUS_STRESSED => 2
  | NEUTRAL_TIRED => 1
  | POSITIVE => 0
  end.

(** A name of the closed set. *)
Definition closed_category (name : str) : Prop := ∃ c, name = category_name c.

(** The six fallback texts of the response selector. *)
Definition fallback_text (c : Category) : str :=
  match c with
  | POSITIVE => py "That's wonderful! Keep riding this wave and enjoy the moment."
  | NEUTRAL_TIRED => py "It's okay to feel neutral. Rest when you need it."
  | SAD_LOW => py "I hear you. You're not alone in this. One step at a time."
  | ANGRY_FRUSTRATED => py "Your feelings are valid. Take a breath and give yourself space."
  | ANXIOUS_STRESSED => py "Breathe. You're safe right now. One moment at a time."
  | HEAVY_DEEP =>
      py "I'm glad you're here. Please reach out to someone you trust. Your life matters."
  end.

(** The generic response for a category the catalog does not have. *)
Definition generic_fallback : ContentLoader.content :=
  {| ContentLoader.text := Some (py "Thanks for checking in. Take care of yourself.");
     ContentLoader.meme := None;
     ContentLoader.video := None;
     ContentLoader.text_id := Some (py "default") |}.

Section MatchingVocabulary.
Context `{PyRuntime}.
Import Str MoodClassifier.

(** A keyword hits a text when, both normalized, the keyword is a
    contiguous part of the text or one of its words is a word of the text. *)
Definition keyword_hits (text keyword : str) : Prop :=
  let normalized := _normalize_text text in
  let k := _normalize_text keyword in
  (∃ pre post, normalized = pre ++ k ++ post)
  ∨ (∃ w, w ∈ split k ∧ w ∈ split normalized).

(** The text matches keywords from the category. *)
Definition category_matches (table : keyword_table) (text category : str) : Prop :=
  ∃ kws keyword, (category, kws) ∈ table ∧ keyword ∈ kws ∧ keyword_hits text keyword.

(** Punctuation: what the pattern [[^\w\s]] matches. *)
Definition punctuation (c : N) : bool := negb (re_word c || isspace c).

(** The text without its punctuation characters. *)
Definition strip_punctuation (text : str) : str :=
  filter (λ c, punctuation c = false) text.

(** A separator stands between words: punctuation or whitespace. *)
Definition separator (c : N) : bool := negb (re_word c) || isspace c.

(** The words of a text: the maximal runs of characters of its lowercase
    form that are not separators. *)
Definition words_of (text : str) : list str := split_on separator (str_lower text).

End MatchingVocabulary.

(** The computation returns on the generator [g], with a value that
    satisfies [Q]. *)
Definition returns {A} (m : ContentLoader.M A) (g : ContentLoader.rng) (Q : A → Prop) : Prop :=
  ∃ a g', m g = Ok (a, g') ∧ Q a.

(** What [get_content_for_category] builds. *)
Definition content_rule (self : ContentLoader.t) (category : str)
    (r : ContentLoader.content) : Prop :=
  match ContentLoader.responses self !! category with
  | None => r = generic_fallback
  | Some d =>
      (ContentLoader.nonempty_list (ContentLoader.texts d) = None →
       ContentLoader.text r = None)
      ∧ (ContentLoader.meme r ≠ None → category ∈ [py "POSITIVE"; py "NEUTRAL_TIRED"])
      ∧ (ContentLoader.video r ≠ None → category ∈ [py "SAD_LOW"; py "ANXIOUS_STRESSED"])
  end.

(** A call that writes to the ledger, with the clock readings of its
    statements. *)
Inductive ledger_call :=
| Register (now : Database.clock) (user_id : Z) (username : option str)
| Log (now_insert now_update : Database.clock) (user_id : Z) (category input_type : str)
      (mood_raw response_text_id meme_file video_url : option str).

Definition run_call (LOG_RAW_TEXT : bool) (self : Database.t) (c : ledger_call) : Database.t :=
  match c with
  | Register now user_id username => Database.register_user now self user_id username
  | Log now_insert now_update user_id category input_type mood_raw text_id meme video =>
      Database.log_checkin LOG_RAW_TEXT now_insert now_update self user_id category
        input_type mood_raw text_id meme video
  end.

(** The database after a sequence of calls. *)
Definition run_calls (LOG_RAW_TEXT : bool) (calls : list ledger_call) (self : Database.t)
  : Database.t :=
  fold_left (run_call LOG_RAW_TEXT) calls self.

Definition is_log (c : ledger_call) : bool :=
  match c with
  | Log _ _ _ _ _ _ _ _ _ => true
  | Register _ _ _ => false
  end.

(** A last check-in is on record only for a user with a row in
    [checkins]. *)
Definition last_checkin_backed (self : Database.t) : Prop :=
  ∀ user_id row,
    Database.users self !! user_id = Some row →
    is_Some (Database.last_checkin_at row) →
    ∃ r, r ∈ Database.checkins self ∧ Database.user_id r = user_id.

(** The check-ins of category [c] that the breakdown statement sees at
    the reading [now]. *)
Definition week_rows_of_category (now : Database.clock) (c : str) (self : Database.t)
  : list Database.checkin_row :=
  filter (λ row, Database.category row = c)
    (filter (λ row, Database.this_week now row = true) (Database.checkins self)).

(** Where the parts of the content of a category come from, and when the
    optional parts are there. *)
Definition content_source (self : ContentLoader.t) (path_exists : str → bool)
    (category : str) (r : ContentLoader.content) : Prop :=
  match ContentLoader.responses self !! category with
  | None => r = generic_fallback
  | Some d =>
      match ContentLoader.nonempty_list (ContentLoader.texts d) with
      | Some ts =>
          (∃ s, s ∈ ts ∧ ContentLoader.text r = Some s)
          ∧ ContentLoader.text_id r = Some (category ++ py "_text")
      | None => ContentLoader.text r = None ∧ ContentLoader.text_id r = None
      end
      ∧ match ContentLoader.nonempty_list (ContentLoader.memes d) with
        | Some ms =>
            if bool_decide (category ∈ [py "POSITIVE"; py "NEUTRAL_TIRED"]) then
              ∃ f, f ∈ ms
                   ∧ ContentLoader.meme r
                     = if path_exists (ContentLoader.meme_path f)
                       then Some (ContentLoader.meme_path f) else None
            else ContentLoader.meme r = None
        | None => ContentLoader.meme r = None
        end
      ∧ match ContentLoader.nonempty_list (ContentLoader.videos d) with
        | Some vs =>
            if bool_decide (category ∈ [py "SAD_LOW"; py "ANXIOUS_STRESSED"]) then
              ∃ v, v ∈ vs ∧ ContentLoader.video r = Some v
            else ContentLoader.video r = None
        | None => ContentLoader.video r = None
        end
  end.

(** The sum of the counts of a breakdown by category. *)
Definition total_count (counts : gmap str nat) : nat :=
  map_fold (λ _ n acc, (n + acc)%nat) 0%nat counts.

(** The character of a decimal digit. *)
Definition digit_cp (d : nat) : N := 48 + N.of_nat d.



(** * Concrete inputs *)

Module Sample.
Import MoodClassifier.

(** A small [keywords.json]. *)
Definition keywords : keyword_table :=
  [ (py "POSITIVE", [py "happy"; py "motivated"]);
    (py "NEUTRAL_TIRED", [py "tired"]);
    (py "SAD_LOW", [py "sad"]);
    (py "HEAVY_DEEP", [py "kill myself"]) ].

(** A table with a key outside the closed set. *)
Definition foreign_keywords : keyword_table := [ (py "FOO", [py "x"]) ].

Definition happy_button : str := 128516 :: py " Happy".

(** A table with a keyword made of punctuation only. *)
Definition dotted_keywords : keyword_table :=
  [ (py "SAD_LOW", [py "sad"; py "..."]); (py "POSITIVE", [py "happy"]) ].

(** A small [responses.json]: SAD_LOW has no text of its own. *)
Definition responses : ContentLoader.catalog :=
  list_to_map
    [ (py "POSITIVE",
       {| ContentLoader.texts := Some [py "Love that for you."; py "Great!"];
          ContentLoader.memes := Some [py "cat.jpg"];
          ContentLoader.videos := None |});
      (py "SAD_LOW",
       {| ContentLoader.texts := Some [];
          ContentLoader.memes := Some [py "cat.jpg"];
          ContentLoader.videos := Some [py "https://youtu.be/x"] |});
      (py "ANGRY_FRUSTRATED",
       {| ContentLoader.texts := Some [py "Breathe out slowly."];
          ContentLoader.memes := Some [py "cat.jpg"];
          ContentLoader.videos := Some [py "https://youtu.be/x"] |}) ].


(** A [responses.json] that names its meme by an absolute path. *)
Definition absolute_meme : ContentLoader.catalog :=
  {[ py "POSITIVE" :=
       {| ContentLoader.texts := Some [py "Great!"];
          ContentLoader.memes := Some [py "/etc/hostname"];
          ContentLoader.videos := None |} ]}.

(** A host on UTC at some instant, the same host [us] microseconds later,
    and a host five hours behind UTC one second after the instant. *)
Definition t0 : Database.clock :=
  {| Database.utc_us := 1700000000123456; Database.tz_offset_us := 0 |}.

Definition after (us : Z) : Database.clock :=
  {| Database.utc_us := (1700000000123456 + us)%Z; Database.tz_offset_us := 0 |}.

Definition t1_behind_utc : Database.clock :=
  {| Database.utc_us := 1700000001123456;
     Database.tz_offset_us := (-5 * 3600 * 1000000)%Z |}.



(** [log_checkin(uid, "POSITIVE", "button")] at [t0]. *)
Definition checked_in (self : Database.t) (uid : Z) : Database.t :=
  Database.log_checkin false t0 t0 self uid (py "POSITIVE") (py "button")
    None None None None.

(** A database where user 222 is registered, and one where nobody is. *)
Definition db_registered : Database.t :=
  Database.register_user t0 Database.init_db 222 None.


(** A registration and two check-ins, the second one by a user who never
    registered. *)
Definition calls : list ledger_call :=
  [ Register t0 222 None;
    Log t0 t0 222 (py "POSITIVE") (py "button") None None None None;
    Log t0 t0 333 (py "SAD_LOW") (py "text") (Some (py "Very sad")) None None None ].


(** The bot with the sample tables, every media file present and
    LOG_RAW_TEXT off. *)
Definition world : Bot.world :=
  {| Bot.db := db_registered;
     Bot.classifier := MoodClassifier.new (Some keywords);
     Bot.content_loader := ContentLoader.new (Some responses);
     Bot.path_exists := λ _, true;
     Bot.LOG_RAW_TEXT := false |}.

(** A POSITIVE response with an image. *)
Definition positive_response : ContentLoader.content :=
  {| ContentLoader.text := Some (py "Great!");
     ContentLoader.meme := Some (py "media/memes/cat.jpg");
     ContentLoader.video := None;
     ContentLoader.text_id := Some (py "POSITIVE_text") |}.

End Sample.

(** * Strings *)

Section StrFacts.
Import Str.

Lemma startswith_spec (s p : str) :
  startswith s p = true ↔ ∃ post, s = p ++ post.
Proof.
  revert s. induction p as [|a p IH]; intros s; simpl.
  - split; [eauto|done].
  - destruct s as [|b s].
    + split; [done|]. intros [post Hp]. discriminate.
    + rewrite andb_true_iff, N.eqb_eq, IH. split.
      * intros [-> [post ->]]. by exists post.
      * intros [post Hp]. injection Hp as -> ->. eauto.
Qed.

Lemma contains_spec (hay needle : str) :
  contains hay needle = true ↔ ∃ pre post, hay = pre ++ needle ++ post.
Proof.
  induction hay as [|b hay IH]; simpl; rewrite orb_true_iff, startswith_spec.
  - split.
    + intros [[post Hp]|?]; [|done]. exists [], post. done.
    + intros (pre & post & Hp). left.
      destruct pre; [eauto|discriminate].
  - rewrite IH. split.
    + intros [[post Hp]|(pre & post & Hp)].
      * exists [], post. done.
      * exists (b :: pre), post. by rewrite Hp.
    + intros (pre & post & Hp). destruct pre as [|c pre]; simpl in Hp.
      * left. eauto.
      * right. injection Hp as -> ->. eauto.
Qed.

(** Mapping the characters first is the same as asking the separator test
    of the mapped character, when the map only touches separators. *)
Lemma split_go_fmap (sep : N → bool) (f : N → N) (cur s : str) :
  (∀ c, sep (f c) = false → f c = c) →
  split_go sep cur (f <$> s) = split_go (λ c, sep (f c)) cur s.
Proof.
  intros Hf. revert cur. induction s as [|c s IH]; intros cur; [done|].
  rewrite fmap_cons. simpl. destruct (sep (f c)) eqn:E.
  - destruct cur; by rewrite IH.
  - rewrite (Hf c E). apply IH.
Qed.

Lemma split_go_ext (sep1 sep2 : N → bool) (cur s : str) :
  (∀ c, sep1 c = sep2 c) → split_go sep1 cur s = split_go sep2 cur s.
Proof.
  intros E. revert cur. induction s as [|c s IH]; intros cur; [done|].
  simpl. rewrite E. destruct (sep2 c); [destruct cur|]; by rewrite IH.
Qed.

End StrFacts.

(** * The classifier *)

Section ClassifierFacts.
Context `{PyRuntime}.
Import Str MoodClassifier.

(** After the substitution, [split] cuts at the separators of the
    original text. *)
Lemma split_re_sub_punct (s : str) :
  split (re_sub_punct s) = split_on separator s.
Proof.
  unfold split, re_sub_punct, split_on.
  rewrite split_go_fmap.
  - apply split_go_ext. intros c. unfold separator.
    destruct (re_word c), (isspace c) eqn:E; simpl; rewrite ?E; try done.
    all: apply isspace_SPACE.
  - intros c. destruct (re_word c || isspace c); [done|].
    by rewrite isspace_SPACE.
Qed.

Lemma _normalize_text_words (text : str) :
  _normalize_text text = join [32] (words_of text).
Proof. unfold _normalize_text, words_of. by rewrite split_re_sub_punct. Qed.

Lemma keyword_matches_spec (text keyword : str) :
  keyword_matches (_normalize_text text) (split (_normalize_text text)) keyword = true
  ↔ keyword_hits text keyword.
Proof.
  unfold keyword_matches, keyword_hits.
  rewrite orb_true_iff, contains_spec, existsb_exists.
  apply or_iff_compat_l. split.
  - intros (w & Hw & Hin). apply bool_decide_eq_true in Hin.
    exists w. by rewrite list_elem_of_In.
  - intros (w & Hw & Hin). exists w. rewrite <- list_elem_of_In.
    split; [done|]. by apply bool_decide_eq_true.
Qed.

Lemma elem_of_set_add (c d : str) (s : list str) :
  c ∈ set_add d s ↔ c ∈ s ∨ c = d.
Proof.
  unfold set_add. case_bool_decide.
  - split; [auto|]. intros [?| ->]; done.
  - rewrite elem_of_app, list_elem_of_singleton. done.
Qed.

(** What the two loops leave in the set. *)
Lemma elem_of_matched_categories (table : keyword_table) (normalized : str)
    (words : list str) (c : str) :
  c ∈ matched_categories table normalized words
  ↔ ∃ kws, (c, kws) ∈ table ∧ existsb (keyword_matches normalized words) kws = true.
Proof.
  unfold matched_categories.
  set (f := λ (matched : list str) '(category, kws), _).
  enough (G : ∀ acc, c ∈ fold_left f table acc
                ↔ c ∈ acc ∨ ∃ kws, (c, kws) ∈ table
                      ∧ existsb (keyword_matches normalized words) kws = true).
  { rewrite G. split; [|auto]. intros [Hin|?]; [|done]. by apply elem_of_nil in Hin. }
  induction table as [|[d kws] table IH]; intros acc; simpl.
  - split; [auto|]. intros [?|(kws & Hin & _)]; [done|]. by apply elem_of_nil in Hin.
  - rewrite IH. destruct (existsb (keyword_matches normalized words) kws) eqn:E.
    + rewrite elem_of_set_add. split.
      * intros [[?| ->]|(kws' & Hin & Hk)]; [by left| |].
        -- right. exists kws. split; [left|done].
        -- right. exists kws'. split; [by right|done].
      * intros [?|(kws' & Hin & Hk)]; [by left; left|].
        apply elem_of_cons in Hin as [Heq|Hin].
        -- injection Heq as -> ->. left. by right.
        -- right. eauto.
    + split.
      * intros [?|(kws' & Hin & Hk)]; [by left|]. right. exists kws'. split; [by right|done].
      * intros [?|(kws' & Hin & Hk)]; [by left|].
        apply elem_of_cons in Hin as [Heq|Hin].
        -- injection Heq as -> ->. congruence.
        -- right. eauto.
Qed.

(** The set built for a text holds the categories the text matches. *)
Lemma matched_categories_spec (table : keyword_table) (text c : str) :
  c ∈ matched_categories table (_normalize_text text) (split (_normalize_text text))
  ↔ category_matches table text c.
Proof.
  rewrite elem_of_matched_categories. unfold category_matches. split.
  - intros (kws & Hin & Hk). apply existsb_exists in Hk as (k & Hk & Hm).
    exists kws, k. split_and!; [done|by apply list_elem_of_In|by apply keyword_matches_spec].
  - intros (kws & k & Hin & Hk & Hm). exists kws. split; [done|].
    apply existsb_exists. exists k. rewrite <- list_elem_of_In.
    by rewrite keyword_matches_spec.
Qed.

End ClassifierFacts.

Section ClassifierTheorems.
Context `{PyRuntime}.
Import Str MoodClassifier.

Lemma rev_priority (file : option keyword_table) :
  rev (priority (new file))
  = category_name <$>
      [HEAVY_DEEP; SAD_LOW; ANGRY_FRUSTRATED; ANXIOUS_STRESSED; NEUTRAL_TIRED; POSITIVE].
Proof. reflexivity. Qed.

(** The scan of the priority list in reverse finds the matched category of
    the closed set with the greatest rank, if there is one. *)
Lemma find_priority (file : option keyword_table) (matched : list str) :
  match find (λ category, bool_decide (category ∈ matched)) (rev (priority (new file))) with
  | Some name =>
      name ∈ matched
      ∧ ∃ r, name = category_name r
             ∧ ∀ c, category_name c ∈ matched → (priority_rank c ≤ priority_rank r)%nat
  | None => ∀ c, category_name c ∉ matched
  end.
Proof.
  rewrite rev_priority. cbn [fmap list_fmap find].
  repeat case_bool_decide.
  all: try (split; [done|]; eexists; split; [reflexivity|]).
  all: intros [] ?; simpl; solve [done | lia].
Qed.

(** The first element of a set that is not empty is one of its elements. *)
Lemma set_iter_first (l : list str) :
  l ≠ [] → ∃ c, set_iter l !! 0%nat = Some c ∧ c ∈ l.
Proof.
  intros Hl. pose proof (set_iter_perm l) as Hp.
  destruct (set_iter l) as [|c l'] eqn:E.
  - apply Permutation_nil in Hp. done.
  - exists c. split; [done|]. rewrite <- Hp. left.
Qed.

(** What [classify_text_mood] returns, by the three ways out of it. *)
Lemma classify_text_mood_cases (self_file : option keyword_table) (text : str) :
  let self := new self_file in
  let matches := category_matches (keywords self) text in
  (classify_text_mood self text = Ok (category_name NEUTRAL_TIRED)
   ∧ ∀ name, ¬ matches name)
  ∨ (∃ r, classify_text_mood self text = Ok (category_name r)
          ∧ matches (category_name r)
          ∧ ∀ c, matches (category_name c) → (priority_rank c ≤ priority_rank r)%nat)
  ∨ (∃ name, classify_text_mood self text = Ok name
          ∧ matches name
          ∧ ∀ c, ¬ matches (category_name c)).
Proof.
  intros self matches. unfold classify_text_mood.
  assert (Hm : ∀ name,
    name ∈ matched_categories (keywords self) (_normalize_text text)
             (split (_normalize_text text)) ↔ matches name)
    by (intros; apply matched_categories_spec).
  pose proof (find_priority self_file
    (matched_categories (keywords self) (_normalize_text text)
       (split (_normalize_text text)))) as Hf.
  fold self in Hf. cbv zeta.
  destruct (matched_categories _ _ _) as [|m ms] eqn:E.
  - left. split; [done|]. intros name Hn. apply Hm in Hn. by apply elem_of_nil in Hn.
  - right. destruct (find _ _) as [name|].
    + left. destruct Hf as (Hin & r & -> & Hmax). exists r.
      split_and!; [done|by apply Hm|]. intros c Hc. apply Hmax. by apply Hm.
    + right. destruct (set_iter_first (m :: ms)) as (c & -> & Hc); [done|].
      exists c. split_and!; [done|by apply Hm|]. intros c' Hc'. apply Hm in Hc'.
      by apply Hf in Hc'.
Qed.

(** C1. When a text matches keywords from two or more categories, one of
    them at least in the closed set, [classify_text_mood] returns the
    matching category that is highest in the order HEAVY_DEEP > SAD_LOW >
    ANGRY_FRUSTRATED > ANXIOUS_STRESSED > NEUTRAL_TIRED > POSITIVE,
    whatever the keyword table. *)
Theorem classify_text_mood_highest_priority
    (file : option keyword_table) (text : str) (c1 : Category) (name2 : str) :
  category_name c1 ≠ name2 →
  category_matches (keywords (new file)) text (category_name c1) →
  category_matches (keywords (new file)) text name2 →
  ∃ r, classify_text_mood (new file) text = Ok (category_name r)
       ∧ category_matches (keywords (new file)) text (category_name r)
       ∧ ∀ c, category_matches (keywords (new file)) text (category_name c) →
              (priority_rank c ≤ priority_rank r)%nat.
Proof.
  intros _ H1 _.
  destruct (classify_text_mood_cases file text)
    as [[_ Hnone]|[Hbest|(name & _ & _ & Hnone)]].
  - by apply Hnone in H1.
  - exact Hbest.
  - by apply Hnone in H1.
Qed.

(** C2, as amended. [classify_text_mood] returns NEUTRAL_TIRED when the
    text matches nothing, and otherwise a category name that the text
    matches: one of the six closed categories, or, only when the text
    matches no category of the closed set, a name of the table outside
    it. *)
Theorem classify_text_mood_closed_or_matched
    (file : option keyword_table) (text : str) :
  ∃ name, classify_text_mood (new file) text = Ok name
    ∧ (((∀ n, ¬ category_matches (keywords (new file)) text n)
        ∧ name = category_name NEUTRAL_TIRED)
       ∨ (category_matches (keywords (new file)) text name
          ∧ (closed_category name
             ∨ ∀ c, ¬ category_matches (keywords (new file)) text (category_name c)))).
Proof.
  destruct (classify_text_mood_cases file text)
    as [[E Hnone]|[(r & E & Hr & _)|(name & E & Hn & Hnone)]].
  - exists (category_name NEUTRAL_TIRED). split; [done|]. by left.
  - exists (category_name r). split; [done|]. right. split; [done|]. left. by exists r.
  - exists name. split; [done|]. right. split; [done|]. by right.
Qed.

(** When every key of the table is in the closed set, so is the result. *)
Lemma classify_text_mood_closed_table (file : option keyword_table) (text : str) :
  (∀ name kws, (name, kws) ∈ keywords (new file) → closed_category name) →
  ∃ c, classify_text_mood (new file) text = Ok (category_name c).
Proof.
  intros Hkeys.
  destruct (classify_text_mood_cases file text)
    as [[E _]|[(r & E & _)|(name & E & (kws & _ & Hin & _) & _)]].
  - by exists NEUTRAL_TIRED.
  - by exists r.
  - destruct (Hkeys _ _ Hin) as [c ->]. by exists c.
Qed.

(** C5, as amended. Two texts with the same words (they differ only in
    letter casing, or in the punctuation and whitespace before, between
    and after the same words) are classified alike. *)
Theorem classify_text_mood_same_words (file : option keyword_table) (text1 text2 : str) :
  words_of text1 = words_of text2 →
  classify_text_mood (new file) text1 = classify_text_mood (new file) text2.
Proof.
  intros Hw. unfold classify_text_mood.
  by rewrite !_normalize_text_words, Hw.
Qed.

(** Texts with the same lowercase form have the same words, and are
    classified alike. *)
Lemma words_of_lower (text1 text2 : str) :
  str_lower text1 = str_lower text2 → words_of text1 = words_of text2.
Proof. unfold words_of. by intros ->. Qed.

Lemma classify_text_mood_case_insensitive (file : option keyword_table) (text1 text2 : str) :
  str_lower text1 = str_lower text2 →
  classify_text_mood (new file) text1 = classify_text_mood (new file) text2.
Proof.
  intros Hl. unfold classify_text_mood.
  by rewrite !_normalize_text_words, (words_of_lower _ _ Hl).
Qed.

(** C6. [classify_text_mood] returns a category for every text and never
    raises; it returns NEUTRAL_TIRED when the text matches no category,
    hence always when the keyword table is empty or its file is absent. *)
Theorem classify_text_mood_total_default (file : option keyword_table) (text : str) :
  (∃ name, classify_text_mood (new file) text = Ok name)
  ∧ ((∀ name, ¬ category_matches (keywords (new file)) text name) →
     classify_text_mood (new file) text = Ok (category_name NEUTRAL_TIRED))
  ∧ classify_text_mood (new (Some [])) text = Ok (category_name NEUTRAL_TIRED)
  ∧ classify_text_mood (new None) text = Ok (category_name NEUTRAL_TIRED).
Proof.
  split_and!; [| |done|done].
  - destruct (classify_text_mood_cases file text)
      as [[E _]|[(r & E & _)|(name & E & _)]]; eauto.
  - intros Hnone.
    destruct (classify_text_mood_cases file text)
      as [[E _]|[(r & _ & Hr & _)|(name & _ & Hn & _)]]; [done| |].
    + by apply Hnone in Hr.
    + by apply Hnone in Hn.
Qed.

(** C7. With [is_button] set, [classify] returns the category that
    MOOD_BUTTONS gives the label, NEUTRAL_TIRED for a label that is not in
    the map, and never raises. *)
Theorem classify_button (self : MoodClassifier.t) (label : str) :
  (∃ name, classify self label true = Ok name)
  ∧ (∀ category, Config.MOOD_BUTTONS !! label = Some category →
       classify self label true = Ok category ∧ closed_category category)
  ∧ (Config.MOOD_BUTTONS !! label = None →
       classify self label true = Ok (category_name NEUTRAL_TIRED)).
Proof.
  assert (Hv : ∀ category, Config.MOOD_BUTTONS !! label = Some category →
                 truthy category = true ∧ closed_category category).
  { intros category Hl. apply elem_of_list_to_map_2 in Hl.
    repeat (apply elem_of_cons in Hl as [Hl|Hl]; [injection Hl as _ ->|]).
    8: by apply elem_of_nil in Hl.
    1: split; [done|by exists POSITIVE].
    1-2: split; [done|by exists NEUTRAL_TIRED].
    1: split; [done|by exists SAD_LOW].
    1: split; [done|by exists ANGRY_FRUSTRATED].
    1: split; [done|by exists ANXIOUS_STRESSED].
    split; [done|by exists HEAVY_DEEP]. }
  unfold classify, classify_button_mood.
  destruct (Config.MOOD_BUTTONS !! label) as [category|] eqn:E.
  - destruct (Hv category eq_refl) as [-> Hc].
    split_and!; [eauto| |done]. by intros ? [= <-].
  - split_and!; [eauto|done|done].
Qed.

End ClassifierTheorems.

(** ** The classifier on concrete inputs *)

Section ClassifierExamples.
Import Str MoodClassifier.

(** A concrete membership in the set of matched categories. *)
Local Ltac matches_by_evaluation :=
  apply (matched_categories_spec (H := ascii_runtime));
  match goal with |- ?P => refine (@bool_decide_unpack P _ _) end;
  vm_compute; exact I.

(** C1 on the first example of the specification: POSITIVE and HEAVY_DEEP
    both match. *)
Lemma classify_text_mood_highest_priority_witness :
  ∃ r, classify_text_mood (H := ascii_runtime) (new (Some Sample.keywords))
         (py "I'm happy but want to kill myself") = Ok (category_name r)
       ∧ category_matches (H := ascii_runtime) (keywords (new (Some Sample.keywords)))
           (py "I'm happy but want to kill myself") (category_name r)
       ∧ ∀ c, category_matches (H := ascii_runtime) (keywords (new (Some Sample.keywords)))
                (py "I'm happy but want to kill myself") (category_name c) →
              (priority_rank c ≤ priority_rank r)%nat.
Proof.
  apply (classify_text_mood_highest_priority (H := ascii_runtime)
           (Some Sample.keywords) (py "I'm happy but want to kill myself")
           POSITIVE (category_name HEAVY_DEEP)).
  - discriminate.
  - matches_by_evaluation.
  - matches_by_evaluation.
Defined.

Example classify_text_mood_crisis_wins :
  classify_text_mood (H := ascii_runtime) (new (Some Sample.keywords))
    (py "I'm happy but want to kill myself") = Ok (category_name HEAVY_DEEP)
  ∧ classify_text_mood (H := ascii_runtime) (new (Some Sample.keywords))
      (py "I'm sad but also motivated") = Ok (category_name SAD_LOW).
Proof. split; vm_compute; reflexivity. Qed.

(** C2 fails as stated: a table whose only matched key is outside the
    closed set makes [classify_text_mood] return that key. *)
Lemma classify_text_mood_returns_foreign_name :
  classify_text_mood (H := ascii_runtime) (new (Some Sample.foreign_keywords)) (py "x")
    = Ok (py "FOO")
  ∧ ¬ closed_category (py "FOO").
Proof.
  split; [vm_compute; reflexivity|].
  intros [[] Hc]; discriminate Hc.
Qed.

(** C5 fails as stated: the two texts differ only in punctuation
    characters, and only the first one is classified SAD_LOW. *)
Lemma classify_text_mood_punctuation_inside_word :
  strip_punctuation (H := ascii_runtime) (py "I'm sad.")
    = strip_punctuation (H := ascii_runtime) (py "I'm s.a.d.")
  ∧ classify_text_mood (H := ascii_runtime) (new (Some Sample.keywords)) (py "I'm sad.")
      = Ok (category_name SAD_LOW)
  ∧ classify_text_mood (H := ascii_runtime) (new (Some Sample.keywords)) (py "I'm s.a.d.")
      = Ok (category_name NEUTRAL_TIRED).
Proof. split_and!; vm_compute; reflexivity. Qed.

(** C5, as amended, on the example of the specification. *)
Lemma classify_text_mood_same_words_witness :
  classify_text_mood (H := ascii_runtime) (new (Some Sample.keywords)) (py "I'm sad.")
  = classify_text_mood (H := ascii_runtime) (new (Some Sample.keywords)) (py "I'M SAD!!!").
Proof.
  apply (classify_text_mood_same_words (H := ascii_runtime)).
  vm_compute. reflexivity.
Defined.

(** C6 on a text that matches no keyword of the sample table. *)
Lemma classify_text_mood_total_default_witness :
  classify_text_mood (H := ascii_runtime) (new (Some Sample.keywords))
    (py "xyz123 qwerty asdfgh") = Ok (category_name NEUTRAL_TIRED).
Proof.
  apply (proj1 (proj2 (classify_text_mood_total_default (H := ascii_runtime)
           (Some Sample.keywords) (py "xyz123 qwerty asdfgh")))).
  intros name Hm. apply (matched_categories_spec (H := ascii_runtime)) in Hm.
  vm_compute in Hm. by apply elem_of_nil in Hm.
Defined.

(** Every button of [config.py] gives its category. *)
Example classify_every_button :
  Forall (λ '(label, category),
            classify (H := ascii_runtime) (new None) label true = Ok (category_name category))
    [ (128516 :: py " Happy", POSITIVE);
      (128578 :: py " Okay", NEUTRAL_TIRED);
      (128564 :: py " Tired", NEUTRAL_TIRED);
      (128532 :: py " Sad", SAD_LOW);
      (128545 :: py " Angry", ANGRY_FRUSTRATED);
      (128560 :: py " Anxious", ANXIOUS_STRESSED);
      (128371 :: 65039 :: py " Empty", HEAVY_DEEP) ]
  ∧ classify (H := ascii_runtime) (new None) (py "Happy") true
    = Ok (category_name NEUTRAL_TIRED).
Proof. split; [repeat constructor|]; vm_compute; reflexivity. Qed.

(** C7 on the first button. *)
Lemma classify_button_witness :
  classify (H := ascii_runtime) (new None) Sample.happy_button true
    = Ok (category_name POSITIVE)
  ∧ closed_category (category_name POSITIVE).
Proof.
  apply (proj1 (proj2 (classify_button (H := ascii_runtime) (new None) Sample.happy_button))).
  vm_compute. reflexivity.
Defined.

End ClassifierExamples.

(** * The response selector *)

Section ContentLoaderFacts.
Import Str ContentLoader.

Lemma returns_ret {A} (a : A) (g : rng) (Q : A → Prop) :
  Q a → returns (mret a) g Q.
Proof. intros Ha. by exists a, g. Qed.

Lemma returns_bind {A B} (m : M A) (k : A → M B) (g : rng) (Q : B → Prop) :
  returns m g (λ a, ∀ g', returns (k a) g' Q) → returns (m ≫= k) g Q.
Proof.
  intros (a & g' & Em & Hk). destruct (Hk g') as (b & g'' & Ek & Hb).
  exists b, g''. split; [|done]. unfold mbind, M_bind. by rewrite Em.
Qed.

Lemma returns_mono {A} (m : M A) (g : rng) (Q Q' : A → Prop) :
  (∀ a, Q a → Q' a) → returns m g Q → returns m g Q'.
Proof. intros HQ (a & g' & E & Ha). exists a, g'. auto. Qed.

(** A draw from a sequence that is not empty returns one of its elements. *)
Lemma returns_random_choice {A} (seq : list A) (g : rng) (Q : A → Prop) :
  seq ≠ [] → (∀ x, x ∈ seq → Q x) → returns (random_choice seq) g Q.
Proof.
  intros Hne HQ. unfold returns, random_choice.
  destruct (lookup_lt_is_Some_2 seq (g 0%nat mod length seq)) as [x Hx].
  { apply Nat.mod_upper_bound. by destruct seq. }
  rewrite Hx. eexists _, _. split; [done|]. apply HQ. by eapply list_elem_of_lookup_2.
Qed.

Lemma elem_of_pair (x a b : str) : x ∈ [a; b] → x = a ∨ x = b.
Proof.
  intros Hx. apply elem_of_cons in Hx as [->|Hx]; [by left|].
  apply list_elem_of_singleton in Hx as ->. by right.
Qed.

Lemma nonempty_list_Some (l : option (list str)) (xs : list str) :
  nonempty_list l = Some xs → xs ≠ [].
Proof. destruct l as [[|x l]|]; simpl; intros [= <-]; done. Qed.

Lemma get_content_for_category_rule (self : ContentLoader.t) (path_exists : str → bool)
    (category : str) (g : rng) :
  returns (get_content_for_category self path_exists category) g (content_rule self category).
Proof.
  unfold get_content_for_category, content_rule.
  destruct (responses self !! category) as [d|]; [|by apply returns_ret].
  apply returns_bind.
  apply returns_mono with (Q := λ r,
    (nonempty_list (texts d) = None → text r = None) ∧ meme r = None ∧ video r = None).
  2: { destruct (nonempty_list (texts d)) as [ts|] eqn:Et.
       - apply returns_bind, returns_random_choice; [by eapply nonempty_list_Some|].
         intros chosen _ g'. by apply returns_ret.
       - by apply returns_ret. }
  intros r1 (Ht & Hm & Hv) g1. apply returns_bind.
  apply returns_mono with (Q := λ r,
    (nonempty_list (texts d) = None → text r = None)
    ∧ (meme r ≠ None → category ∈ [py "POSITIVE"; py "NEUTRAL_TIRED"])
    ∧ video r = None).
  2: { case_bool_decide as Hc.
       - destruct (nonempty_list (memes d)) as [ms|] eqn:Em.
         + apply returns_bind, returns_random_choice; [by eapply nonempty_list_Some|].
           intros meme_filename _ g'.
           destruct (path_exists _); by apply returns_ret.
         + by apply returns_ret.
       - apply returns_ret. split_and!; [done| |done]. by rewrite Hm. }
  intros r2 (Ht2 & Hm2 & Hv2) g2. apply returns_bind.
  apply returns_mono with (Q := λ r,
    (nonempty_list (texts d) = None → text r = None)
    ∧ (meme r ≠ None → category ∈ [py "POSITIVE"; py "NEUTRAL_TIRED"])
    ∧ (video r ≠ None → category ∈ [py "SAD_LOW"; py "ANXIOUS_STRESSED"])).
  2: { case_bool_decide as Hc.
       - destruct (nonempty_list (videos d)) as [vs|] eqn:Ev.
         + apply returns_bind, returns_random_choice; [by eapply nonempty_list_Some|].
           intros chosen _ g'. by apply returns_ret.
         + apply returns_ret. split_and!; [done|done|]. by rewrite Hv2.
       - apply returns_ret. split_and!; [done|done|]. by rewrite Hv2. }
  intros r3 Hr3 g3. by apply returns_ret.
Qed.

Lemma _get_default_text_fallback (c : Category) :
  _get_default_text (category_name c) = fallback_text c.
Proof. destruct c; vm_compute; reflexivity. Qed.

Lemma _get_default_text_nonempty (category : str) : _get_default_text category ≠ [].
Proof.
  unfold _get_default_text. destruct (defaults !! category) as [s|] eqn:E; [|done].
  apply elem_of_list_to_map_2 in E.
  repeat (apply elem_of_cons in E as [E|E]; [by injection E as _ ->|]).
  by apply elem_of_nil in E.
Qed.

(** [get_response_for_mood] returns the content of
    [get_content_for_category] with a text that is not empty. *)
Lemma get_response_for_mood_rule (self : ContentLoader.t) (path_exists : str → bool)
    (category : str) (g : rng) :
  returns (get_response_for_mood self path_exists category) g
    (λ r, ∃ r0, content_rule self category r0
            ∧ meme r = meme r0 ∧ video r = video r0 ∧ text_id r = text_id r0
            ∧ (∃ s, text r = Some s ∧ s ≠ [])
            ∧ (falsy (text r0) = true → text r = Some (_get_default_text category))
            ∧ (falsy (text r0) = false → r = r0)).
Proof.
  unfold get_response_for_mood. apply returns_bind.
  eapply returns_mono; [|apply get_content_for_category_rule].
  intros r0 Hr0 g'. destruct (falsy (text r0)) eqn:Ef; apply returns_ret; exists r0.
  - repeat split; try done; [|congruence].
    eexists. split; [done|]. apply _get_default_text_nonempty.
  - repeat split; try done; [|congruence].
    destruct (text r0) as [[|c s]|]; try done. by eexists.
Qed.

(** C8. Whatever the catalog and the draws, the response for
    ANGRY_FRUSTRATED or HEAVY_DEEP has neither image nor video; an image
    is returned only for POSITIVE or NEUTRAL_TIRED, a video only for
    SAD_LOW or ANXIOUS_STRESSED. *)
Theorem get_response_for_mood_media_rule (self : ContentLoader.t)
    (path_exists : str → bool) (category : str) (g : rng) :
  ∃ r g', get_response_for_mood self path_exists category g = Ok (r, g')
    ∧ (category = category_name ANGRY_FRUSTRATED ∨ category = category_name HEAVY_DEEP →
       meme r = None ∧ video r = None)
    ∧ (meme r ≠ None →
       category = category_name POSITIVE ∨ category = category_name NEUTRAL_TIRED)
    ∧ (video r ≠ None →
       category = category_name SAD_LOW ∨ category = category_name ANXIOUS_STRESSED).
Proof.
  destruct (get_response_for_mood_rule self path_exists category g)
    as (r & g' & E & r0 & Hr0 & Em & Ev & _).
  exists r, g'. split; [done|]. rewrite Em, Ev. clear E Em Ev r.
  assert (Hmeme : meme r0 ≠ None →
            category = category_name POSITIVE ∨ category = category_name NEUTRAL_TIRED).
  { unfold content_rule in Hr0. destruct (responses self !! category).
    - intros Hm. by apply Hr0, elem_of_pair in Hm.
    - by subst r0. }
  assert (Hvideo : video r0 ≠ None →
            category = category_name SAD_LOW ∨ category = category_name ANXIOUS_STRESSED).
  { unfold content_rule in Hr0. destruct (responses self !! category).
    - intros Hv. by apply Hr0, elem_of_pair in Hv.
    - by subst r0. }
  split_and!; [|done|done].
  intros Hc. split.
  - destruct (meme r0) eqn:E; [|done].
    destruct Hmeme as [->| ->]; [done| |]; by destruct Hc.
  - destruct (video r0) eqn:E; [|done].
    destruct Hvideo as [->| ->]; [done| |]; by destruct Hc.
Qed.

(** C9. For every category and catalog [get_response_for_mood] returns a
    text that is not empty: the fallback text of the category when its
    list of texts is empty or absent, and the generic response, without
    media and with text id "default", when the catalog does not have the
    category. *)
Theorem get_response_for_mood_text (self : ContentLoader.t)
    (path_exists : str → bool) (c : Category) (g : rng) :
  ∃ r g', get_response_for_mood self path_exists (category_name c) g = Ok (r, g')
    ∧ (∃ s, text r = Some s ∧ s ≠ [])
    ∧ (∀ d, responses self !! category_name c = Some d →
            texts d = None ∨ texts d = Some [] →
            text r = Some (fallback_text c))
    ∧ (responses self !! category_name c = None →
       r = generic_fallback
       ∧ meme r = None ∧ video r = None ∧ text_id r = Some (py "default")).
Proof.
  destruct (get_response_for_mood_rule self path_exists (category_name c) g)
    as (r & g' & E & r0 & Hr0 & _ & _ & _ & Hs & Hfalsy & Htruthy).
  exists r, g'. split_and!; [done|done| |].
  - intros d Hd Hempty. unfold content_rule in Hr0. rewrite Hd in Hr0.
    destruct Hr0 as (Ht & _). rewrite <- _get_default_text_fallback.
    apply Hfalsy. rewrite Ht; [done|]. by destruct Hempty as [-> | ->].
  - intros Hnone. unfold content_rule in Hr0. rewrite Hnone in Hr0. subst r0.
    by rewrite (Htruthy eq_refl).
Qed.

End ContentLoaderFacts.

(** ** The response selector on concrete inputs *)

Section ContentLoaderExamples.
Import ContentLoader.

(** The lists of memes and videos of ANGRY_FRUSTRATED are not used. *)
Example get_response_for_mood_angry :
  get_response_for_mood (new (Some Sample.responses)) (λ _, true)
    (category_name ANGRY_FRUSTRATED) (λ n, n)
  = Ok ({| text := Some (py "Breathe out slowly.");
           meme := None;
           video := None;
           text_id := Some (py "ANGRY_FRUSTRATED_text") |}, λ n, S n).
Proof. reflexivity. Qed.

(** An empty list of texts gives the fallback text of the category. *)
Example get_response_for_mood_sad :
  get_response_for_mood (new (Some Sample.responses)) (λ _, true)
    (category_name SAD_LOW) (λ n, n)
  = Ok ({| text := Some (fallback_text SAD_LOW);
           meme := None;
           video := Some (py "https://youtu.be/x");
           text_id := None |}, λ n, S n).
Proof. reflexivity. Qed.

(** A category the catalog does not have, and a missing image file. *)
Example get_response_for_mood_absent_and_missing_file :
  (∃ g', get_response_for_mood (new (Some Sample.responses)) (λ _, true)
           (category_name HEAVY_DEEP) (λ n, n) = Ok (generic_fallback, g'))
  ∧ (∃ g', get_response_for_mood (new (Some Sample.responses)) (λ _, false)
             (category_name POSITIVE) (λ n, 1%nat)
           = Ok ({| text := Some (py "Great!");
                    meme := None;
                    video := None;
                    text_id := Some (py "POSITIVE_text") |}, g')).
Proof. split; eexists; vm_compute; reflexivity. Qed.

End ContentLoaderExamples.

(** * The check-in ledger *)

Section DatabaseFacts.
Import Database.
Local Open Scope Z_scope.



(** After [log_checkin] a registered user has the time of the update, to
    the second, as last check-in. *)
Lemma get_last_checkin_log_checkin (flag : bool) (now_insert now_update : clock)
    (self : Database.t) (uid : Z) (cat input : str) (raw text_id meme video : option str) :
  is_Some (users self !! uid) →
  get_last_checkin
    (log_checkin flag now_insert now_update self uid cat input raw text_id meme video) uid
  = Some (fromisoformat (CURRENT_TIMESTAMP now_update)).
Proof.
  intros [row Hrow]. unfold get_last_checkin, log_checkin. simpl.
  rewrite lookup_alter_eq, Hrow. done.
Qed.

(** For a user without a row the update changes nothing. *)
Lemma get_last_checkin_log_checkin_unknown (flag : bool) (now_insert now_update : clock)
    (self : Database.t) (uid : Z) (cat input : str) (raw text_id meme video : option str) :
  users self !! uid = None →
  get_last_checkin
    (log_checkin flag now_insert now_update self uid cat input raw text_id meme video) uid
  = None.
Proof.
  intros Hrow. unfold get_last_checkin, log_checkin. simpl.
  rewrite lookup_alter_eq, Hrow. done.
Qed.

(** C3, as amended. For a registered user, on a host whose local time is
    UTC, a [can_checkin] that follows [log_checkin] by less than the
    cooldown minus one second returns [False] and a remaining time with
    [0 < remaining <= cooldown]; with the cooldown of seven days and a
    query less than eight hours minus one second later, the remaining
    time is strictly between 160 and 170 hours. *)
Theorem can_checkin_after_log_checkin (flag : bool)
    (now_insert now_update now_query : clock) (self : Database.t) (uid cooldown_seconds : Z)
    (cat input : str) (raw text_id meme video : option str) :
  is_Some (users self !! uid) →
  tz_offset_us now_query = 0 →
  utc_us now_update ≤ utc_us now_query →
  utc_us now_query - utc_us now_update + 1000000 ≤ timedelta_seconds cooldown_seconds →
  ∃ remaining,
    can_checkin now_query
      (log_checkin flag now_insert now_update self uid cat input raw text_id meme video)
      uid cooldown_seconds
    = (false, Some remaining)
    ∧ 0 < remaining ≤ timedelta_seconds cooldown_seconds
    ∧ (cooldown_seconds = 604800 →
       utc_us now_query - utc_us now_update + 1000000 ≤ timedelta_seconds (8 * 3600) →
       timedelta_seconds (160 * 3600) < remaining < timedelta_seconds (170 * 3600)).
Proof.
  intros Hreg Htz Hmono Hsoon.
  unfold can_checkin. rewrite get_last_checkin_log_checkin by done.
  unfold datetime_now, fromisoformat, CURRENT_TIMESTAMP, timedelta_seconds in *.
  rewrite Htz.
  pose proof (Z.mod_pos_bound (utc_us now_update) 1000000 ltac:(lia)) as Hfrac.
  pose proof (Z.div_mod (utc_us now_update) 1000000 ltac:(lia)) as Hdiv.
  rewrite bool_decide_eq_false_2 by lia.
  eexists. split; [done|]. split; [lia|]. intros -> Hhours. lia.
Qed.

Lemma length_filter_mono {A} (P Q : A → Prop) `{∀ x, Decision (P x), ∀ x, Decision (Q x)}
    (l : list A) :
  (∀ x, P x → Q x) → (length (filter P l) ≤ length (filter Q l))%nat.
Proof.
  intros HPQ. induction l as [|x l IH]; [done|].
  rewrite !filter_cons. destruct (decide (P x)) as [HP|HP].
  - rewrite decide_True by auto. simpl. lia.
  - destruct (decide (Q x)); simpl; lia.
Qed.

Lemma total_count_insert (counts : gmap str nat) (k : str) :
  total_count (<[k := S (default 0%nat (counts !! k))]> counts) = S (total_count counts).
Proof.
  unfold total_count. destruct (counts !! k) as [n|] eqn:E; simpl.
  - rewrite <- insert_delete_eq.
    rewrite map_fold_insert_L; [|intros; lia|apply lookup_delete_eq].
    rewrite (map_fold_delete_L _ _ k n counts); [lia|intros; lia|done].
  - rewrite map_fold_insert_L; [done|intros; lia|done].
Qed.

(** The counts of a breakdown add up to the number of rows counted. *)
Lemma total_count_by_category (rows : list checkin_row) :
  total_count (count_by_category rows) = length rows.
Proof.
  induction rows as [|row rows IH]; simpl.
  - unfold total_count. by rewrite map_fold_empty.
  - by rewrite total_count_insert, IH.
Qed.

Lemma CURRENT_TIMESTAMP_mono (c1 c2 : clock) :
  utc_us c1 ≤ utc_us c2 → CURRENT_TIMESTAMP c1 ≤ CURRENT_TIMESTAMP c2.
Proof. intros Hle. unfold CURRENT_TIMESTAMP. apply Z.div_le_mono; lia. Qed.

(** C10, as amended. The counts of [category_counts] never add up to
    more than [week_checkins], and they add up to it when the two
    statements of [get_stats] read the clock in the same second. *)
Theorem get_stats_breakdown_total (now_week now_breakdown : clock) (self : Database.t) :
  utc_us now_week ≤ utc_us now_breakdown →
  (total_count (category_counts (get_stats now_week now_breakdown self))
   ≤ week_checkins (get_stats now_week now_breakdown self))%nat
  ∧ (CURRENT_TIMESTAMP now_week = CURRENT_TIMESTAMP now_breakdown →
     total_count (category_counts (get_stats now_week now_breakdown self))
     = week_checkins (get_stats now_week now_breakdown self)).
Proof.
  intros Hmono. apply CURRENT_TIMESTAMP_mono in Hmono.
  unfold get_stats. simpl. rewrite total_count_by_category. split.
  - apply length_filter_mono. intros row. unfold this_week.
    rewrite !bool_decide_eq_true. lia.
  - intros Hsame. unfold this_week. by rewrite Hsame.
Qed.

End DatabaseFacts.

(** ** The check-in ledger on concrete inputs *)

Section DatabaseExamples.
Import Database.
Local Open Scope Z_scope.



(** C3 fails as stated: for a user who was never registered the update
    of [log_checkin] finds no row, and the next [can_checkin] allows a
    check-in; on a host five hours behind UTC the remaining time, one
    second after the check-in of a registered user, exceeds the cooldown
    and 170 hours. *)
Lemma can_checkin_after_log_checkin_fails :
  can_checkin Sample.t0 (Sample.checked_in Database.init_db 222) 222 604800 = (true, None)
  ∧ can_checkin Sample.t1_behind_utc (Sample.checked_in Sample.db_registered 222) 222 604800
    = (false, Some 622798876544)
  ∧ timedelta_seconds 604800 < 622798876544
  ∧ timedelta_seconds (170 * 3600) < 622798876544.
Proof. split_and!; vm_compute; reflexivity. Qed.

(** C3, as amended, two seconds after the check-in of a registered user. *)
Lemma can_checkin_after_log_checkin_witness :
  ∃ remaining,
    can_checkin (Sample.after 2000000) (Sample.checked_in Sample.db_registered 222)
      222 604800
    = (false, Some remaining)
    ∧ 0 < remaining ≤ timedelta_seconds 604800
    ∧ (604800 = 604800 →
       utc_us (Sample.after 2000000) - utc_us Sample.t0 + 1000000
         ≤ timedelta_seconds (8 * 3600) →
       timedelta_seconds (160 * 3600) < remaining < timedelta_seconds (170 * 3600)).
Proof.
  apply (can_checkin_after_log_checkin false Sample.t0 Sample.t0 (Sample.after 2000000)
           Sample.db_registered 222 604800).
  - vm_compute. eauto.
  - reflexivity.
  - vm_compute. discriminate.
  - vm_compute. discriminate.
Defined.

(** C10 fails as stated: a check-in recorded exactly seven days before
    the first statement is run is counted by it, and no longer by the
    second statement when the clock has moved to the next second. *)
Lemma get_stats_breakdown_total_fails :
  week_checkins
    (get_stats (Sample.after (7 * 86400 * 1000000)) (Sample.after (7 * 86400 * 1000000 + 1000000))
       (Sample.checked_in Sample.db_registered 222)) = 1%nat
  ∧ total_count
      (category_counts
         (get_stats (Sample.after (7 * 86400 * 1000000))
            (Sample.after (7 * 86400 * 1000000 + 1000000))
            (Sample.checked_in Sample.db_registered 222))) = 0%nat.
Proof. split; vm_compute; reflexivity. Qed.

(** C10, as amended, with both statements run in the same second. *)
Lemma get_stats_breakdown_total_witness :
  (total_count
     (category_counts
        (get_stats (Sample.after 5) (Sample.after 7)
           (Sample.checked_in Sample.db_registered 222)))
   ≤ week_checkins
       (get_stats (Sample.after 5) (Sample.after 7)
          (Sample.checked_in Sample.db_registered 222)))%nat
  ∧ (CURRENT_TIMESTAMP (Sample.after 5) = CURRENT_TIMESTAMP (Sample.after 7) →
     total_count
       (category_counts
          (get_stats (Sample.after 5) (Sample.after 7)
             (Sample.checked_in Sample.db_registered 222)))
     = week_checkins
         (get_stats (Sample.after 5) (Sample.after 7)
            (Sample.checked_in Sample.db_registered 222))).
Proof.
  apply (get_stats_breakdown_total (Sample.after 5) (Sample.after 7)
           (Sample.checked_in Sample.db_registered 222)).
  vm_compute. discriminate.
Defined.

(** One POSITIVE and one SAD_LOW check-in: both are in the breakdown. *)
Example get_stats_two_checkins :
  let db :=
    log_checkin false Sample.t0 Sample.t0 (Sample.checked_in Sample.db_registered 222) 222
      (py "SAD_LOW") (py "text") (Some (py "Very sad")) None None None in
  let s := get_stats (Sample.after 5) (Sample.after 5) db in
  total_users s = 1%nat ∧ week_checkins s = 2%nat
  ∧ category_counts s !! py "POSITIVE" = Some 1%nat
  ∧ category_counts s !! py "SAD_LOW" = Some 1%nat
  ∧ mood_raw <$> checkins db = [None; None].
Proof. vm_compute. done. Qed.

End DatabaseExamples.

(** * More on the check-in ledger *)

Section LedgerFacts.
Import Database.
Local Open Scope Z_scope.

(** X1: Registration is first-come: a new user gets a row without a
    check-in, and registering a known user again, under any name, changes
    nothing, so that [get_user] keeps giving the first name. *)
Theorem register_user_get_user (now1 now2 : clock) (self : Database.t) (user_id : Z)
    (name1 name2 : option str) :
  (users self !! user_id = None →
   get_user (register_user now1 self user_id name1) user_id
   = Some (user_id, {| username := name1;
                       first_seen_at := CURRENT_TIMESTAMP now1;
                       last_checkin_at := None;
                       timezone := py "Asia/Qyzylorda" |}))
  ∧ register_user now2 (register_user now1 self user_id name1) user_id name2
    = register_user now1 self user_id name1
  ∧ (∀ other, other ≠ user_id →
       get_user (register_user now1 self user_id name1) other = get_user self other).
Proof.
  split_and!.
  - intros Hnew. unfold get_user, register_user. rewrite Hnew. simpl.
    by rewrite lookup_insert_eq.
  - unfold register_user at 1.
    destruct (users (register_user now1 self user_id name1) !! user_id) eqn:E; [done|].
    unfold register_user in E. destruct (users self !! user_id) eqn:E'.
    + congruence.
    + simpl in E. by rewrite lookup_insert_eq in E.
  - intros other Hne. unfold get_user, register_user.
    destruct (users self !! user_id); [done|]. simpl.
    by rewrite lookup_insert_ne.
Qed.

Lemma get_last_checkin_register_user (now : clock) (self : Database.t)
    (user_id uid : Z) (name : option str) :
  get_last_checkin (register_user now self user_id name) uid = get_last_checkin self uid.
Proof.
  unfold get_last_checkin, register_user.
  destruct (users self !! user_id) eqn:E; [done|]. simpl.
  destruct (decide (user_id = uid)) as [->|Hne].
  - by rewrite lookup_insert_eq, E.
  - by rewrite lookup_insert_ne.
Qed.

(** Registering anybody, at any time, changes neither the answer of
    [can_checkin] for any user nor the check-in figures of [get_stats]. *)
Lemma register_user_keeps_cooldown (now now_query now_week now_breakdown : clock)
    (self : Database.t) (user_id uid cooldown_seconds : Z) (name : option str) :
  can_checkin now_query (register_user now self user_id name) uid cooldown_seconds
  = can_checkin now_query self uid cooldown_seconds
  ∧ week_checkins (get_stats now_week now_breakdown (register_user now self user_id name))
    = week_checkins (get_stats now_week now_breakdown self)
  ∧ category_counts (get_stats now_week now_breakdown (register_user now self user_id name))
    = category_counts (get_stats now_week now_breakdown self).
Proof.
  split_and!.
  - unfold can_checkin. by rewrite get_last_checkin_register_user.
  - unfold get_stats, register_user. by destruct (users self !! user_id).
  - unfold get_stats, register_user. by destruct (users self !! user_id).
Qed.

(** X2: A check-in of one user leaves every other user as they were: the same
    row, hence the same answer of [can_checkin]; and it never adds a user. *)
Theorem log_checkin_other_users (flag : bool) (now_insert now_update now_query : clock)
    (self : Database.t) (user_id other cooldown_seconds : Z) (category input_type : str)
    (mood_raw text_id meme video : option str) :
  let self' :=
    log_checkin flag now_insert now_update self user_id category input_type mood_raw
      text_id meme video in
  (other ≠ user_id →
   get_user self' other = get_user self other
   ∧ can_checkin now_query self' other cooldown_seconds
     = can_checkin now_query self other cooldown_seconds)
  ∧ dom (users self') = dom (users self)
  ∧ get_all_active_users self' ≡ₚ get_all_active_users self.
Proof.
  intros self'. assert (Hdom : dom (users self') = dom (users self)).
  { unfold self', log_checkin. simpl. apply dom_alter_L. }
  split_and!; [|done|].
  - intros Hne. unfold can_checkin, get_last_checkin, get_user, self', log_checkin. simpl.
    by rewrite lookup_alter_ne.
  - unfold get_all_active_users.
    apply NoDup_Permutation; [apply NoDup_fst_map_to_list..|].
    intros k. rewrite !list_elem_of_fmap. split.
    + intros ([k' row] & -> & Hin). apply elem_of_map_to_list in Hin. simpl.
      assert (k' ∈ dom (users self)) as [row' Hrow]%elem_of_dom
        by (rewrite <- Hdom; apply elem_of_dom; eauto).
      exists (k', row'). split; [done|]. by apply elem_of_map_to_list.
    + intros ([k' row] & -> & Hin). apply elem_of_map_to_list in Hin. simpl.
      assert (k' ∈ dom (users self')) as [row' Hrow]%elem_of_dom
        by (rewrite Hdom; apply elem_of_dom; eauto).
      exists (k', row'). split; [done|]. by apply elem_of_map_to_list.
Qed.

(** X3: The users that [get_all_active_users] lists are the registered ones,
    each once. *)
Theorem get_all_active_users_registered (self : Database.t) :
  NoDup (get_all_active_users self)
  ∧ (∀ user_id, user_id ∈ get_all_active_users self ↔ is_Some (get_user self user_id))
  ∧ (∀ now_week now_breakdown,
       total_users (get_stats now_week now_breakdown self)
       = length (get_all_active_users self)).
Proof.
  unfold get_all_active_users. split_and!.
  - apply NoDup_fst_map_to_list.
  - intros user_id. unfold get_user. rewrite list_elem_of_fmap. split.
    + intros ([k row] & -> & Hin). apply elem_of_map_to_list in Hin. simpl.
      rewrite Hin. eauto.
    + destruct (users self !! user_id) as [row|] eqn:E; [|by intros [? ?]].
      intros _. exists (user_id, row). split; [done|]. by apply elem_of_map_to_list.
  - intros. simpl. by rewrite length_fmap, length_map_to_list.
Qed.

(** X4: With LOG_RAW_TEXT off no call stores a raw mood text: if no row has
    one before a sequence of calls, no row has one after it. With the
    flag on, a check-in stores the text it is given. *)
Theorem log_checkin_raw_text (calls : list ledger_call) (self : Database.t) :
  (Forall (λ row, mood_raw row = None) (checkins self) →
   Forall (λ row, mood_raw row = None) (checkins (run_calls false calls self)))
  ∧ (∀ now_insert now_update user_id category input_type raw text_id meme video,
       mood_raw <$> last (checkins (log_checkin true now_insert now_update self user_id
                                      category input_type raw text_id meme video))
       = Some raw).
Proof.
  split.
  - revert self. induction calls as [|c calls IH]; intros self Hself; [done|].
    simpl. apply IH. destruct c as [now uid name|ni nu uid cat inp raw tid mm vid]; simpl.
    + unfold register_user. by destruct (users self !! uid).
    + apply Forall_app. split; [done|]. by repeat constructor.
  - intros. simpl. by rewrite last_snoc.
Qed.

Lemma checkins_run_call (flag : bool) (self : Database.t) (c : ledger_call) :
  ∃ rows, checkins (run_call flag self c) = checkins self ++ rows
          ∧ length rows = (if is_log c then 1 else 0)%nat.
Proof.
  destruct c as [now uid name|ni nu uid cat inp raw tid mm vid]; simpl.
  - exists []. rewrite app_nil_r. unfold register_user.
    by destruct (users self !! uid).
  - by eexists [_].
Qed.

(** X5: The table of check-ins is append-only: a sequence of calls keeps the
    rows that were there, in their order, and adds one row for each
    [log_checkin]. *)
Theorem checkins_append_only (flag : bool) (calls : list ledger_call) (self : Database.t) :
  ∃ rows, checkins (run_calls flag calls self) = checkins self ++ rows
          ∧ length rows = length (filter (λ c, is_log c = true) calls).
Proof.
  revert self. induction calls as [|c calls IH]; intros self.
  - exists []. by rewrite app_nil_r.
  - simpl. destruct (IH (run_call flag self c)) as (rows & -> & Hlen).
    destruct (checkins_run_call flag self c) as (rows0 & -> & Hlen0).
    exists (rows0 ++ rows). rewrite app_assoc. split; [done|].
    rewrite length_app, Hlen, Hlen0, filter_cons.
    destruct (is_log c); simpl; done.
Qed.

Lemma last_checkin_backed_run_call (flag : bool) (self : Database.t) (c : ledger_call) :
  last_checkin_backed self → last_checkin_backed (run_call flag self c).
Proof.
  intros Hinv. destruct c as [now uid name|ni nu uid cat inp raw tid mm vid]; simpl.
  - unfold register_user. destruct (users self !! uid) eqn:E; [done|].
    intros u row. simpl. destruct (decide (uid = u)) as [->|Hne].
    + rewrite lookup_insert_eq. intros [= <-] [? Hs]. discriminate Hs.
    + rewrite lookup_insert_ne by done. apply Hinv.
  - intros u row. unfold log_checkin. simpl.
    destruct (decide (uid = u)) as [->|Hne].
    + intros _ _. eexists. split; [apply elem_of_app; right; apply list_elem_of_singleton|];
        done.
    + rewrite lookup_alter_ne by done. intros Hrow Hlast.
      destruct (Hinv u row Hrow Hlast) as (r & Hr & Hu).
      exists r. split; [|done]. apply elem_of_app. by left.
Qed.

(** X6: From an empty database on, whatever the calls, [can_checkin] refuses
    only a user who is registered and has a check-in on record. *)
Theorem can_checkin_refusal_backed (flag : bool) (calls : list ledger_call) (now : clock)
    (user_id cooldown_seconds : Z) (remaining : option Z) :
  can_checkin now (run_calls flag calls init_db) user_id cooldown_seconds
    = (false, remaining) →
  is_Some (get_user (run_calls flag calls init_db) user_id)
  ∧ ∃ r, r ∈ checkins (run_calls flag calls init_db) ∧ Database.user_id r = user_id.
Proof.
  assert (Hinv : last_checkin_backed (run_calls flag calls init_db)).
  { assert (H0 : last_checkin_backed init_db) by (intros ? ? Hl; by simpl in Hl).
    revert H0. generalize init_db. induction calls as [|c calls IH]; intros db Hdb; [done|].
    simpl. apply IH. by apply last_checkin_backed_run_call. }
  unfold can_checkin, get_last_checkin, get_user.
  destruct (users _ !! user_id) as [row|] eqn:Erow; [|done].
  destruct (last_checkin_at row) as [ts|] eqn:Ets; [|done].
  intros _. split; [eauto|]. eapply Hinv; [done|]. rewrite Ets. eauto.
Qed.

(** X7: On a host whose local time is UTC, a registered user is allowed again
    once the cooldown has passed since the check-in. *)
Theorem can_checkin_after_cooldown (flag : bool) (now_insert now_update now_query : clock)
    (self : Database.t) (user_id cooldown_seconds : Z) (category input_type : str)
    (mood_raw text_id meme video : option str) :
  is_Some (users self !! user_id) →
  tz_offset_us now_query = 0 →
  timedelta_seconds cooldown_seconds ≤ utc_us now_query - utc_us now_update →
  can_checkin now_query
    (log_checkin flag now_insert now_update self user_id category input_type mood_raw
       text_id meme video)
    user_id cooldown_seconds
  = (true, None).
Proof.
  intros Hreg Htz Hlate. unfold can_checkin.
  rewrite get_last_checkin_log_checkin by done.
  unfold datetime_now, fromisoformat, CURRENT_TIMESTAMP, timedelta_seconds in *.
  rewrite Htz.
  pose proof (Z.mod_pos_bound (utc_us now_update) 1000000 ltac:(lia)) as Hfrac.
  pose proof (Z.div_mod (utc_us now_update) 1000000 ltac:(lia)) as Hdiv.
  rewrite bool_decide_eq_true_2 by lia. done.
Qed.


Lemma count_by_category_lookup (rows : list checkin_row) (c : str) :
  count_by_category rows !! c
  = match length (filter (λ row, category row = c) rows) with
    | O => None
    | n => Some n
    end.
Proof.
  induction rows as [|row rows IH]; [done|].
  simpl. rewrite filter_cons. destruct (decide (category row = c)) as [<-|Hne].
  - rewrite lookup_insert_eq, IH. simpl.
    by destruct (length (filter _ rows)).
  - by rewrite lookup_insert_ne.
Qed.

(** X9: [category_counts] has a key for a category exactly when a check-in of
    the last seven days has it, and the value is the number of those
    check-ins: no key has the count zero. *)
Theorem get_stats_category_counts (now_week now_breakdown : clock) (self : Database.t)
    (c : str) (n : nat) :
  category_counts (get_stats now_week now_breakdown self) !! c = Some n
  ↔ (0 < n)%nat ∧ n = length (week_rows_of_category now_breakdown c self).
Proof.
  unfold get_stats, week_rows_of_category. simpl. rewrite count_by_category_lookup.
  destruct (length _); split; try done; try lia.
  - intros [= <-]. split; [lia|done].
  - intros [_ ->]. done.
Qed.

(** X10: A check-in that is inside the window of both statements raises
    [week_checkins] and the count of its own category by one, and leaves
    the other counts as they were. *)
Theorem get_stats_log_checkin (flag : bool) (now_insert now_update now_week now_breakdown : clock)
    (self : Database.t) (user_id : Z) (category input_type : str)
    (mood_raw text_id meme video : option str) :
  CURRENT_TIMESTAMP now_week - 7 * 86400 ≤ CURRENT_TIMESTAMP now_insert →
  CURRENT_TIMESTAMP now_breakdown - 7 * 86400 ≤ CURRENT_TIMESTAMP now_insert →
  let before := get_stats now_week now_breakdown self in
  let after :=
    get_stats now_week now_breakdown
      (log_checkin flag now_insert now_update self user_id category input_type mood_raw
         text_id meme video) in
  week_checkins after = S (week_checkins before)
  ∧ category_counts after
    = <[category := S (default 0%nat (category_counts before !! category))]>
        (category_counts before)
  ∧ total_users after = total_users before.
Proof.
  intros Hweek Hbreak before after. unfold before, after, get_stats, log_checkin. simpl.
  rewrite !filter_app, !filter_cons, !filter_nil.
  rewrite !decide_True by (unfold this_week; simpl; by apply bool_decide_eq_true_2).
  split_and!.
  - rewrite length_app. simpl. lia.
  - apply map_eq. intros c. rewrite count_by_category_lookup, filter_app, length_app.
    rewrite filter_cons, filter_nil. simpl.
    destruct (decide (category = c)) as [<-|Hne].
    + rewrite lookup_insert_eq, count_by_category_lookup. simpl.
      destruct (length _); simpl; [done|]. f_equal. lia.
    + rewrite lookup_insert_ne, count_by_category_lookup by done. simpl.
      by rewrite Nat.add_0_r.
  - by rewrite <- !(size_dom (D := gset Z)), dom_alter_L.
Qed.

End LedgerFacts.

(** ** More of the ledger on concrete inputs *)

Section LedgerExamples.
Import Database.
Local Open Scope Z_scope.

Lemma register_user_get_user_witness :
  get_user (register_user Sample.t0 init_db 222 (Some (py "testuser"))) 222
  = Some (222, {| username := Some (py "testuser");
                  first_seen_at := CURRENT_TIMESTAMP Sample.t0;
                  last_checkin_at := None;
                  timezone := py "Asia/Qyzylorda" |}).
Proof.
  apply (proj1 (register_user_get_user Sample.t0 Sample.t0 init_db 222
                  (Some (py "testuser")) None)).
  reflexivity.
Defined.

Lemma log_checkin_other_users_witness :
  get_user (Sample.checked_in Sample.db_registered 333) 222
  = get_user Sample.db_registered 222
  ∧ can_checkin Sample.t0 (Sample.checked_in Sample.db_registered 333) 222 604800
    = can_checkin Sample.t0 Sample.db_registered 222 604800.
Proof.
  apply (proj1 (log_checkin_other_users false Sample.t0 Sample.t0 Sample.t0
                  Sample.db_registered 333 222 604800 (py "POSITIVE") (py "button")
                  None None None None)).
  discriminate.
Defined.

Lemma log_checkin_raw_text_witness :
  Forall (λ row, mood_raw row = None) (checkins (run_calls false Sample.calls init_db)).
Proof.
  apply (proj1 (log_checkin_raw_text Sample.calls init_db)).
  constructor.
Defined.

Lemma can_checkin_refusal_backed_witness :
  is_Some (get_user (run_calls false Sample.calls init_db) 222)
  ∧ ∃ r, r ∈ checkins (run_calls false Sample.calls init_db) ∧ user_id r = 222.
Proof.
  apply (can_checkin_refusal_backed false Sample.calls (Sample.after 2000000) 222 604800
           (Some 604797876544)).
  vm_compute. reflexivity.
Defined.

Lemma can_checkin_after_cooldown_witness :
  can_checkin (Sample.after (604800 * 1000000))
    (Sample.checked_in Sample.db_registered 222) 222 604800
  = (true, None).
Proof.
  apply (can_checkin_after_cooldown false Sample.t0 Sample.t0
           (Sample.after (604800 * 1000000)) Sample.db_registered 222 604800).
  - vm_compute. eauto.
  - reflexivity.
  - vm_compute. discriminate.
Defined.


Lemma get_stats_log_checkin_witness :
  week_checkins
    (get_stats (Sample.after 5) (Sample.after 5) (Sample.checked_in Sample.db_registered 222))
  = S (week_checkins (get_stats (Sample.after 5) (Sample.after 5) Sample.db_registered))
  ∧ category_counts
      (get_stats (Sample.after 5) (Sample.after 5)
         (Sample.checked_in Sample.db_registered 222))
    = <[py "POSITIVE" :=
          S (default 0%nat
               (category_counts (get_stats (Sample.after 5) (Sample.after 5) Sample.db_registered)
                !! py "POSITIVE"))]>
        (category_counts (get_stats (Sample.after 5) (Sample.after 5) Sample.db_registered))
  ∧ total_users
      (get_stats (Sample.after 5) (Sample.after 5) (Sample.checked_in Sample.db_registered 222))
    = total_users (get_stats (Sample.after 5) (Sample.after 5) Sample.db_registered).
Proof.
  apply (get_stats_log_checkin false Sample.t0 Sample.t0 (Sample.after 5) (Sample.after 5)
           Sample.db_registered 222 (py "POSITIVE") (py "button") None None None None).
  - vm_compute. discriminate.
  - vm_compute. discriminate.
Defined.

(** The check-in of the unregistered user 333 is on record, and that user
    is still allowed to check in. *)
Example run_calls_unregistered :
  length (checkins (run_calls false Sample.calls init_db)) = 2%nat
  ∧ get_all_active_users (run_calls false Sample.calls init_db) = [222]
  ∧ can_checkin Sample.t0 (run_calls false Sample.calls init_db) 333 604800 = (true, None).
Proof. vm_compute. done. Qed.

End LedgerExamples.

(** * More on the classifier *)

Section SplitFacts.
Import Str.

(** The words that a scan gives are not empty and hold no separator. *)
Lemma split_go_words (sep : N → bool) (cur s : str) :
  Forall (λ c, sep c = false) cur →
  Forall (λ w, w ≠ [] ∧ Forall (λ c, sep c = false) w) (split_go sep cur s).
Proof.
  revert cur. induction s as [|c s IH]; intros cur Hcur; simpl.
  - destruct cur; simpl; [constructor|].
    constructor; [split; [done|exact Hcur]|constructor].
  - destruct (sep c) eqn:E.
    + destruct cur as [|c0 cur]; [by apply IH|].
      constructor; [done|]. by apply IH.
    + apply IH, Forall_app. split; [done|]. by repeat constructor.
Qed.

Lemma split_go_app_word (sep : N → bool) (cur w rest : str) :
  Forall (λ c, sep c = false) w →
  split_go sep cur (w ++ rest) = split_go sep (cur ++ w) rest.
Proof.
  revert cur. induction w as [|c w IH]; intros cur Hw; simpl.
  - by rewrite app_nil_r.
  - apply Forall_cons in Hw as [Hc Hw]. rewrite Hc, IH by done.
    by rewrite <- app_assoc.
Qed.

Lemma split_go_sep (sep : N → bool) (cur s : str) (c : N) :
  sep c = true → cur ≠ [] → split_go sep cur (c :: s) = cur :: split_go sep [] s.
Proof. intros Hc Hne. simpl. rewrite Hc. by destruct cur. Qed.

(** Splitting undoes joining with a separator, for words that are not
    empty and hold no separator. *)
Lemma split_on_join (sep : N → bool) (sp : N) (ws : list str) :
  sep sp = true →
  Forall (λ w, w ≠ [] ∧ Forall (λ c, sep c = false) w) ws →
  split_on sep (join [sp] ws) = ws.
Proof.
  intros Hsp. unfold split_on. induction ws as [|w ws IH]; intros Hws; [done|].
  apply Forall_cons in Hws as [[Hne Hw] Hws].
  destruct ws as [|w' ws].
  - simpl. rewrite <- (app_nil_r w) at 1. rewrite split_go_app_word by done.
    simpl. by destruct w.
  - change (join [sp] (w :: w' :: ws)) with (w ++ sp :: join [sp] (w' :: ws)).
    rewrite split_go_app_word, app_nil_l, split_go_sep by done.
    by rewrite IH.
Qed.

End SplitFacts.

Section ClassifierMore.
Context `{PyRuntime}.
Import Str MoodClassifier.

Lemma words_of_words (text : str) :
  Forall (λ w, w ≠ [] ∧ Forall (λ c, separator c = false) w) (words_of text).
Proof. apply split_go_words. constructor. Qed.

Lemma split_normalize_text_words (text : str) :
  split (_normalize_text text) = words_of text.
Proof.
  rewrite _normalize_text_words. apply split_on_join; [apply isspace_SPACE|].
  eapply Forall_impl; [apply words_of_words|].
  intros w [Hne Hw]. split; [done|]. eapply Forall_impl; [exact Hw|].
  intros c Hc. unfold separator in Hc. by apply orb_false_elim in Hc as [_ ?].
Qed.

(** X11: The words that [classify_text_mood] compares the keywords with are
    the words of the text: splitting the normalized text gives back the
    maximal runs of word characters of its lowercase form, none of them
    empty, none holding whitespace or punctuation. *)
Theorem split_normalize_text (text : str) :
  split (_normalize_text text) = words_of text
  ∧ Forall (λ w, w ≠ [] ∧ Forall (λ c, re_word c = true ∧ isspace c = false) w)
      (split (_normalize_text text)).
Proof.
  pose proof (split_normalize_text_words text) as E.
  split; [done|]. rewrite E.
  eapply Forall_impl; [apply words_of_words|].
  intros w [Hne Hw]. split; [done|]. eapply Forall_impl; [exact Hw|].
  intros c Hc. unfold separator in Hc. apply orb_false_elim in Hc as [Hw' Hs].
  split; [|done]. by apply negb_false_iff.
Qed.

(** Normalizing twice is normalizing once, when [lower] works character
    by character, leaves the space alone and leaves lowercase characters
    alone. *)
Lemma _normalize_text_idempotent (lc : N → N) (text : str) :
  (∀ s, str_lower s = lc <$> s) →
  (∀ c, lc (lc c) = lc c) →
  lc 32 = 32 →
  _normalize_text (_normalize_text text) = _normalize_text text.
Proof.
  intros Hlower Hidem Hsp.
  assert (Hfix : ∀ ws : list str, Forall (Forall (λ c, lc c = c)) ws →
                   lc <$> join [32] ws = join [32] ws).
  { induction ws as [|w ws IH]; intros Hws; [done|].
    apply Forall_cons in Hws as [Hw Hws].
    assert (Ew : lc <$> w = w).
    { clear -Hw. induction Hw as [|c w Hc _ IH]; [done|]. by rewrite fmap_cons, Hc, IH. }
    destruct ws as [|w' ws]; [done|].
    change (join [32] (w :: w' :: ws)) with (w ++ 32 :: join [32] (w' :: ws)).
    by rewrite fmap_app, fmap_cons, Ew, Hsp, IH. }
  assert (Hlow : Forall (Forall (λ c, lc c = c)) (words_of text)).
  { unfold words_of. rewrite Hlower.
    assert (G : ∀ (s cur : str), Forall (λ c, lc c = c) cur →
              Forall (Forall (λ c, lc c = c)) (split_go separator cur (lc <$> s))).
    { induction s as [|c s IH]; intros cur Hcur; simpl.
      - destruct cur; [constructor|]. constructor; [done|constructor].
      - destruct (separator (lc c)).
        + destruct cur; [by apply IH|]. constructor; [done|]. by apply IH.
        + apply IH, Forall_app. split; [done|]. constructor; [apply Hidem|constructor]. }
    apply G. constructor. }
  rewrite (_normalize_text_words text). unfold _normalize_text at 1.
  rewrite Hlower, Hfix by done.
  assert (Esub : re_sub_punct (join [32] (words_of text)) = join [32] (words_of text)).
  { unfold re_sub_punct. pose proof (words_of_words text) as Hw.
    induction Hw as [|w ws [_ Hw] Hws IH]; [done|].
    assert (Ew : (λ c, if re_word c || isspace c then c else 32) <$> w = w).
    { clear -Hw. induction Hw as [|c w Hc _ IH]; [done|].
      rewrite fmap_cons, IH. unfold separator in Hc.
      apply orb_false_elim in Hc as [Hc _]. apply negb_false_iff in Hc. by rewrite Hc. }
    destruct ws as [|w' ws]; [done|].
    change (join [32] (w :: w' :: ws)) with (w ++ 32 :: join [32] (w' :: ws)).
    rewrite fmap_app, fmap_cons, Ew, IH, isspace_SPACE, orb_true_r; [done|].
    by apply Forall_cons in Hlow as [_ ?]. }
  rewrite Esub. f_equal. rewrite <- (_normalize_text_words text).
  apply split_normalize_text_words.
Qed.

Lemma rank_inj (c1 c2 : Category) : priority_rank c1 = priority_rank c2 → c1 = c2.
Proof. destruct c1, c2; simpl; intros; done. Qed.

(** X12: The result is the matching category of the closed set above which no
    category of the closed set matches, whether the text matches one
    category or several, and whatever foreign keys the table has: a text
    that matches HEAVY_DEEP is always HEAVY_DEEP. *)
Theorem classify_text_mood_top_match (file : option keyword_table) (text : str)
    (c : Category) :
  category_matches (keywords (new file)) text (category_name c) →
  (∀ c', (priority_rank c < priority_rank c')%nat →
         ¬ category_matches (keywords (new file)) text (category_name c')) →
  classify_text_mood (new file) text = Ok (category_name c).
Proof.
  intros Hc Htop.
  destruct (classify_text_mood_cases file text)
    as [[_ Hnone]|[(r & E & Hr & Hmax)|(name & _ & _ & Hnone)]].
  - by apply Hnone in Hc.
  - rewrite E. do 2 f_equal. apply rank_inj.
    pose proof (Hmax c Hc) as Hle.
    destruct (decide (priority_rank c < priority_rank r)%nat) as [Hlt|Hge]; [|lia].
    by apply Htop in Hr.
  - by apply Hnone in Hc.
Qed.

Lemma contains_nil (hay : str) : contains hay [] = true.
Proof. by destruct hay. Qed.

(** X13: A keyword that normalizes to the empty string (an empty keyword, or
    one made of punctuation only) matches every text: its category always
    matches, and no text is classified below it. *)
Theorem empty_keyword_matches_all (file : option keyword_table) (c : Category)
    (kws : list str) (keyword text : str) :
  (category_name c, kws) ∈ keywords (new file) →
  keyword ∈ kws →
  _normalize_text keyword = [] →
  category_matches (keywords (new file)) text (category_name c)
  ∧ ∃ r, classify_text_mood (new file) text = Ok (category_name r)
         ∧ (priority_rank c ≤ priority_rank r)%nat.
Proof.
  intros Hin Hk Hempty.
  assert (Hm : category_matches (keywords (new file)) text (category_name c)).
  { exists kws, keyword. split_and!; [done|done|].
    left. rewrite Hempty. exists [], (_normalize_text text). done. }
  split; [done|].
  destruct (classify_text_mood_cases file text)
    as [[_ Hnone]|[(r & E & Hr & Hmax)|(name & _ & _ & Hnone)]].
  - by apply Hnone in Hm.
  - exists r. split; [done|]. by apply Hmax.
  - by apply Hnone in Hm.
Qed.

Lemma category_matches_Permutation (table1 table2 : keyword_table) (text name : str) :
  table1 ≡ₚ table2 → category_matches table1 text name → category_matches table2 text name.
Proof.
  intros Hp (kws & k & Hin & Hk & Hhit). exists kws, k. by rewrite <- Hp.
Qed.

(** X14: The order of the categories in the keyword table does not matter, for
    a table whose keys are in the closed set. *)
Theorem classify_text_mood_table_order (table1 table2 : keyword_table) (text : str) :
  table1 ≡ₚ table2 →
  (∀ name kws, (name, kws) ∈ table1 → closed_category name) →
  classify_text_mood (new (Some table1)) text = classify_text_mood (new (Some table2)) text.
Proof.
  intros Hp Hclosed.
  assert (H12 : ∀ name, category_matches table1 text name → category_matches table2 text name)
    by (intros ?; by apply category_matches_Permutation).
  assert (H21 : ∀ name, category_matches table2 text name → category_matches table1 text name)
    by (intros ?; by apply category_matches_Permutation).
  assert (Hforeign : ∀ name, category_matches table1 text name →
            (∀ c, ¬ category_matches table1 text (category_name c)) → False).
  { intros name Hm Hnone. destruct Hm as (kws & k & Hin & Hk & Hhit).
    destruct (Hclosed _ _ Hin) as [c ->]. apply (Hnone c). by exists kws, k. }
  destruct (classify_text_mood_cases (Some table1) text)
    as [[E1 Hnone1]|[(r1 & E1 & Hr1 & Hmax1)|(name1 & _ & Hn1 & Hnone1)]];
  destruct (classify_text_mood_cases (Some table2) text)
    as [[E2 Hnone2]|[(r2 & E2 & Hr2 & Hmax2)|(name2 & _ & Hn2 & Hnone2)]];
  simpl in *.
  - by rewrite E1, E2.
  - by apply H21, Hnone1 in Hr2.
  - by apply H21, Hnone1 in Hn2.
  - by apply H12, Hnone2 in Hr1.
  - rewrite E1, E2. do 2 f_equal. apply rank_inj.
    pose proof (Hmax1 r2 (H21 _ Hr2)). pose proof (Hmax2 r1 (H12 _ Hr1)). lia.
  - by apply H12, Hnone2 in Hr1.
  - exfalso. by eapply Hforeign.
  - exfalso. by eapply Hforeign.
  - exfalso. by eapply Hforeign.
Qed.

End ClassifierMore.

(** ** More of the classifier on concrete inputs *)

Section ClassifierMoreExamples.
Import Str MoodClassifier.

Lemma lower_cp_idempotent (c : N) : Ascii_rt.lower_cp (Ascii_rt.lower_cp c) = Ascii_rt.lower_cp c.
Proof.
  unfold Ascii_rt.lower_cp.
  destruct ((65 <=? c) && (c <=? 90)) eqn:E; [|by rewrite E].
  apply andb_true_iff in E as [E _]. apply N.leb_le in E.
  replace (c + 32 <=? 90) with false by (symmetry; apply N.leb_gt; lia).
  by rewrite andb_false_r.
Qed.

Lemma _normalize_text_idempotent_witness :
  _normalize_text (H := ascii_runtime) (_normalize_text (H := ascii_runtime) (py "I'm  SAD!!! "))
  = _normalize_text (H := ascii_runtime) (py "I'm  SAD!!! ").
Proof.
  apply (_normalize_text_idempotent (H := ascii_runtime) Ascii_rt.lower_cp).
  - reflexivity.
  - apply lower_cp_idempotent.
  - reflexivity.
Defined.

Local Ltac match_by_evaluation :=
  apply (matched_categories_spec (H := ascii_runtime));
  match goal with |- ?P => refine (@bool_decide_unpack P _ _) end;
  vm_compute; exact I.

Local Ltac no_match_by_evaluation :=
  intros Hm; apply (matched_categories_spec (H := ascii_runtime)) in Hm; revert Hm;
  match goal with |- ?P → False => refine (proj1 (@bool_decide_eq_false P _) _) end;
  vm_compute; reflexivity.

Lemma classify_text_mood_top_match_witness :
  classify_text_mood (H := ascii_runtime) (new (Some Sample.keywords))
    (py "I'm sad but also motivated") = Ok (category_name SAD_LOW).
Proof.
  apply (classify_text_mood_top_match (H := ascii_runtime)).
  - match_by_evaluation.
  - intros [] Hlt; simpl in Hlt; try lia. no_match_by_evaluation.
Defined.

Lemma empty_keyword_matches_all_witness :
  category_matches (H := ascii_runtime) (keywords (new (Some Sample.dotted_keywords)))
    (py "what a great day") (category_name SAD_LOW)
  ∧ ∃ r, classify_text_mood (H := ascii_runtime) (new (Some Sample.dotted_keywords))
           (py "what a great day") = Ok (category_name r)
         ∧ (priority_rank SAD_LOW ≤ priority_rank r)%nat.
Proof.
  apply (empty_keyword_matches_all (H := ascii_runtime) (Some Sample.dotted_keywords)
           SAD_LOW [py "sad"; py "..."] (py "...")).
  - left.
  - right. left.
  - vm_compute. reflexivity.
Defined.

Lemma classify_text_mood_table_order_witness :
  classify_text_mood (H := ascii_runtime) (new (Some Sample.keywords))
    (py "I'm happy but want to kill myself")
  = classify_text_mood (H := ascii_runtime) (new (Some (rev Sample.keywords)))
      (py "I'm happy but want to kill myself").
Proof.
  apply (classify_text_mood_table_order (H := ascii_runtime)).
  - apply Permutation_rev.
  - intros name kws Hin. unfold Sample.keywords in Hin.
    repeat (apply elem_of_cons in Hin as [Hin|Hin]; [injection Hin as -> _|]).
    5: by apply elem_of_nil in Hin.
    + by exists POSITIVE.
    + by exists NEUTRAL_TIRED.
    + by exists SAD_LOW.
    + by exists HEAVY_DEEP.
Defined.

(** An empty keyword list never matches; the keyword "..." matches a text
    that has none of the words of the table. *)
Example classify_text_mood_dotted :
  classify_text_mood (H := ascii_runtime) (new (Some Sample.dotted_keywords))
    (py "what a great day") = Ok (category_name SAD_LOW)
  ∧ classify_text_mood (H := ascii_runtime) (new (Some [(py "SAD_LOW", [])]))
      (py "sad") = Ok (category_name NEUTRAL_TIRED).
Proof. split; vm_compute; reflexivity. Qed.

End ClassifierMoreExamples.

(** * More on the response selector *)

Section ContentLoaderMore.
Import Str ContentLoader.

Lemma get_content_for_category_source (self : ContentLoader.t) (path_exists : str → bool)
    (category : str) (g : rng) :
  returns (get_content_for_category self path_exists category) g
    (content_source self path_exists category).
Proof.
  unfold get_content_for_category, content_source.
  destruct (responses self !! category) as [d|]; [|by apply returns_ret].
  set (Qtext := λ r : content,
    match nonempty_list (texts d) with
    | Some ts => (∃ s, s ∈ ts ∧ text r = Some s) ∧ text_id r = Some (category ++ py "_text")
    | None => text r = None ∧ text_id r = None
    end).
  set (Qmeme := λ r : content,
    match nonempty_list (memes d) with
    | Some ms =>
        if bool_decide (category ∈ [py "POSITIVE"; py "NEUTRAL_TIRED"]) then
          ∃ f, f ∈ ms ∧ meme r = if path_exists (meme_path f) then Some (meme_path f) else None
        else meme r = None
    | None => meme r = None
    end).
  apply returns_bind.
  apply returns_mono with (Q := λ r, Qtext r ∧ meme r = None ∧ video r = None).
  2: { unfold Qtext. destruct (nonempty_list (texts d)) as [ts|] eqn:Et.
       - apply returns_bind, returns_random_choice; [by eapply nonempty_list_Some|].
         intros chosen Hin g'. apply returns_ret. simpl. split_and!; eauto.
       - by apply returns_ret. }
  intros r1 (Ht & Hm & Hv) g1. apply returns_bind.
  apply returns_mono with (Q := λ r, Qtext r ∧ Qmeme r ∧ video r = None).
  2: { unfold Qmeme. destruct (nonempty_list (memes d)) as [ms|] eqn:Em.
       - case_bool_decide as Hc.
         + apply returns_bind, returns_random_choice; [by eapply nonempty_list_Some|].
           intros meme_filename Hin g'.
           destruct (path_exists (meme_path meme_filename)) eqn:Ef; apply returns_ret;
             (split_and!; [done| |done]); exists meme_filename; by rewrite Ef.
         + by apply returns_ret.
       - destruct (bool_decide (category ∈ [py "POSITIVE"; py "NEUTRAL_TIRED"]));
           by apply returns_ret. }
  intros r2 (Ht2 & Hm2 & Hv2) g2. apply returns_bind.
  apply returns_mono with (Q := λ r, Qtext r ∧ Qmeme r ∧
    match nonempty_list (videos d) with
    | Some vs =>
        if bool_decide (category ∈ [py "SAD_LOW"; py "ANXIOUS_STRESSED"]) then
          ∃ v, v ∈ vs ∧ video r = Some v
        else video r = None
    | None => video r = None
    end).
  2: { destruct (nonempty_list (videos d)) as [vs|] eqn:Ev.
       - case_bool_decide as Hc.
         + apply returns_bind, returns_random_choice; [by eapply nonempty_list_Some|].
           intros chosen Hin g'. apply returns_ret. simpl. split_and!; eauto.
         + by apply returns_ret.
       - destruct (bool_decide (category ∈ [py "SAD_LOW"; py "ANXIOUS_STRESSED"]));
           by apply returns_ret. }
  intros r3 Hr3 g3. by apply returns_ret.
Qed.

(** [get_response_for_mood] only touches the text of the content, and
    only when there is none. *)
Lemma get_response_for_mood_of_content (self : ContentLoader.t) (path_exists : str → bool)
    (category : str) (g : rng) (Q : content → Prop) :
  returns (get_content_for_category self path_exists category) g Q →
  returns (get_response_for_mood self path_exists category) g
    (λ r, ∃ r0, Q r0
            ∧ meme r = meme r0 ∧ video r = video r0 ∧ text_id r = text_id r0
            ∧ (falsy (text r0) = true → text r = Some (_get_default_text category))
            ∧ (falsy (text r0) = false → text r = text r0)).
Proof.
  intros Hcontent. unfold get_response_for_mood. apply returns_bind.
  eapply returns_mono; [|exact Hcontent].
  intros r0 Hr0 g'. destruct (falsy (text r0)) eqn:Ef; apply returns_ret; exists r0.
  - repeat split; try done; congruence.
  - repeat split; try done; congruence.
Qed.

Lemma nonempty_list_elem (l : option (list str)) (xs : list str) :
  nonempty_list l = Some xs → l = Some xs.
Proof. destruct l as [[|x l]|]; simpl; intros [= <-]; done. Qed.

(** A name without a slash, other than the empty name and the single
    dot, is put under [media/memes]. *)
Lemma meme_path_plain (meme_filename : str) :
  47 ∉ meme_filename → meme_filename ≠ [] → meme_filename ≠ py "." →
  meme_path meme_filename = py "media/memes/" ++ meme_filename.
Proof.
  intros Hslash Hne Hdot.
  assert (Hparts : PosixPath.parts_of meme_filename = [meme_filename]).
  { unfold PosixPath.parts_of, split_on.
    rewrite <- (app_nil_r meme_filename) at 1.
    rewrite split_go_app_word.
    - simpl. destruct meme_filename as [|c f] eqn:E; [done|]. rewrite <- E.
      rewrite filter_cons, decide_True by (by subst). by rewrite filter_nil.
    - apply Forall_forall. intros c Hc. unfold PosixPath.is_sep.
      apply N.eqb_neq. intros ->. by apply Hslash, list_elem_of_In. }
  unfold meme_path, PosixPath.truediv at 1.
  destruct meme_filename as [|c f] eqn:E; [done|]. rewrite <- E in *.
  assert (Hstart : startswith meme_filename (py "/") = false).
  { rewrite E. change (startswith (c :: f) (py "/")) with ((47 =? c) && true).
    apply andb_false_intro1, N.eqb_neq. intros <-.
    apply Hslash. rewrite E. by left. }
  rewrite Hstart, Hparts. reflexivity.
Qed.

(** The response of [get_response_for_mood] is the content of
    [get_content_for_category] but for its text, and no draw is added. *)
Lemma get_response_for_mood_inv (self : ContentLoader.t) (path_exists : str → bool)
    (category : str) (g g' : rng) (r : content) :
  get_response_for_mood self path_exists category g = Ok (r, g') →
  ∃ r0, get_content_for_category self path_exists category g = Ok (r0, g')
        ∧ meme r = meme r0 ∧ video r = video r0 ∧ text_id r = text_id r0
        ∧ text r = (if falsy (text r0) then Some (_get_default_text category) else text r0).
Proof.
  unfold get_response_for_mood, mbind, M_bind. intros Hok.
  destruct (get_content_for_category self path_exists category g) as [[r0 g0]|e]; [|done].
  exists r0. destruct (falsy (text r0)); injection Hok as <- <-; done.
Qed.

Lemma random_choice_draw (l : option (list str)) (xs : list str) (g : rng) :
  nonempty_list l = Some xs →
  ∃ x, xs !! (g 0 mod length xs)%nat = Some x
       ∧ random_choice xs g = Ok (x, λ n, g (S n)).
Proof.
  intros Hl. apply nonempty_list_Some in Hl.
  destruct (lookup_lt_is_Some_2 xs (g 0%nat mod length xs)) as [x Hx].
  { apply Nat.mod_upper_bound. by destruct xs. }
  exists x. split; [done|]. unfold random_choice. by rewrite Hx.
Qed.

(** X15: Every part of a response that [get_response_for_mood] returns
    for a category of the catalog comes from the entry of the category:
    the text is one of its texts or the fallback text, the image is the
    string of [Path(MEDIA_DIR) / "memes" / name] for one of its memes and
    [exists()] has answered yes for that path, the video is one of its
    videos. *)
Theorem get_response_for_mood_from_catalog (self : ContentLoader.t)
    (path_exists : str → bool) (category : str) (d : category_data) (g g' : rng)
    (r : content) :
  responses self !! category = Some d →
  get_response_for_mood self path_exists category g = Ok (r, g') →
  (∃ s, text r = Some s
        ∧ (s = _get_default_text category ∨ ∃ ts, texts d = Some ts ∧ s ∈ ts))
  ∧ (∀ p, meme r = Some p →
          path_exists p = true
          ∧ ∃ ms f, memes d = Some ms ∧ f ∈ ms ∧ p = meme_path f)
  ∧ (∀ v, video r = Some v → ∃ vs, videos d = Some vs ∧ v ∈ vs).
Proof.
  intros Hd Hok.
  destruct (get_response_for_mood_of_content self path_exists category g _
              (get_content_for_category_source self path_exists category g))
    as (r1 & g1 & E & r0 & Hr0 & Em & Ev & _ & Hfalsy & Htruthy).
  rewrite E in Hok. injection Hok as <- <-. rewrite Em, Ev.
  unfold content_source in Hr0. rewrite Hd in Hr0. destruct Hr0 as (Ht & Hm & Hv).
  split_and!.
  - destruct (falsy (text r0)) eqn:Ef.
    + eexists. split; [by apply Hfalsy|]. by left.
    + rewrite (Htruthy eq_refl).
      destruct (nonempty_list (texts d)) as [ts|] eqn:Ets.
      * destruct Ht as [(s & Hs & Es) _]. exists s. split; [done|]. right.
        exists ts. split; [by apply nonempty_list_elem|done].
      * destruct Ht as [Et _]. by rewrite Et in Ef.
  - intros p Hp. destruct (nonempty_list (memes d)) as [ms|] eqn:Ems; [|congruence].
    destruct (bool_decide (category ∈ [py "POSITIVE"; py "NEUTRAL_TIRED"])); [|congruence].
    destruct Hm as (f & Hf & Ef). rewrite Ef in Hp.
    destruct (path_exists (meme_path f)) eqn:Ex; [|done]. injection Hp as <-.
    split; [done|]. exists ms, f. split_and!; [by apply nonempty_list_elem|done|done].
  - intros v Hvid. destruct (nonempty_list (videos d)) as [vs|] eqn:Evs; [|congruence].
    destruct (bool_decide (category ∈ [py "SAD_LOW"; py "ANXIOUS_STRESSED"]));
      [|congruence].
    destruct Hv as (v' & Hv' & Ev'). exists vs.
    split; [by apply nonempty_list_elem|congruence].
Qed.

(** X16: What is there is sent, and it is drawn once. With [k] the number
    of draws for the text (one when the entry has texts, none otherwise),
    a response returned for SAD_LOW or ANXIOUS_STRESSED with videos has
    the video of draw [k]; a response returned for POSITIVE or
    NEUTRAL_TIRED with memes has the path of the meme of draw [k] as
    image when [exists()] answers yes for that path and no image when it
    answers no. In both cases the generator has then made [k + 1] draws:
    no second meme is drawn. *)
Theorem get_response_for_mood_attaches (self : ContentLoader.t)
    (path_exists : str → bool) (category : str) (d : category_data) (g g' : rng)
    (r : content) :
  responses self !! category = Some d →
  get_response_for_mood self path_exists category g = Ok (r, g') →
  let k := match nonempty_list (texts d) with Some _ => 1%nat | None => 0%nat end in
  (category ∈ [py "SAD_LOW"; py "ANXIOUS_STRESSED"] →
   ∀ vs, nonempty_list (videos d) = Some vs →
     ∃ v, vs !! (g k mod length vs)%nat = Some v
          ∧ video r = Some v
          ∧ ∀ n, g' n = g (k + 1 + n)%nat)
  ∧ (category ∈ [py "POSITIVE"; py "NEUTRAL_TIRED"] →
     ∀ ms, nonempty_list (memes d) = Some ms →
       ∃ f, ms !! (g k mod length ms)%nat = Some f
            ∧ meme r = (if path_exists (meme_path f) then Some (meme_path f) else None)
            ∧ ∀ n, g' n = g (k + 1 + n)%nat).
Proof.
  intros Hd Hok k.
  destruct (get_response_for_mood_inv _ _ _ _ _ _ Hok) as (r0 & E & -> & -> & _).
  clear Hok. unfold get_content_for_category in E. rewrite Hd in E.
  unfold mbind, M_bind, mret, M_ret in E.
  subst k.
  destruct (nonempty_list (texts d)) as [ts|] eqn:Et;
    [destruct (random_choice_draw _ _ g Et) as (t & _ & Et'); rewrite Et' in E|];
    (split;
     [intros Hc vs Hvs;
      assert (Hnot : bool_decide (category ∈ [py "POSITIVE"; py "NEUTRAL_TIRED"]) = false)
        by (apply elem_of_pair in Hc as [-> | ->]; by vm_compute);
      rewrite Hnot, bool_decide_eq_true_2, Hvs in E by done;
      match type of E with
      | context [random_choice vs ?g0] =>
          destruct (random_choice_draw _ _ g0 Hvs) as (v & Hv & Erc)
      end;
      rewrite Erc in E; injection E as <- <-;
      exists v; split_and!; [exact Hv|done|done]
     |intros Hc ms Hms;
      assert (Hnot : bool_decide (category ∈ [py "SAD_LOW"; py "ANXIOUS_STRESSED"]) = false)
        by (apply elem_of_pair in Hc as [-> | ->]; by vm_compute);
      rewrite Hnot, bool_decide_eq_true_2, Hms in E by done;
      match type of E with
      | context [random_choice ms ?g0] =>
          destruct (random_choice_draw _ _ g0 Hms) as (f & Hf & Erc)
      end;
      rewrite Erc in E;
      exists f; split; [exact Hf|];
      destruct (path_exists (meme_path f)); injection E as <- <-; by split]).
Qed.

(** X17: The text id names the category whenever the entry has texts, also
    when the text drawn is empty and the fallback text stands in for it;
    it is null when the entry has no texts. *)
Theorem get_response_for_mood_text_id (self : ContentLoader.t)
    (path_exists : str → bool) (category : str) (d : category_data) (g : rng) :
  responses self !! category = Some d →
  ∃ r g', get_response_for_mood self path_exists category g = Ok (r, g')
    ∧ text_id r
      = match nonempty_list (texts d) with
        | Some _ => Some (category ++ py "_text")
        | None => None
        end.
Proof.
  intros Hd.
  destruct (get_response_for_mood_of_content self path_exists category g _
              (get_content_for_category_source self path_exists category g))
    as (r & g' & E & r0 & Hr0 & _ & _ & Et & _).
  exists r, g'. split; [done|]. rewrite Et.
  unfold content_source in Hr0. rewrite Hd in Hr0. destruct Hr0 as (Ht & _).
  destruct (nonempty_list (texts d)); by destruct Ht.
Qed.

End ContentLoaderMore.

(** ** More of the response selector on concrete inputs *)

Section ContentLoaderMoreExamples.
Import Str ContentLoader.

(** A catalog whose meme is named by an absolute path: the image of the
    response is that path, not a path under [media/memes]. *)
Lemma get_response_for_mood_from_catalog_witness :
  get_response_for_mood (new (Some Sample.absolute_meme))
    (λ p, bool_decide (p = py "/etc/hostname")) (py "POSITIVE") (λ n, n)
  = Ok ({| text := Some (py "Great!");
           meme := Some (py "/etc/hostname");
           video := None;
           text_id := Some (py "POSITIVE_text") |}, λ n, S (S n))
  ∧ (∃ s, Some (py "Great!") = Some s
          ∧ (s = _get_default_text (py "POSITIVE")
             ∨ ∃ ts, Some [py "Great!"] = Some ts ∧ s ∈ ts))
  ∧ (∀ p, Some (py "/etc/hostname") = Some p →
          bool_decide (p = py "/etc/hostname") = true
          ∧ ∃ ms f, Some [py "/etc/hostname"] = Some ms ∧ f ∈ ms ∧ p = meme_path f)
  ∧ (∀ v, None = Some v → ∃ vs : list str, None = Some vs ∧ v ∈ vs).
Proof.
  split; [reflexivity|].
  refine (get_response_for_mood_from_catalog (new (Some Sample.absolute_meme))
            (λ p, bool_decide (p = py "/etc/hostname")) (py "POSITIVE")
            {| texts := Some [py "Great!"];
               memes := Some [py "/etc/hostname"];
               videos := None |}
            (λ n, n) (λ n, S (S n))
            {| text := Some (py "Great!");
               meme := Some (py "/etc/hostname");
               video := None;
               text_id := Some (py "POSITIVE_text") |} _ _).
  - vm_compute. reflexivity.
  - reflexivity.
Defined.

(** POSITIVE with a meme whose file is not there: the text is the first
    draw, the meme the second, and there is no third. *)
Lemma get_response_for_mood_attaches_witness :
  get_response_for_mood (new (Some Sample.responses)) (λ _, false) (py "POSITIVE") (λ n, n)
  = Ok ({| text := Some (py "Love that for you.");
           meme := None;
           video := None;
           text_id := Some (py "POSITIVE_text") |}, λ n, S (S n))
  ∧ ∃ f, [py "cat.jpg"] !! (1 mod 1)%nat = Some f
         ∧ None = (if (λ _ : str, false) (meme_path f) then Some (meme_path f) else None)
         ∧ ∀ n, S (S n) = (1 + 1 + n)%nat.
Proof.
  split; [reflexivity|].
  refine (proj2 (get_response_for_mood_attaches (new (Some Sample.responses)) (λ _, false)
                   (py "POSITIVE")
                   {| texts := Some [py "Love that for you."; py "Great!"];
                      memes := Some [py "cat.jpg"];
                      videos := None |}
                   (λ n, n) (λ n, S (S n))
                   {| text := Some (py "Love that for you.");
                      meme := None;
                      video := None;
                      text_id := Some (py "POSITIVE_text") |} _ _)
            _ [py "cat.jpg"] _).
  - vm_compute. reflexivity.
  - reflexivity.
  - by left.
  - reflexivity.
Defined.

(** What [pathlib] makes of the names of a catalog. *)
Example meme_path_names :
  meme_path (py "cat.jpg") = py "media/memes/cat.jpg"
  ∧ meme_path (py "./cat.jpg") = py "media/memes/cat.jpg"
  ∧ meme_path (py "a//b.jpg") = py "media/memes/a/b.jpg"
  ∧ meme_path (py "../calm/sea.jpg") = py "media/memes/../calm/sea.jpg"
  ∧ meme_path (py "cat.jpg/") = py "media/memes/cat.jpg"
  ∧ meme_path [] = py "media/memes"
  ∧ meme_path (py "/etc/hostname") = py "/etc/hostname"
  ∧ meme_path (py "//host/cat.jpg") = py "//host/cat.jpg"
  ∧ meme_path (py "///cat.jpg") = py "/cat.jpg".
Proof. by vm_compute. Qed.

Lemma get_response_for_mood_text_id_witness :
  ∃ r g', get_response_for_mood (new (Some Sample.responses)) (λ _, true)
            (py "ANGRY_FRUSTRATED") (λ n, n) = Ok (r, g')
    ∧ text_id r
      = match nonempty_list (Some [py "Breathe out slowly."]) with
        | Some _ => Some (py "ANGRY_FRUSTRATED" ++ py "_text")
        | None => None
        end.
Proof.
  apply (get_response_for_mood_text_id (new (Some Sample.responses)) (λ _, true)
           (py "ANGRY_FRUSTRATED")
           {| texts := Some [py "Breathe out slowly."];
              memes := Some [py "cat.jpg"];
              videos := Some [py "https://youtu.be/x"] |} (λ n, n)).
  vm_compute. reflexivity.
Defined.

(** An empty string among the texts: the fallback text is sent under the
    text id of the category. *)
Example get_response_for_mood_empty_text :
  get_response_for_mood
    (new (Some {[ py "SAD_LOW" := {| texts := Some [[]]; memes := None; videos := None |} ]}))
    (λ _, true) (py "SAD_LOW") (λ n, n)
  = Ok ({| text := Some (fallback_text SAD_LOW);
           meme := None;
           video := None;
           text_id := Some (py "SAD_LOW_text") |}, λ n, S n).
Proof. reflexivity. Qed.

End ContentLoaderMoreExamples.

(** * The replies and the check-in handlers *)

Section BotFacts.
Import Str Bot.

(** X18: [send_mood_response] answers the six categories, the response text
    being part of the first message, and is silent for every other
    category name. *)
Theorem send_mood_response_closed (path_exists : str → bool) (is_query : bool)
    (category : str) (response : ContentLoader.content) :
  (closed_category category →
   ∃ t rest pre post,
     send_mood_response path_exists is_query category response
     = send_text is_query t :: rest
     ∧ fstr t = pre ++ fstr (ContentLoader.text response) ++ post)
  ∧ (¬ closed_category category →
     send_mood_response path_exists is_query category response = []).
Proof.
  split.
  - intros [c ->]. unfold send_mood_response.
    destruct c; unfold category_name;
      repeat (rewrite bool_decide_eq_false_2 by (vm_compute; discriminate));
      rewrite bool_decide_eq_true_2 by done.
    + destruct (existing_meme _ _).
      * exists (ContentLoader.text response). eexists. exists [], [].
        split; [reflexivity|]. by rewrite app_nil_r.
      * eexists _, _, [128516; 32], []. split; [reflexivity|]. simpl. by rewrite app_nil_r.
    + eexists _, _, [128564; 32], []. split; [reflexivity|]. simpl. by rewrite app_nil_r.
    + destruct (truthy_opt _).
      * eexists _, _, [128153; 32], _. split; [reflexivity|]. simpl. reflexivity.
      * eexists _, _, [128153; 32], []. split; [reflexivity|]. simpl. by rewrite app_nil_r.
    + eexists _, _, [128293; 32], []. split; [reflexivity|]. simpl. by rewrite app_nil_r.
    + destruct (truthy_opt _).
      * eexists _, _, [127788; 65039; 32], _. split; [reflexivity|]. simpl. reflexivity.
      * eexists _, _, [127788; 65039; 32], []. split; [reflexivity|]. simpl.
        by rewrite app_nil_r.
    + eexists _, _, [128153; 32], CRISIS_LINE. split; [reflexivity|]. done.
  - intros Hc. unfold send_mood_response.
    repeat (case_bool_decide; [exfalso; apply Hc; subst category|]).
    + by exists POSITIVE.
    + by exists NEUTRAL_TIRED.
    + by exists SAD_LOW.
    + by exists ANGRY_FRUSTRATED.
    + by exists ANXIOUS_STRESSED.
    + by exists HEAVY_DEEP.
    + done.
Qed.

Lemma existing_meme_Some (path_exists : str → bool) (meme : option str) (photo : str) :
  existing_meme path_exists meme = Some photo →
  meme = Some photo ∧ photo ≠ [] ∧ path_exists photo = true.
Proof.
  unfold existing_meme. destruct meme as [p|]; [|done].
  destruct (truthy p) eqn:Et; simpl; [|done].
  destruct (path_exists p) eqn:Ep; [|done].
  intros [= <-]. by destruct p.
Qed.

(** X19: A photo is sent only for POSITIVE and NEUTRAL_TIRED, it is the image
    of the response and its file exists; nothing but a text message is
    sent for the other categories. *)
Theorem send_mood_response_photo (path_exists : str → bool) (is_query : bool)
    (category : str) (response : ContentLoader.content) (c : call) :
  c ∈ send_mood_response path_exists is_query category response →
  match c with
  | reply_photo photo =>
      (category = category_name POSITIVE ∨ category = category_name NEUTRAL_TIRED)
      ∧ ContentLoader.meme response = Some photo
      ∧ path_exists photo = true
  | edit_message_media _ => category = category_name POSITIVE ∧ is_query = true
  | reply_text _ => is_query = false
  | edit_message_text _ => is_query = true
  | answer | send_message _ _ _ => False
  end.
Proof.
  unfold send_mood_response, send_text.
  repeat case_bool_decide; subst;
    try destruct (existing_meme _ _) as [photo|] eqn:Em;
    try apply existing_meme_Some in Em as (Em & _ & Ex);
    destruct is_query; simpl; intros Hc;
    repeat (apply elem_of_cons in Hc as [->|Hc]);
    try (by apply elem_of_nil in Hc); auto.
Qed.

End BotFacts.

Section HandlerFacts.
Context `{PyRuntime}.
Import Str Bot.

Lemma classify_button_closed (self : MoodClassifier.t) (label : str) :
  ∃ c, MoodClassifier.classify self label true = Ok (category_name c)
       ∧ category_name c
         = default (category_name NEUTRAL_TIRED) (Config.MOOD_BUTTONS !! label).
Proof.
  unfold MoodClassifier.classify, MoodClassifier.classify_button_mood.
  destruct (Config.MOOD_BUTTONS !! label) as [category|] eqn:E;
    [|by exists NEUTRAL_TIRED].
  apply elem_of_list_to_map_2 in E.
  repeat (apply elem_of_cons in E as [E|E]; [injection E as _ ->|]).
  8: by apply elem_of_nil in E.
  1: by exists POSITIVE.
  1-2: by exists NEUTRAL_TIRED.
  1: by exists SAD_LOW.
  1: by exists ANGRY_FRUSTRATED.
  1: by exists ANXIOUS_STRESSED.
  by exists HEAVY_DEEP.
Qed.

Lemma get_response_for_mood_returns (self : ContentLoader.t) (path_exists : str → bool)
    (category : str) (g : ContentLoader.rng) :
  ∃ r g', ContentLoader.get_response_for_mood self path_exists category g = Ok (r, g')
          ∧ ∃ s, ContentLoader.text r = Some s ∧ s ≠ [].
Proof.
  destruct (get_response_for_mood_rule self path_exists category g)
    as (r & g' & E & r0 & _ & _ & _ & _ & Hs & _).
  by exists r, g'.
Qed.

Lemma mood_button_selected_core (now_insert now_update : Database.clock) (w : world)
    (user_id : Z) (callback_data : str) (g : ContentLoader.rng) :
  callback_data ≠ py "mood_text" →
  ∃ c response g',
    category_name c
    = default (category_name NEUTRAL_TIRED)
        (Config.MOOD_BUTTONS !! remove_mood_ callback_data)
    ∧ ContentLoader.get_response_for_mood (content_loader w) (path_exists w)
        (category_name c) g = Ok (response, g')
    ∧ mood_button_selected now_insert now_update w user_id callback_data g
      = Ok ((with_db w
               (Database.log_checkin (LOG_RAW_TEXT w) now_insert now_update (db w) user_id
                  (category_name c) (py "button") None (ContentLoader.text_id response)
                  (ContentLoader.meme response) (ContentLoader.video response)),
             answer :: send_mood_response (path_exists w) true (category_name c) response,
             END), g').
Proof.
  intros Hdata.
  destruct (classify_button_closed (classifier w) (remove_mood_ callback_data))
    as (c & Ec & Hc).
  destruct (get_response_for_mood_returns (content_loader w) (path_exists w)
              (category_name c) g) as (response & g' & Er & _).
  exists c, response, g'. split_and!; [done|done|].
  unfold mood_button_selected. rewrite bool_decide_eq_false_2 by done.
  unfold mbind, ContentLoader.M_bind, lift. rewrite Ec, Er. done.
Qed.

(** X20: A press on a button, whatever its callback data except "mood_text",
    logs one check-in: for the category that MOOD_BUTTONS gives the data
    without its "mood_", NEUTRAL_TIRED when it gives none, with input type
    "button" and no raw text; the reply is the one of that category. *)
Theorem mood_button_selected_logs (now_insert now_update : Database.clock) (w : world)
    (user_id : Z) (callback_data : str) (g : ContentLoader.rng) :
  callback_data ≠ py "mood_text" →
  ∃ c response g',
    category_name c
    = default (category_name NEUTRAL_TIRED)
        (Config.MOOD_BUTTONS !! remove_mood_ callback_data)
    ∧ ContentLoader.get_response_for_mood (content_loader w) (path_exists w)
        (category_name c) g = Ok (response, g')
    ∧ mood_button_selected now_insert now_update w user_id callback_data g
      = Ok ((with_db w
               (Database.log_checkin (LOG_RAW_TEXT w) now_insert now_update (db w) user_id
                  (category_name c) (py "button") None (ContentLoader.text_id response)
                  (ContentLoader.meme response) (ContentLoader.video response)),
             answer :: send_mood_response (path_exists w) true (category_name c) response,
             END), g').
Proof. apply mood_button_selected_core. Qed.

(** X21: Each button of the keyboard does what its label says: "Type my mood"
    asks for a text and logs nothing, and a mood button logs the category
    of its label in MOOD_BUTTONS. *)
Theorem mood_keyboard_buttons (now_insert now_update : Database.clock) (w : world)
    (user_id : Z) (g : ContentLoader.rng) (label data : str) :
  (label, data) ∈ mood_keyboard →
  (data = py "mood_text"
   ∧ ∃ calls, mood_button_selected now_insert now_update w user_id data g
              = Ok ((w, calls, AWAITING_MOOD_TEXT), g))
  ∨ (∃ category response g',
       Config.MOOD_BUTTONS !! label = Some category
       ∧ ContentLoader.get_response_for_mood (content_loader w) (path_exists w)
           category g = Ok (response, g')
       ∧ mood_button_selected now_insert now_update w user_id data g
         = Ok ((with_db w
                  (Database.log_checkin (LOG_RAW_TEXT w) now_insert now_update (db w)
                     user_id category (py "button") None (ContentLoader.text_id response)
                     (ContentLoader.meme response) (ContentLoader.video response)),
                answer :: send_mood_response (path_exists w) true category response,
                END), g')).
Proof.
  intros Hin. unfold mood_keyboard, mood_labels in Hin. simpl in Hin.
  repeat (apply elem_of_cons in Hin as [Hin|Hin]; [injection Hin as -> ->|]).
  9: by apply elem_of_nil in Hin.
  8: { left. split; [done|]. eexists. unfold mood_button_selected.
       by rewrite bool_decide_eq_true_2. }
  all: right.
  all: match goal with
       | |- context [mood_button_selected _ _ _ _ ?data _] =>
           destruct (mood_button_selected_core now_insert now_update w user_id data g)
             as (c & response & g' & Hc & Er & Eh); [vm_compute; discriminate|]
       end.
  all: exists (category_name c), response, g'; split_and!; [|done|done].
  all: rewrite Hc; vm_compute; reflexivity.
Qed.

Lemma classify_text_mood_returns (file : option MoodClassifier.keyword_table) (text : str) :
  ∃ category, MoodClassifier.classify_text_mood (MoodClassifier.new file) text = Ok category.
Proof.
  destruct (classify_text_mood_cases file text)
    as [[E _]|[(r & E & _)|(name & E & _)]]; eauto.
Qed.

Lemma mood_text_received_core (now_insert now_update : Database.clock) (w : world)
    (file : option MoodClassifier.keyword_table) (user_id : Z) (text : str)
    (g : ContentLoader.rng) :
  classifier w = MoodClassifier.new file →
  blank (Some text) = false →
  ∃ category response g',
    MoodClassifier.classify_text_mood (classifier w) text = Ok category
    ∧ ContentLoader.get_response_for_mood (content_loader w) (path_exists w) category g
      = Ok (response, g')
    ∧ (∃ s, ContentLoader.text response = Some s ∧ s ≠ [])
    ∧ mood_text_received now_insert now_update w user_id (Some text) g
      = Ok ((with_db w
               (Database.log_checkin (LOG_RAW_TEXT w) now_insert now_update (db w) user_id
                  category (py "text") (Some text) (ContentLoader.text_id response)
                  (ContentLoader.meme response) (ContentLoader.video response)),
             send_mood_response (path_exists w) false category response,
             END), g').
Proof.
  intros Hcl Hblank.
  destruct (classify_text_mood_returns file text) as (category & Ec).
  rewrite <- Hcl in Ec.
  destruct (get_response_for_mood_returns (content_loader w) (path_exists w) category g)
    as (response & g' & Er & Hs).
  exists category, response, g'. split_and!; [done|done|done|].
  unfold mood_text_received. rewrite Hblank.
  unfold mbind, ContentLoader.M_bind, lift. rewrite Ec, Er. done.
Qed.

(** X22: A message without a text, or with an empty or all-whitespace
    text, is answered with the prompt: nothing is logged and the
    conversation keeps waiting for a text. For any other text the exchange,
    when the ledger write and the reply return, is this: the text is
    classified, a response is drawn for its category, one check-in of input
    type "text" is appended for the user with that category and that
    response, the text itself being stored only under LOG_RAW_TEXT, and
    the reply is the one of that category and response. *)
Theorem mood_text_received_logs (now_insert now_update : Database.clock) (w : world)
    (file : option MoodClassifier.keyword_table) (user_id : Z) (mood_text : option str)
    (g : ContentLoader.rng) :
  classifier w = MoodClassifier.new file →
  (blank mood_text = true →
   ∃ prompt,
     mood_text_received now_insert now_update w user_id mood_text g
     = Ok ((w, [reply_text prompt], AWAITING_MOOD_TEXT), g))
  ∧ (blank mood_text = false →
     ∃ w' row response g',
       mood_text_received now_insert now_update w user_id mood_text g
       = Ok ((w', send_mood_response (path_exists w) false (Database.category row) response,
              END), g')
       ∧ Database.checkins (db w') = Database.checkins (db w) ++ [row]
       ∧ Database.user_id row = user_id
       ∧ Database.input_type row = py "text"
       ∧ Database.mood_raw row = (if LOG_RAW_TEXT w then mood_text else None)
       ∧ MoodClassifier.classify_text_mood (classifier w) (fstr mood_text)
         = Ok (Database.category row)
       ∧ ContentLoader.get_response_for_mood (content_loader w) (path_exists w)
           (Database.category row) g
         = Ok (response, g')
       ∧ Database.response_text_id row = ContentLoader.text_id response
       ∧ Database.meme_file row = ContentLoader.meme response
       ∧ Database.video_url row = ContentLoader.video response).
Proof.
  intros Hcl. split; intros Hblank.
  - exists (Some (py "Please describe your mood (e.g., 'I feel anxious today')")).
    unfold mood_text_received. destruct mood_text; [by rewrite Hblank|done].
  - destruct mood_text as [text|]; [|done].
    destruct (mood_text_received_core now_insert now_update w file user_id text g Hcl Hblank)
      as (category & response & g' & Ec & Er & _ & Eh).
    exists (with_db w
              (Database.log_checkin (LOG_RAW_TEXT w) now_insert now_update (db w) user_id
                 category (py "text") (Some text) (ContentLoader.text_id response)
                 (ContentLoader.meme response) (ContentLoader.video response))),
      {| Database.user_id := user_id;
         Database.created_at := Database.CURRENT_TIMESTAMP now_insert;
         Database.input_type := py "text";
         Database.mood_raw := if LOG_RAW_TEXT w then Some text else None;
         Database.category := category;
         Database.response_text_id := ContentLoader.text_id response;
         Database.meme_file := ContentLoader.meme response;
         Database.video_url := ContentLoader.video response |},
      response, g'.
    split; [exact Eh|]. simpl. split_and!; done.
Qed.

(** X23: A text that matches a HEAVY_DEEP keyword is answered with one
    message, which holds the response text and ends with the line on
    crisis support, whatever else the text matches; the check-in is
    logged as HEAVY_DEEP. *)
Theorem mood_text_received_crisis (now_insert now_update : Database.clock) (w : world)
    (file : option MoodClassifier.keyword_table) (user_id : Z) (text : str)
    (g : ContentLoader.rng) :
  classifier w = MoodClassifier.new file →
  blank (Some text) = false →
  category_matches (MoodClassifier.keywords (MoodClassifier.new file)) text
    (category_name HEAVY_DEEP) →
  ∃ w' s g',
    mood_text_received now_insert now_update w user_id (Some text) g
    = Ok ((w', [reply_text (Some (128153 :: py " " ++ s ++ CRISIS_LINE))], END), g')
    ∧ s ≠ []
    ∧ Database.category <$> last (Database.checkins (db w'))
      = Some (category_name HEAVY_DEEP).
Proof.
  intros Hcl Hblank Hheavy.
  destruct (mood_text_received_core now_insert now_update w file user_id text g Hcl Hblank)
    as (category & response & g' & Ec & Er & (s & Es & Hs) & Eh).
  assert (category = category_name HEAVY_DEEP) as ->.
  { rewrite Hcl in Ec.
    destruct (classify_text_mood_cases file text)
      as [[_ Hnone]|[(r & E & _ & Hmax)|(name & _ & _ & Hnone)]].
    - by apply Hnone in Hheavy.
    - rewrite E in Ec. injection Ec as <-.
      pose proof (Hmax HEAVY_DEEP Hheavy) as Hle. destruct r; simpl in Hle; by try lia.
    - by apply Hnone in Hheavy. }
  eexists _, s, _. split_and!; [|done|].
  - rewrite Eh. unfold send_mood_response.
    repeat (rewrite bool_decide_eq_false_2 by (vm_compute; discriminate)).
    rewrite bool_decide_eq_true_2 by done. by rewrite Es.
  - simpl. by rewrite last_snoc.
Qed.

End HandlerFacts.

(** ** The handlers on concrete inputs *)

Section BotExamples.
Import Str Bot.

Lemma send_mood_response_closed_witness :
  ∃ t rest pre post,
    send_mood_response (λ _, true) false (category_name HEAVY_DEEP) generic_fallback
    = send_text false t :: rest
    ∧ fstr t = pre ++ fstr (ContentLoader.text generic_fallback) ++ post.
Proof.
  apply (proj1 (send_mood_response_closed (λ _, true) false (category_name HEAVY_DEEP)
                  generic_fallback)).
  by exists HEAVY_DEEP.
Defined.

Lemma send_mood_response_photo_witness :
  (py "POSITIVE" = category_name POSITIVE ∨ py "POSITIVE" = category_name NEUTRAL_TIRED)
  ∧ ContentLoader.meme Sample.positive_response = Some (py "media/memes/cat.jpg")
  ∧ (λ _ : str, true) (py "media/memes/cat.jpg") = true.
Proof.
  apply (send_mood_response_photo (λ _, true) false (py "POSITIVE")
           Sample.positive_response (reply_photo (py "media/memes/cat.jpg"))).
  right. left.
Defined.

(** The calls for a POSITIVE response with an image, after a button and
    after a text. *)
Example send_mood_response_positive :
  send_mood_response (λ _, true) true (py "POSITIVE") Sample.positive_response
  = [ edit_message_text (Some (py "Great!"));
      edit_message_media None;
      reply_photo (py "media/memes/cat.jpg") ]
  ∧ send_mood_response (λ _, true) false (py "POSITIVE") Sample.positive_response
    = [ reply_text (Some (py "Great!")); reply_photo (py "media/memes/cat.jpg") ]
  ∧ send_mood_response (λ _, false) false (py "POSITIVE") Sample.positive_response
    = [ reply_text (Some (128516 :: py " Great!")) ]
  ∧ send_mood_response (λ _, true) false (py "FOO") Sample.positive_response = [].
Proof. split_and!; reflexivity. Qed.

Lemma mood_button_selected_logs_witness :
  ∃ c response g',
    category_name c
    = default (category_name NEUTRAL_TIRED)
        (Config.MOOD_BUTTONS !! remove_mood_ (py "mood_garbage"))
    ∧ ContentLoader.get_response_for_mood (content_loader Sample.world)
        (path_exists Sample.world) (category_name c) (λ n, n) = Ok (response, g')
    ∧ mood_button_selected (H := ascii_runtime) Sample.t0 Sample.t0 Sample.world 222
        (py "mood_garbage") (λ n, n)
      = Ok ((with_db Sample.world
               (Database.log_checkin (LOG_RAW_TEXT Sample.world) Sample.t0 Sample.t0
                  (db Sample.world) 222 (category_name c) (py "button") None
                  (ContentLoader.text_id response) (ContentLoader.meme response)
                  (ContentLoader.video response)),
             answer
             :: send_mood_response (path_exists Sample.world) true (category_name c) response,
             END), g').
Proof.
  apply (mood_button_selected_logs (H := ascii_runtime) Sample.t0 Sample.t0 Sample.world 222
           (py "mood_garbage") (λ n, n)).
  vm_compute. discriminate.
Defined.

Lemma mood_keyboard_buttons_witness :
  (py "mood_" ++ Sample.happy_button = py "mood_text"
   ∧ ∃ calls,
       mood_button_selected (H := ascii_runtime) Sample.t0 Sample.t0 Sample.world 222
         (py "mood_" ++ Sample.happy_button) (λ n, n)
       = Ok ((Sample.world, calls, AWAITING_MOOD_TEXT), λ n, n))
  ∨ (∃ category response g',
       Config.MOOD_BUTTONS !! Sample.happy_button = Some category
       ∧ ContentLoader.get_response_for_mood (content_loader Sample.world)
           (path_exists Sample.world) category (λ n, n) = Ok (response, g')
       ∧ mood_button_selected (H := ascii_runtime) Sample.t0 Sample.t0 Sample.world 222
           (py "mood_" ++ Sample.happy_button) (λ n, n)
         = Ok ((with_db Sample.world
                  (Database.log_checkin (LOG_RAW_TEXT Sample.world) Sample.t0 Sample.t0
                     (db Sample.world) 222 category (py "button") None
                     (ContentLoader.text_id response) (ContentLoader.meme response)
                     (ContentLoader.video response)),
                answer
                :: send_mood_response (path_exists Sample.world) true category response,
                END), g')).
Proof.
  apply (mood_keyboard_buttons (H := ascii_runtime) Sample.t0 Sample.t0 Sample.world 222
           (λ n, n) Sample.happy_button (py "mood_" ++ Sample.happy_button)).
  left.
Defined.

Lemma mood_text_received_logs_witness :
  ∃ w' row response g',
    mood_text_received (H := ascii_runtime) Sample.t0 Sample.t0 Sample.world 222
      (Some (py "So happy today!")) (λ n, n)
    = Ok ((w', send_mood_response (path_exists Sample.world) false (Database.category row)
                 response,
           END), g')
    ∧ Database.checkins (db w') = Database.checkins (db Sample.world) ++ [row]
    ∧ Database.user_id row = 222%Z
    ∧ Database.input_type row = py "text"
    ∧ Database.mood_raw row
      = (if LOG_RAW_TEXT Sample.world then Some (py "So happy today!") else None)
    ∧ MoodClassifier.classify_text_mood (H := ascii_runtime) (classifier Sample.world)
        (fstr (Some (py "So happy today!")))
      = Ok (Database.category row)
    ∧ ContentLoader.get_response_for_mood (content_loader Sample.world)
        (path_exists Sample.world) (Database.category row) (λ n, n)
      = Ok (response, g')
    ∧ Database.response_text_id row = ContentLoader.text_id response
    ∧ Database.meme_file row = ContentLoader.meme response
    ∧ Database.video_url row = ContentLoader.video response.
Proof.
  refine (proj2 (mood_text_received_logs (H := ascii_runtime) Sample.t0 Sample.t0
                   Sample.world (Some Sample.keywords) 222 (Some (py "So happy today!"))
                   (λ n, n) _) _).
  - reflexivity.
  - vm_compute. reflexivity.
Defined.

Lemma mood_text_received_crisis_witness :
  ∃ w' s g',
    mood_text_received (H := ascii_runtime) Sample.t0 Sample.t0 Sample.world 222
      (Some (py "I'm happy but want to kill myself")) (λ n, n)
    = Ok ((w', [reply_text (Some (128153 :: py " " ++ s ++ CRISIS_LINE))], END), g')
    ∧ s ≠ []
    ∧ Database.category <$> last (Database.checkins (db w'))
      = Some (category_name HEAVY_DEEP).
Proof.
  apply (mood_text_received_crisis (H := ascii_runtime) Sample.t0 Sample.t0 Sample.world
           (Some Sample.keywords) 222 (py "I'm happy but want to kill myself") (λ n, n)).
  - reflexivity.
  - vm_compute. reflexivity.
  - apply (matched_categories_spec (H := ascii_runtime)).
    match goal with |- ?P => refine (@bool_decide_unpack P _ _) end.
    vm_compute. exact I.
Defined.

(** The whole exchange for a text in crisis language: the reply and the
    row, without the raw text. *)
Example mood_text_received_crisis_run :
  (λ r, match r with
        | Ok ((w', calls, state), _) =>
            Some (calls, state, last (Database.checkins (db w')))
        | Raise _ => None
        end)
    (mood_text_received (H := ascii_runtime) Sample.t0 Sample.t0 Sample.world 222
       (Some (py "I'm happy but want to kill myself")) (λ n, n))
  = Some
      ([ reply_text
           (Some (128153 :: py " Thanks for checking in. Take care of yourself."
                  ++ CRISIS_LINE)) ],
       END,
       Some {| Database.user_id := 222;
               Database.created_at := 1700000000;
               Database.input_type := py "text";
               Database.mood_raw := None;
               Database.category := py "HEAVY_DEEP";
               Database.response_text_id := Some (py "default");
               Database.meme_file := None;
               Database.video_url := None |}).
Proof. vm_compute. reflexivity. Qed.

End BotExamples.

(** * The broadcasts and the admin commands *)

Section AdminFacts.
Import Str Bot Admin PyFormat.

(** The loop sends to every user in turn, whatever happens to the
    earlier ones, and counts each user once. *)
Lemma broadcast_loop_spec (delivered : Z → bool) (text : str) (keyboard : list (str * str))
    (users : list Z) :
  broadcast_loop delivered text keyboard users
  = ((λ user_id, send_message user_id text keyboard) <$> users,
     length (filter (λ u, delivered u = true) users),
     length (filter (λ u, delivered u = false) users)).
Proof.
  unfold broadcast_loop.
  set (f := λ '(calls, success_count, fail_count) (user_id : Z), _).
  enough (G : ∀ calls s k,
            fold_left f users (calls, s, k)
            = (calls ++ ((λ user_id, send_message user_id text keyboard) <$> users),
               s + length (filter (λ u, delivered u = true) users),
               k + length (filter (λ u, delivered u = false) users))%nat)
    by (by rewrite G).
  induction users as [|u users IH]; intros calls s k.
  - simpl. by rewrite app_nil_r, !Nat.add_0_r.
  - simpl. rewrite !filter_cons. destruct (delivered u) eqn:E; rewrite IH.
    + rewrite decide_True, decide_False by done. simpl.
      by rewrite <- app_assoc, Nat.add_succ_r.
    + rewrite decide_False, decide_True by done. simpl.
      by rewrite <- app_assoc, Nat.add_succ_r.
Qed.

Lemma length_filter_split {A} (p : A → bool) (l : list A) :
  (length (filter (λ x, p x = true) l) + length (filter (λ x, p x = false) l))%nat
  = length l.
Proof.
  induction l as [|x l IH]; [done|]. rewrite !filter_cons.
  destruct (p x); simpl; lia.
Qed.

(** X24: The weekly broadcast sends the prompt, with the mood keyboard, once
    to every registered user and to nobody else; a user whose message
    fails does not keep the others from theirs, and the two counts add
    up to the number of users. *)
Theorem weekly_broadcast_reaches_all (delivered : Z → bool) (db : Database.t) :
  ∃ text,
    (weekly_broadcast delivered db).1.1
    = (λ user_id, send_message user_id text mood_keyboard)
        <$> Database.get_all_active_users db
    ∧ (weekly_broadcast delivered db).1.2
      = length (filter (λ u, delivered u = true) (Database.get_all_active_users db))
    ∧ ((weekly_broadcast delivered db).1.2 + (weekly_broadcast delivered db).2)%nat
      = length (Database.get_all_active_users db).
Proof.
  unfold weekly_broadcast. rewrite broadcast_loop_spec. simpl.
  eexists. split_and!; [done|done|].
  apply length_filter_split.
Qed.

Lemma elem_of_get_all_active_users (db : Database.t) (u : Z) :
  u ∈ Database.get_all_active_users db ↔ is_Some (Database.get_user db u).
Proof.
  unfold Database.get_all_active_users, Database.get_user.
  rewrite list_elem_of_fmap. split.
  - intros ([k row] & -> & Hin). apply elem_of_map_to_list in Hin. simpl.
    rewrite Hin. eauto.
  - destruct (Database.users db !! u) as [row|] eqn:E; [|by intros [? ?]].
    intros _. exists (u, row). split; [done|]. by apply elem_of_map_to_list.
Qed.

(** X25: [/broadcast] sends nothing for a user who is not an admin. For an
    admin with a message it sends that message once to every registered
    user and to nobody else, goes on after a failure, and reports two
    counts that add up to the number of users. *)
Theorem handle_broadcast_sends (ADMIN_IDS : list Z) (delivered : Z → bool)
    (db : Database.t) (user_id : Z) (args : list str) :
  (user_id ∉ ADMIN_IDS →
   handle_broadcast ADMIN_IDS delivered db user_id args = [ADMIN_REQUIRED])
  ∧ (∀ u t k, send_message u t k ∈ handle_broadcast ADMIN_IDS delivered db user_id args →
       user_id ∈ ADMIN_IDS ∧ args ≠ [] ∧ is_Some (Database.get_user db u)
       ∧ t = 128226 :: py " Message from bot:" ++ [10; 10] ++ join [32] args)
  ∧ (user_id ∈ ADMIN_IDS → args ≠ [] → Database.get_all_active_users db ≠ [] →
     ∃ success_count fail_count,
       handle_broadcast ADMIN_IDS delivered db user_id args
       = ((λ u, send_message u
                  (128226 :: py " Message from bot:" ++ [10; 10] ++ join [32] args) [])
            <$> Database.get_all_active_users db)
         ++ [reply_text
               (Some (9989 :: py " Broadcast sent!" ++ [10; 10]
                      ++ py "Success: " ++ str_of_nat success_count ++ [10]
                      ++ py "Failed: " ++ str_of_nat fail_count))]
       ∧ success_count
         = length (filter (λ u, delivered u = true) (Database.get_all_active_users db))
       ∧ (success_count + fail_count)%nat = length (Database.get_all_active_users db)).
Proof.
  unfold handle_broadcast, is_admin, ADMIN_REQUIRED. split_and!.
  - intros Hna. by rewrite bool_decide_eq_false_2.
  - intros u t k. case_bool_decide as Hadmin; simpl.
    2: { intros Hin. apply list_elem_of_singleton in Hin. discriminate. }
    destruct args as [|a args].
    { intros Hin. apply list_elem_of_singleton in Hin. discriminate. }
    destruct (Database.get_all_active_users db) as [|u0 users] eqn:Eu.
    { intros Hin. apply list_elem_of_singleton in Hin. discriminate. }
    rewrite broadcast_loop_spec. intros Hin. apply elem_of_app in Hin as [Hin|Hin].
    + apply list_elem_of_fmap in Hin as (u' & [= -> -> ->] & Hu').
      split_and!; [done|done| |done].
      apply elem_of_get_all_active_users. by rewrite Eu.
    + apply list_elem_of_singleton in Hin. discriminate.
  - intros Hadmin Hargs Husers. rewrite bool_decide_eq_true_2 by done. simpl.
    destruct args as [|a args]; [done|].
    destruct (Database.get_all_active_users db) as [|u0 users] eqn:Eu; [done|].
    rewrite broadcast_loop_spec. eexists _, _. split_and!; [done|done|].
    apply length_filter_split.
Qed.

(** X26: [/reload] leaves the loader alone for a user who is not an admin and
    when the file is malformed; a missing file empties the catalog, after
    which every category gets the generic response; a readable file
    becomes the catalog. *)
Theorem handle_reload_outcome (ADMIN_IDS : list Z) (content_loader : ContentLoader.t)
    (user_id : Z) (file : ContentLoader.disk_file) :
  (user_id ∉ ADMIN_IDS →
   handle_reload ADMIN_IDS content_loader user_id file = (content_loader, [ADMIN_REQUIRED]))
  ∧ (user_id ∈ ADMIN_IDS →
     match file with
     | ContentLoader.Malformed message =>
         handle_reload ADMIN_IDS content_loader user_id file
         = (content_loader,
            [reply_text (Some (10060 :: py " Error reloading content: " ++ message))])
     | ContentLoader.Missing =>
         ∀ path_exists category g,
           ContentLoader.get_response_for_mood
             (handle_reload ADMIN_IDS content_loader user_id file).1 path_exists category g
           = Ok (generic_fallback, g)
     | ContentLoader.Parsed c =>
         ContentLoader.responses (handle_reload ADMIN_IDS content_loader user_id file).1 = c
     end).
Proof.
  unfold handle_reload, is_admin. split.
  - intros Hna. by rewrite bool_decide_eq_false_2.
  - intros Hadmin. rewrite bool_decide_eq_true_2 by done. simpl.
    destruct file; simpl; [|done|done].
    intros path_exists category g.
    unfold ContentLoader.get_response_for_mood, ContentLoader.get_content_for_category.
    simpl. by rewrite lookup_empty.
Qed.

Lemma str_compare_eq (a b : str) : str_compare a b = Eq ↔ a = b.
Proof.
  revert b. induction a as [|x a IH]; intros [|y b]; simpl; try done.
  destruct (N.compare_spec x y) as [->|Hlt|Hgt].
  - rewrite IH. split; [by intros ->|by intros [= ->]].
  - split; [done|]. intros [= -> _]. lia.
  - split; [done|]. intros [= -> _]. lia.
Qed.

Lemma str_compare_antisym (a b : str) : str_compare b a = CompOpp (str_compare a b).
Proof.
  revert b. induction a as [|x a IH]; intros [|y b]; simpl; try done.
  rewrite (N.compare_antisym x y). destruct (N.compare x y); simpl; [apply IH|done|done].
Qed.

#[local] Instance item_le_total : Total item_le.
Proof.
  intros x y. unfold item_le. rewrite (str_compare_antisym x.1 y.1).
  destruct (str_compare x.1 y.1); simpl; [lia|by left|by right].
Qed.

Lemma Sorted_item_lt (items : list (str * nat)) :
  Sorted item_le items → NoDup items.*1 →
  Sorted (λ x y, str_compare x.1 y.1 = Lt) items.
Proof.
  induction 1 as [|x items Hs IH Hhd]; intros Hnd; [constructor|].
  rewrite fmap_cons in Hnd. apply NoDup_cons in Hnd as [Hx Hnd].
  constructor; [by apply IH|].
  destruct Hhd as [|y items Hxy]; constructor.
  unfold item_le in Hxy. destruct (str_compare x.1 y.1) eqn:E; [|done|done].
  apply str_compare_eq in E. exfalso. apply Hx. rewrite E, fmap_cons. left.
Qed.

Lemma fold_left_lines (items : list (str * nat)) (text : str) :
  fold_left
    (λ stats_text '(category, count),
       stats_text ++ [10] ++ py "  " ++ category ++ py ": " ++ str_of_nat count)
    items text
  = text ++ mjoin ((λ item, [10] ++ py "  " ++ item.1 ++ py ": " ++ str_of_nat item.2)
                     <$> items).
Proof.
  revert text. induction items as [|[category count] items IH]; intros text.
  - simpl. by rewrite app_nil_r.
  - cbn [fold_left fmap list_fmap mjoin list_join]. rewrite IH.
    by rewrite <- (app_assoc text).
Qed.

(** X27: [/stats] tells nothing to a user who is not an admin. For an admin
    the breakdown has one line for each category of the week's counts,
    with its count, the lines in increasing order of the category name. *)
Theorem handle_stats_breakdown (ADMIN_IDS : list Z) (now_week now_breakdown : Database.clock)
    (db : Database.t) (user_id : Z) :
  (user_id ∉ ADMIN_IDS →
   handle_stats ADMIN_IDS now_week now_breakdown db user_id = [ADMIN_REQUIRED])
  ∧ (user_id ∈ ADMIN_IDS →
     ∃ header items,
       handle_stats ADMIN_IDS now_week now_breakdown db user_id
       = [reply_text
            (Some (header
                   ++ mjoin ((λ item, [10] ++ py "  " ++ item.1 ++ py ": "
                                       ++ str_of_nat item.2) <$> items)))]
       ∧ (∀ category count,
            (category, count) ∈ items
            ↔ Database.category_counts (Database.get_stats now_week now_breakdown db)
              !! category = Some count)
       ∧ NoDup items.*1
       ∧ Sorted (λ x y, str_compare x.1 y.1 = Lt) items).
Proof.
  unfold handle_stats, is_admin. split.
  - intros Hna. by rewrite bool_decide_eq_false_2.
  - intros Hadmin. rewrite bool_decide_eq_true_2 by done. cbn [negb]. cbv zeta.
    set (counts := Database.category_counts _).
    pose proof (merge_sort_Permutation item_le (map_to_list counts)) as Hp.
    assert (Hnd : NoDup (merge_sort item_le (map_to_list counts)).*1).
    { rewrite Hp. apply NoDup_fst_map_to_list. }
    eexists _, (merge_sort item_le (map_to_list counts)). split_and!.
    + by rewrite fold_left_lines.
    + intros category count. rewrite Hp. apply elem_of_map_to_list.
    + done.
    + apply Sorted_item_lt; [|done]. apply Sorted_merge_sort, _.
Qed.

End AdminFacts.

(** ** The admin commands on concrete inputs *)

Section AdminExamples.
Import Str Bot Admin PyFormat.

Lemma handle_broadcast_sends_witness :
  handle_broadcast [1%Z] (λ _, true) (run_calls false Sample.calls Database.init_db) 222
    [py "hi"]
  = [ADMIN_REQUIRED].
Proof.
  apply (proj1 (handle_broadcast_sends [1%Z] (λ _, true)
                  (run_calls false Sample.calls Database.init_db) 222 [py "hi"])).
  intros Hin. apply list_elem_of_singleton in Hin. discriminate.
Defined.

Lemma handle_reload_outcome_witness :
  handle_reload [1%Z] (ContentLoader.new (Some Sample.responses)) 1
    (ContentLoader.Malformed (py "Expecting value: line 1 column 1 (char 0)"))
  = (ContentLoader.new (Some Sample.responses),
     [reply_text
        (Some (10060 :: py " Error reloading content: "
               ++ py "Expecting value: line 1 column 1 (char 0)"))]).
Proof.
  apply (proj2 (handle_reload_outcome [1%Z] (ContentLoader.new (Some Sample.responses)) 1
                  (ContentLoader.Malformed (py "Expecting value: line 1 column 1 (char 0)")))).
  left.
Defined.

Lemma handle_stats_breakdown_witness :
  handle_stats [1%Z] Sample.t0 Sample.t0 (run_calls false Sample.calls Database.init_db) 222
  = [ADMIN_REQUIRED].
Proof.
  apply (proj1 (handle_stats_breakdown [1%Z] Sample.t0 Sample.t0
                  (run_calls false Sample.calls Database.init_db) 222)).
  intros Hin. apply list_elem_of_singleton in Hin. discriminate.
Defined.

(** A broadcast by the admin to the one registered user, whose message
    fails, and the statistics the admin sees. *)
Example handle_broadcast_failed :
  handle_broadcast [1%Z] (λ _, false) (run_calls false Sample.calls Database.init_db) 1
    [py "hi"; py "all"]
  = [ send_message 222 (128226 :: py " Message from bot:" ++ [10; 10] ++ py "hi all") [];
      reply_text
        (Some (9989 :: py " Broadcast sent!" ++ [10; 10] ++ py "Success: 0" ++ [10]
               ++ py "Failed: 1")) ]
  ∧ handle_stats [1%Z] Sample.t0 Sample.t0 (run_calls false Sample.calls Database.init_db) 1
    = [ reply_text
          (Some ([10; 128202] ++ py " **Mood Bot Statistics**" ++ [10; 10]
                 ++ py "Total users: 1" ++ [10] ++ py "Check-ins this week: 2" ++ [10; 10]
                 ++ py "**Category Breakdown (this week):**" ++ [10]
                 ++ [10] ++ py "  POSITIVE: 1" ++ [10] ++ py "  SAD_LOW: 1")) ].
Proof. split; vm_compute; reflexivity. Qed.

End AdminExamples.

(** * add_meme.py: the name of a stored image *)

Section AddMemeFacts.
Import Str AddMeme PyFormat.
Context `{PyRe}.

Lemma match_literal_suffix (pat text rest : str) :
  match_literal pat text = Some rest → ∃ pre, text = pre ++ rest.
Proof.
  revert text. induction pat as [|p pat IH]; intros text Hm.
  - destruct text; simpl in Hm; injection Hm as <-; by exists [].
  - destruct text as [|c text]; simpl in Hm; [done|].
    destruct (re_ieq p c); [|done].
    destruct (IH _ Hm) as [pre ->]. by exists (c :: pre).
Qed.

Lemma digits3_suffix (text rest : str) (idx : nat) :
  digits3 text = Some (idx, rest) → ∃ pre, text = pre ++ rest.
Proof.
  unfold digits3. intros Hd.
  destruct text as [|d1 [|d2 [|d3 text]]]; try done.
  destruct (re_digit d1), (re_digit d2), (re_digit d3); try done.
  injection Hd as _ <-. by exists [d1; d2; d3].
Qed.

(** A name that the pattern of [next_filename] matches holds a backslash. *)
Lemma pattern_match_backslash (prefix ext_tail name : str) (idx : nat) :
  pattern_match prefix ext_tail name = Some idx → 92 ∈ name.
Proof.
  unfold pattern_match. intros Hm.
  destruct (match_literal (prefix ++ [95]) name) as [rest|] eqn:E1; [|done].
  simpl in Hm.
  destruct (digits3 rest) as [[i rest']|] eqn:E2; [|done].
  simpl in Hm.
  destruct (match_literal_suffix _ _ _ E1) as [pre1 ->].
  destruct (digits3_suffix _ _ _ E2) as [pre2 ->].
  destruct rest' as [|b [|x rest']]; try done.
  destruct (re_ieq 92 b) eqn:Eb; [|done].
  apply re_ieq_backslash in Eb as ->.
  rewrite !elem_of_app. right. right. by left.
Qed.

Lemma next_filename_no_backslash (entries : list (str * bool)) (prefix ext_tail : str) :
  Forall (λ e, 92 ∉ e.1) entries →
  next_filename entries prefix (46 :: ext_tail) = Some (numbered prefix 1 (46 :: ext_tail)).
Proof.
  intros Hall. unfold next_filename.
  replace (negb (46 =? 46)) with false by done.
  cbv zeta. do 2 f_equal.
  enough (Hfold : ∀ es, Forall (λ e, 92 ∉ e.1) es →
            fold_left
              (λ (max_idx : nat) '((name, is_file) : str * bool),
                 if is_file then
                   match pattern_match prefix ext_tail name with
                   | Some idx => if (max_idx <? idx)%nat then idx else max_idx
                   | None => max_idx
                   end
                 else max_idx) es O = O) by (by rewrite Hfold).
  intros es Hes. induction Hes as [|[name is_file] es Hname _ IH]; [done|].
  simpl. destruct is_file; [|exact IH].
  destruct (pattern_match prefix ext_tail name) as [idx|] eqn:E; [|exact IH].
  by apply pattern_match_backslash in E.
Qed.

Lemma search_idx_skip (pre s : str) :
  95 ∉ pre → search_idx (pre ++ s) = search_idx s.
Proof.
  induction pre as [|c pre IH]; intros Hpre; [done|].
  apply not_elem_of_cons in Hpre as [Hc Hpre].
  simpl. destruct (c =? 95) eqn:E; [apply N.eqb_eq in E; congruence|].
  by apply IH.
Qed.

Lemma search_idx_none (s : str) : 95 ∉ s → search_idx s = None.
Proof.
  intros Hs. rewrite <- (app_nil_r s). by rewrite search_idx_skip.
Qed.

Lemma fmt03_small (k : nat) :
  (k < 1000)%nat →
  fmt03 k = [digit_cp (k / 100); digit_cp (k / 10 mod 10); digit_cp (k mod 10)]
  ∧ (100 * (k / 100) + 10 * (k / 10 mod 10) + k mod 10 = k)%nat
  ∧ (k / 100 < 10)%nat ∧ (k / 10 mod 10 < 10)%nat ∧ (k mod 10 < 10)%nat.
Proof.
  intros Hk.
  assert (Hall : forallb (λ k,
            bool_decide (fmt03 k = [digit_cp (k / 100); digit_cp (k / 10 mod 10); digit_cp (k mod 10)])
            && (100 * (k / 100) + 10 * (k / 10 mod 10) + k mod 10 =? k)%nat
            && (k / 100 <? 10)%nat && (k / 10 mod 10 <? 10)%nat && (k mod 10 <? 10)%nat)
          (seq 0 1000) = true) by (vm_compute; reflexivity).
  rewrite forallb_forall in Hall.
  assert (Hin : In k (seq 0 1000)) by (apply in_seq; lia).
  specialize (Hall k Hin).
  repeat (apply andb_true_iff in Hall as [Hall ?]).
  apply bool_decide_eq_true in Hall.
  repeat split; try done; try by apply Nat.ltb_lt. by apply Nat.eqb_eq.
Qed.

Lemma search_idx_underscore (s : str) :
  search_idx (95 :: s)
  = match digits3_dot s with Some idx => Some idx | None => search_idx s end.
Proof. reflexivity. Qed.

Lemma digits3_dot_digits (a b c : nat) (rest : str) :
  (a < 10)%nat → (b < 10)%nat → (c < 10)%nat →
  digits3_dot (digit_cp a :: digit_cp b :: digit_cp c :: 46 :: rest)
  = Some (100 * a + 10 * b + c)%nat.
Proof.
  intros Ha Hb Hc. unfold digits3_dot, digits3, digit_cp.
  rewrite !re_digit_ascii by done. reflexivity.
Qed.

Lemma search_idx_numbered (prefix ext_tail : str) (k : nat) :
  95 ∉ prefix → (k < 1000)%nat →
  search_idx (numbered prefix k (46 :: ext_tail)) = Some k.
Proof.
  intros Hp Hk. unfold numbered. rewrite search_idx_skip by done.
  destruct (fmt03_small k Hk) as (-> & Hv & H1 & H2 & H3).
  change ([95] ++ ?ds ++ ?e) with (95 :: ds ++ e).
  rewrite search_idx_underscore.
  change ([?a; ?b; ?c] ++ ?e) with (a :: b :: c :: e).
  rewrite digits3_dot_digits by done. by rewrite Hv.
Qed.

Lemma search_idx_numbered_1000 (prefix ext_tail : str) :
  95 ∉ prefix → 95 ∉ ext_tail →
  search_idx (numbered prefix 1000 (46 :: ext_tail)) = None.
Proof.
  intros Hp Ht. unfold numbered. rewrite search_idx_skip by done.
  change (fmt03 1000) with [49; 48; 48; 48 : N].
  change ([95] ++ ?ds ++ ?e) with (95 :: ds ++ e).
  rewrite search_idx_underscore.
  assert (Hrest : search_idx ([49; 48; 48; 48] ++ 46 :: ext_tail) = None).
  { apply search_idx_none. intros Hd.
    apply elem_of_app in Hd as [Hd|Hd];
      [|apply elem_of_cons in Hd as [Hd|Hd]; done].
    revert Hd. refine (proj1 (bool_decide_eq_false _) _). by vm_compute. }
  rewrite Hrest. unfold digits3_dot, digits3. simpl.
  by destruct (re_digit 49), (re_digit 48).
Qed.

(** One round of the loop from a name that exists. *)
Lemma unique_name_round (fuel : nat) (path_exists : str → bool) (prefix ext_tail : str) (j : nat) :
  95 ∉ prefix → 95 ∉ ext_tail → (j ≤ 1000)%nat →
  path_exists (numbered prefix j (46 :: ext_tail)) = true →
  unique_name (S fuel) path_exists prefix (46 :: ext_tail) (numbered prefix j (46 :: ext_tail))
  = unique_name fuel path_exists prefix (46 :: ext_tail)
      (numbered prefix (if (j <? 1000)%nat then j + 1 else 1) (46 :: ext_tail)).
Proof.
  intros Hp Ht Hj Hex. simpl. rewrite Hex.
  destruct (j <? 1000)%nat eqn:E.
  - apply Nat.ltb_lt in E. by rewrite search_idx_numbered.
  - apply Nat.ltb_ge in E. replace j with 1000%nat by lia.
    by rewrite search_idx_numbered_1000.
Qed.

Lemma unique_name_smallest_free (path_exists : str → bool) (prefix ext_tail : str) (k : nat) :
  95 ∉ prefix → 95 ∉ ext_tail → (k ≤ 1000)%nat →
  path_exists (numbered prefix k (46 :: ext_tail)) = false →
  ∀ (d j fuel : nat),
    (j + d = k)%nat → (d ≤ fuel)%nat →
    (∀ i, (j ≤ i < k)%nat → path_exists (numbered prefix i (46 :: ext_tail)) = true) →
    unique_name fuel path_exists prefix (46 :: ext_tail) (numbered prefix j (46 :: ext_tail))
    = Some (numbered prefix k (46 :: ext_tail)).
Proof.
  intros Hp Ht Hk Hfree. induction d as [|d IH]; intros j fuel Hjd Hfuel Hbelow.
  - replace j with k by lia. destruct fuel; simpl; by rewrite Hfree.
  - destruct fuel as [|fuel]; [lia|].
    rewrite unique_name_round; [|done|done|lia|apply Hbelow; lia].
    replace (j <? 1000)%nat with true by (symmetry; apply Nat.ltb_lt; lia).
    apply IH; [lia|lia|]. intros i Hi. apply Hbelow. lia.
Qed.

Lemma unique_name_cycles (path_exists : str → bool) (prefix ext_tail : str) :
  95 ∉ prefix → 95 ∉ ext_tail →
  (∀ i, (1 ≤ i ≤ 1000)%nat → path_exists (numbered prefix i (46 :: ext_tail)) = true) →
  ∀ (fuel j : nat), (1 ≤ j ≤ 1000)%nat →
    unique_name fuel path_exists prefix (46 :: ext_tail) (numbered prefix j (46 :: ext_tail))
    = None.
Proof.
  intros Hp Ht Hall. induction fuel as [|fuel IH]; intros j Hj.
  - simpl. by rewrite Hall.
  - rewrite unique_name_round; [|done|done|lia|by apply Hall].
    apply IH. destruct (j <? 1000)%nat eqn:E; [apply Nat.ltb_lt in E|]; lia.
Qed.

Lemma CATEGORY_MAP_prefix (category subdir prefix : str) :
  CATEGORY_MAP !! category = Some (subdir, prefix) →
  prefix ∈ [py "positive"; py "calm"] ∧ 95 ∉ prefix.
Proof.
  intros Hl. apply elem_of_list_to_map_2 in Hl.
  apply elem_of_cons in Hl as [Hl|Hl]; [|apply list_elem_of_singleton in Hl];
    injection Hl as _ _ ->; (split; [by (repeat constructor)|]);
    refine (proj1 (bool_decide_eq_false _) _); by vm_compute.
Qed.

Context `{PyRuntime}.

Lemma sanitize_ext_dot (suffix : str) :
  sanitize_ext suffix ∈ [py ".jpg"; py ".jpeg"; py ".png"; py ".gif"; py ".webp"]
  ∧ ∃ ext_tail, sanitize_ext suffix = 46 :: ext_tail ∧ 95 ∉ ext_tail.
Proof.
  assert (Hfive : ∀ ext : str, ext ∈ [py ".jpg"; py ".jpeg"; py ".png"; py ".gif"; py ".webp"] →
            ∃ ext_tail, ext = 46 :: ext_tail ∧ 95 ∉ ext_tail).
  { intros ext Hext.
    repeat (apply elem_of_cons in Hext as [->|Hext]);
      [| | | | |by apply elem_of_nil in Hext];
      (eexists; split; [reflexivity|]);
      refine (proj1 (bool_decide_eq_false _) _); by vm_compute. }
  assert (Hin : sanitize_ext suffix ∈ [py ".jpg"; py ".jpeg"; py ".png"; py ".gif"; py ".webp"]).
  { unfold sanitize_ext. cbv zeta. case_bool_decide as E; [exact E|]. by left. }
  split; [exact Hin|by apply Hfive].
Qed.

(** X28: [next_filename] does not count the images that are there. Whatever
    the files of the directory are called, as long as no name holds a
    backslash (so also with [positive_001.jpg], [positive_002.jpg], ...
    present), it proposes the number 001. *)
Theorem next_filename_always_first (entries : list (str * bool)) (prefix ext_tail : str) :
  Forall (λ e, 92 ∉ e.1) entries →
  next_filename entries prefix (46 :: ext_tail) = Some (prefix ++ py "_001" ++ 46 :: ext_tail).
Proof.
  intros Hall. by rewrite next_filename_no_backslash.
Qed.

(** X29: [copy_and_register] stores an image of a known category under the
    smallest free number. With a source that is a file and a directory
    where no name holds a backslash, if the names of the numbers below [k]
    exist and the one of [k] (at most 1000) does not, the image gets the
    name of [k] after [k - 1] rounds of the loop; its extension is one of
    the five image extensions. *)
Theorem copy_and_register_smallest_free (fuel : nat) (src_suffix category subdir prefix : str)
    (entries : list (str * bool)) (path_exists : str → bool) (k : nat) :
  CATEGORY_MAP !! category = Some (subdir, prefix) →
  Forall (λ e, 92 ∉ e.1) entries →
  (1 ≤ k ≤ 1000)%nat →
  (k ≤ S fuel)%nat →
  (∀ i, (1 ≤ i < k)%nat →
     path_exists (numbered prefix i (sanitize_ext src_suffix)) = true) →
  path_exists (numbered prefix k (sanitize_ext src_suffix)) = false →
  copy_and_register fuel true src_suffix category entries path_exists
  = Some (Stored (numbered prefix k (sanitize_ext src_suffix)))
  ∧ sanitize_ext src_suffix ∈ [py ".jpg"; py ".jpeg"; py ".png"; py ".gif"; py ".webp"].
Proof.
  intros Hcat Hall Hk Hfuel Hbelow Hfree.
  destruct (sanitize_ext_dot src_suffix) as [Hin (ext_tail & Hext & Ht)].
  destruct (CATEGORY_MAP_prefix _ _ _ Hcat) as [_ Hp].
  split; [|exact Hin].
  unfold copy_and_register. rewrite Hcat. cbv zeta. simpl negb. cbv iota.
  rewrite Hext in *. rewrite next_filename_no_backslash by done. simpl.
  by rewrite (unique_name_smallest_free path_exists prefix ext_tail k Hp Ht
                ltac:(lia) Hfree (k - 1) 1 fuel ltac:(lia) ltac:(lia) Hbelow).
Qed.

(** X30: the loop of [copy_and_register] does not end when the thousand
    names of the numbers 001 to 1000 all exist: after 1000 it starts
    again at 001. No number of rounds gives a name. *)
Theorem copy_and_register_never_ends (fuel : nat) (src_suffix category subdir prefix : str)
    (entries : list (str * bool)) (path_exists : str → bool) :
  CATEGORY_MAP !! category = Some (subdir, prefix) →
  Forall (λ e, 92 ∉ e.1) entries →
  (∀ i, (1 ≤ i ≤ 1000)%nat →
     path_exists (numbered prefix i (sanitize_ext src_suffix)) = true) →
  copy_and_register fuel true src_suffix category entries path_exists = None.
Proof.
  intros Hcat Hall Hex.
  destruct (sanitize_ext_dot src_suffix) as [_ (ext_tail & Hext & Ht)].
  destruct (CATEGORY_MAP_prefix _ _ _ Hcat) as [_ Hp].
  unfold copy_and_register. rewrite Hcat. cbv zeta. simpl negb. cbv iota.
  rewrite Hext in *. rewrite next_filename_no_backslash by done. simpl.
  by rewrite (unique_name_cycles path_exists prefix ext_tail Hp Ht Hex fuel 1 ltac:(lia)).
Qed.

End AddMemeFacts.

Section AddMemeExamples.
Import Str AddMeme PyFormat.

Lemma next_filename_always_first_witness :
  next_filename (H := ascii_re)
    [(py "positive_001.jpg", true); (py "positive_002.jpg", true)]
    (py "positive") (py ".jpg")
  = Some (py "positive_001.jpg").
Proof.
  apply (next_filename_always_first (H := ascii_re)
           [(py "positive_001.jpg", true); (py "positive_002.jpg", true)]
           (py "positive") (py "jpg")).
  repeat constructor; simpl;
    refine (proj1 (bool_decide_eq_false _) _); by vm_compute.
Defined.

Lemma copy_and_register_smallest_free_witness :
  copy_and_register (H := ascii_re) (H0 := ascii_runtime) 10 true (py ".PNG") (py "memes")
    [(py "positive_001.png", true); (py "positive_002.png", true)]
    (λ name, bool_decide (name ∈ [py "positive_001.png"; py "positive_002.png"]))
  = Some (Stored (py "positive_003.png")).
Proof.
  refine (proj1 (copy_and_register_smallest_free (H := ascii_re) (H0 := ascii_runtime)
                   10 (py ".PNG") (py "memes") (py "memes") (py "positive")
                   [(py "positive_001.png", true); (py "positive_002.png", true)]
                   (λ name, bool_decide (name ∈ [py "positive_001.png"; py "positive_002.png"]))
                   3 _ _ _ _ _ _)).
  - by vm_compute.
  - repeat constructor; simpl;
      refine (proj1 (bool_decide_eq_false _) _); by vm_compute.
  - lia.
  - lia.
  - intros i Hi. assert (Hcases : i = 1%nat ∨ i = 2%nat) by lia.
    destruct Hcases as [-> | ->]; by vm_compute.
  - by vm_compute.
Defined.

Lemma copy_and_register_never_ends_witness :
  copy_and_register (H := ascii_re) (H0 := ascii_runtime) 5000 true (py ".jpg") (py "calm") []
    (λ name, startswith name (py "calm_"))
  = None.
Proof.
  apply (copy_and_register_never_ends (H := ascii_re) (H0 := ascii_runtime)
           5000 (py ".jpg") (py "calm") (py "calm") (py "calm") []
           (λ name, startswith name (py "calm_"))).
  - by vm_compute.
  - constructor.
  - intros i Hi. reflexivity.
Defined.

(** With names that the pattern does match, [next_filename] counts: the
    backslash stands where the dot of the extension is expected. *)
Example next_filename_backslash :
  next_filename (H := ascii_re)
    [(py "positive_001\.jpg", true); (py "POSITIVE_007\xJPG", true); (py "positive_009.jpg", true)]
    (py "positive") (py ".jpg")
  = Some (py "positive_008.jpg").
Proof. by vm_compute. Qed.

End AddMemeExamples.
